(** * partest project generator: a shallow embedding and its properties

    The development follows the generator modules of [partest/project_gen].

    Embedding:
    - [PyStr]: the Python [str] methods the generators call;
    - [Catalog]: the shape of [api_reference.json] once loaded;
    - [TestsContainer] ([models_tests.py]): endpoint grouping, resource-id
      inference and test-case emission;
    - [EndpointsContainer] ([models_endpoints.py]): path declarations;
    - [ValidationsContainer] ([models_validates.py]): pydantic models.

    Statements: [Vocabulary], [IdSpec], [PathSpec], [TestSpec] and
    [ModelSpec] hold the notions the properties are stated with, [Samples]
    the catalogs they are tried on. The properties follow, module by module.

    Text is modelled as [string] over 8-bit characters; [lower], [upper] and
    [capitalize] act on the ASCII letters. Python dictionaries keep insertion
    order, so they are association lists updated in place ([dict_set]); the
    iteration order of a Python set is a parameter ([list_of_set]); the set
    of generated model names is a [gset]. An exception that leaves a
    generator is a [Raised] result. *)

From Stdlib Require Import String Ascii List Bool Arith ZArith Lia.
From Stdlib Require Import Permutation Sorted DecimalString.
From stdpp Require Import gmap strings.
Import ListNotations.
Set Warnings "-register-all,-clear-no-such-hyp".
Open Scope string_scope.
Open Scope list_scope.

(** The double quote and the line feed, as one-character strings. *)
Definition DQ : string := String "034"%char EmptyString.
Definition NL : string := String "010"%char EmptyString.

(** ** Python string methods *)

Module PyStr.

Definition is_upper (c : ascii) : bool :=
  let n := nat_of_ascii c in (65 <=? n)%nat && (n <=? 90)%nat.

Definition is_lower (c : ascii) : bool :=
  let n := nat_of_ascii c in (97 <=? n)%nat && (n <=? 122)%nat.

Definition lower_char (c : ascii) : ascii :=
  if is_upper c then ascii_of_nat (nat_of_ascii c + 32) else c.

Definition upper_char (c : ascii) : ascii :=
  if is_lower c then ascii_of_nat (nat_of_ascii c - 32) else c.

Fixpoint map_chars (f : ascii -> ascii) (s : string) : string :=
  match s with
  | EmptyString => EmptyString
  | String c s' => String (f c) (map_chars f s')
  end.

(** [s.lower()], [s.upper()], [s.capitalize()] *)
Definition lower (s : string) : string := map_chars lower_char s.
Definition upper (s : string) : string := map_chars upper_char s.
Definition capitalize (s : string) : string :=
  match s with
  | EmptyString => EmptyString
  | String c s' => String (upper_char c) (lower s')
  end.

(** [s.startswith(p)] *)
Definition startswith (s p : string) : bool := String.prefix p s.

(** [sub in s] *)
Fixpoint contains (sub s : string) : bool :=
  String.prefix sub s ||
  match s with
  | EmptyString => false
  | String _ s' => contains sub s'
  end.

(** [s.replace(old, new)] for a non-empty [old]: occurrences are taken left
    to right without overlap; [skip] counts the characters of the occurrence
    just replaced that are still to be dropped. *)
Fixpoint replace_from (old new : string) (skip : nat) (s : string) : string :=
  match s with
  | EmptyString => EmptyString
  | String c s' =>
      match skip with
      | S k => replace_from old new k s'
      | O =>
          if String.prefix old s
          then new +:+ replace_from old new (String.length old - 1) s'
          else String c (replace_from old new 0 s')
      end
  end.

Definition replace (old new s : string) : string := replace_from old new 0 s.

(** [s.split(sep)] for a one-character separator: the result is never
    empty. [cur] is the segment being read, reversed. *)
Fixpoint rev_string (acc s : string) : string :=
  match s with
  | EmptyString => acc
  | String c s' => rev_string (String c acc) s'
  end.

Fixpoint split_from (sep : ascii) (cur : string) (s : string) : list string :=
  match s with
  | EmptyString => [rev_string EmptyString cur]
  | String c s' =>
      if Ascii.eqb c sep
      then rev_string EmptyString cur :: split_from sep EmptyString s'
      else split_from sep (String c cur) s'
  end.

Definition split (sep : ascii) (s : string) : list string := split_from sep EmptyString s.

(** [s.split(sep, 1)]: at most one cut. *)
Fixpoint split1_from (sep : ascii) (cur : string) (s : string) : list string :=
  match s with
  | EmptyString => [rev_string EmptyString cur]
  | String c s' =>
      if Ascii.eqb c sep
      then [rev_string EmptyString cur; s']
      else split1_from sep (String c cur) s'
  end.

Definition split1 (sep : ascii) (s : string) : list string := split1_from sep EmptyString s.

(** [s.lstrip(c)], [s.rstrip(c)], [s.strip(c)] for a one-character set. *)
Fixpoint lstrip (c : ascii) (s : string) : string :=
  match s with
  | EmptyString => EmptyString
  | String d s' => if Ascii.eqb d c then lstrip c s' else s
  end.

Definition rstrip (c : ascii) (s : string) : string :=
  rev_string EmptyString (lstrip c (rev_string EmptyString s)).

Definition strip (c : ascii) (s : string) : string := rstrip c (lstrip c s).

(** [sep.join(l)] *)
Definition join (sep : string) (l : list string) : string := String.concat sep l.

(** [l[-1]] on a list that [split] produced. *)
Definition last_seg (l : list string) : string := List.last l EmptyString.

(** [str(n)] for an integer. *)
Definition str_of_Z (n : Z) : string := NilEmpty.string_of_int (Z.to_int n).

(** [s[n:]] *)
Fixpoint drop (n : nat) (s : string) : string :=
  match n, s with
  | O, _ => s
  | S k, EmptyString => EmptyString
  | S k, String _ s' => drop k s'
  end.

(** [s.endswith(p)] *)
Definition endswith (s p : string) : bool :=
  String.prefix (rev_string EmptyString p) (rev_string EmptyString s).

End PyStr.


(** ** Python values shared by the generators *)

(** A [dict] with string keys, in insertion order. Assigning to a key that is
    present keeps its position. *)
Definition dict (V : Type) : Type := list (string * V).

Fixpoint dict_get {V : Type} (d : dict V) (k : string) : option V :=
  match d with
  | [] => None
  | (k', v) :: d' => if String.eqb k' k then Some v else dict_get d' k
  end.

Definition dict_mem {V : Type} (d : dict V) (k : string) : bool :=
  match dict_get d k with Some _ => true | None => false end.

Fixpoint dict_set {V : Type} (d : dict V) (k : string) (v : V) : dict V :=
  match d with
  | [] => [(k, v)]
  | (k', v') :: d' =>
      if String.eqb k' k then (k', v) :: d' else (k', v') :: dict_set d' k v
  end.

Definition dict_keys {V : Type} (d : dict V) : list string := map fst d.
Definition dict_values {V : Type} (d : dict V) : list V := map snd d.

(** Exceptions that can leave a generator. *)
Inductive exn : Type :=
  | KeyError (key : string)
  | JSONLoadError (msg : string)
  | Exception (msg : string).

Inductive result (A : Type) : Type :=
  | Ok (a : A)
  | Raised (e : exn).
Arguments Ok {A} a.
Arguments Raised {A} e.

Definition bind {A B : Type} (r : result A) (k : A -> result B) : result B :=
  match r with
  | Ok a => k a
  | Raised e => Raised e
  end.

Notation "'do' x <- r ; k" := (bind r (fun x => k))
  (at level 10, x name, r at level 100, k at level 200).

(** A string is truthy when it is not empty. *)
Definition str_truthy (s : string) : bool :=
  match s with EmptyString => false | String _ _ => true end.

Definition opt_str_eqb (o : option string) (s : string) : bool :=
  match o with Some x => String.eqb x s | None => false end.

Definition mem_str (x : string) (l : list string) : bool :=
  existsb (String.eqb x) l.

(** ** The catalog: [api_reference.json] once loaded

    The catalog is taken as the normalization step writes it: an absent key
    is [None], a parameter has a name and a type, status codes are integers
    or strings. JSON [null] and floating-point values are outside the
    model. *)

Module Catalog.

(** A JSON-schema dictionary: the keys the generators read, and the names of
    the other keys present ([s_other]); the dictionary is falsy exactly when
    it has no key at all. *)
Inductive schema : Type :=
  Schema (s_type : option string)
         (s_format : option string)
         (s_properties : option (list (string * schema)))
         (s_items : option schema)
         (s_required : option (list string))
         (s_nullable : option bool)
         (s_other : list string).

Definition s_type (s : schema) := let 'Schema t _ _ _ _ _ _ := s in t.
Definition s_format (s : schema) := let 'Schema _ f _ _ _ _ _ := s in f.
Definition s_properties (s : schema) := let 'Schema _ _ p _ _ _ _ := s in p.
Definition s_items (s : schema) := let 'Schema _ _ _ i _ _ _ := s in i.
Definition s_required (s : schema) := let 'Schema _ _ _ _ r _ _ := s in r.
Definition s_nullable (s : schema) := let 'Schema _ _ _ _ _ n _ := s in n.
Definition s_other (s : schema) := let 'Schema _ _ _ _ _ _ o := s in o.

(** The empty dictionary [{}]. *)
Definition empty_schema : schema := Schema None None None None None None [].

Definition is_some {A : Type} (o : option A) : bool :=
  match o with Some _ => true | None => false end.

(** [bool(schema)] *)
Definition schema_truthy (s : schema) : bool :=
  is_some (s_type s) || is_some (s_format s) || is_some (s_properties s)
  || is_some (s_items s) || is_some (s_required s) || is_some (s_nullable s)
  || negb (Nat.eqb (List.length (s_other s)) 0).

(** [schema.get('properties')] as a condition: present and not empty. *)
Definition properties_truthy (s : schema) : bool :=
  match s_properties s with
  | Some (_ :: _) => true
  | _ => false
  end.

(** [schema.get('properties', {})] *)
Definition properties_or_empty (s : schema) : list (string * schema) :=
  match s_properties s with Some ps => ps | None => [] end.

(** The value under ['status_code']: an integer, a string, or absent. *)
Inductive status : Type :=
  | StatusInt (n : Z)
  | StatusStr (s : string)
  | StatusNone.

(** [str(r.get('status_code'))] *)
Definition str_of_status (c : status) : string :=
  match c with
  | StatusInt n => PyStr.str_of_Z n
  | StatusStr s => s
  | StatusNone => "None"
  end.

(** [expected_status == n] for an integer literal [n] *)
Definition status_is (c : status) (n : Z) : bool :=
  match c with
  | StatusInt m => Z.eqb m n
  | _ => false
  end.

Record response : Type := Response {
  status_code : status;
  r_schema : option schema;
  content_type : option string
}.

(** A parameter of an endpoint. The generators read its two keys by
    subscript ([param['type']], and [param['name']] for a parameter of type
    path), which raises [KeyError] on a parameter without the key. The
    record has both: the catalogs of this development are those whose
    parameters carry the two keys, and what is proved says nothing of the
    others. *)
Record parameter : Type := Param {
  p_name : string;
  p_type : string
}.

Record request_body : Type := RequestBody {
  rb_content_type : option string;
  rb_schema : option schema
}.

(** [bool(endpoint['request_body'])] *)
Definition request_body_truthy (rb : option request_body) : bool :=
  match rb with
  | Some b => is_some (rb_content_type b) || is_some (rb_schema b)
  | None => false
  end.

(** One catalog entry; [None] stands for an absent key. *)
Record endpoint_data : Type := EndpointData {
  d_method : option string;
  d_path : option string;
  d_description : option string;
  d_parameters : option (list parameter);
  d_request_body : option request_body;
  d_responses : option (dict response);
  d_source_title : option string
}.

Definition catalog : Type := dict endpoint_data.

(** What reading and parsing the catalog file gives. *)
Inductive load_outcome : Type :=
  | Loaded (api : catalog)
  | LoadFailed (msg : string).

End Catalog.
Import Catalog.

(** ** [models_tests.py]: class [TestsContainer] *)

Module TestsContainer.

Record TestFile : Type := MkTestFile { name : string; content : string }.

(** The per-endpoint dictionary that [_get_endpoint_groups] builds. *)
Record endpoint : Type := Endpoint {
  path : string;
  method : string;
  description : string;
  parameters : list parameter;
  request_body : option Catalog.request_body;
  responses : dict response;
  endpoint_name : string;
  path_parameters : list string;
  title : string
}.

(** One value of [id_mappings]. *)
Record mapping : Type := Mapping {
  source : string;
  source_test_name : string;
  id_field : string;
  used_in : list string
}.

Definition _load_api_reference (file : load_outcome) : result catalog :=
  match file with
  | Loaded api => Ok api
  | LoadFailed msg => Raised (JSONLoadError msg)
  end.

Definition _clean_name (name : string) : string :=
  PyStr.replace " " "_"
    (PyStr.replace "." "_"
      (PyStr.replace "-" "_"
        (PyStr.replace "}" EmptyString (PyStr.replace "{" EmptyString name)))).

Definition _get_service_and_title (api : catalog) (endpoint : string)
  : string * string :=
  let source_title :=
    match dict_get api endpoint with
    | Some endpoint_details => d_source_title endpoint_details
    | None => None
    end in
  let title0 := match source_title with Some t => t | None => "common" end in
  let title :=
    PyStr.replace "}" EmptyString
      (PyStr.replace "{" EmptyString (PyStr.replace " " "_" (PyStr.lower title0))) in
  let endpoint_clean :=
    PyStr.lstrip "/" (PyStr.last_seg (PyStr.split1 " " endpoint)) in
  let parts := PyStr.split "/" endpoint_clean in
  let service :=
    match parts with
    | p0 :: _ => PyStr.replace "}" EmptyString (PyStr.replace "{" EmptyString (PyStr.lower p0))
    | [] => "common"
    end in
  let service :=
    if String.eqb service "users_profile" then "profile" else service in
  (service, title).

Definition path_parameters_of (params : list parameter) : list string :=
  map p_name (List.filter (fun param => String.eqb (p_type param) "path") params).

(** One iteration of the loop of [_get_endpoint_groups]. *)
Definition group_step (api : catalog) (groups : dict (list endpoint))
    (item : string * endpoint_data) : dict (list endpoint) :=
  let '(endpoint_path, endpoint_data) := item in
  let path_parts := PyStr.split "/" endpoint_path in
  let '(service, title) := _get_service_and_title api endpoint_path in
  let service := _clean_name service in
  let groups :=
    if dict_mem groups service then groups else dict_set groups service [] in
  let params :=
    match d_parameters endpoint_data with Some ps => ps | None => [] end in
  let record :=
    {| path := endpoint_path;
       method :=
         PyStr.upper
           (match d_method endpoint_data with Some m => m | None => EmptyString end);
       description :=
         match d_description endpoint_data with Some d => d | None => EmptyString end;
       parameters := params;
       request_body := d_request_body endpoint_data;
       responses :=
         match d_responses endpoint_data with Some r => r | None => [] end;
       endpoint_name := _clean_name (PyStr.last_seg path_parts);
       path_parameters := path_parameters_of params;
       title := title |} in
  dict_set groups service
    (match dict_get groups service with
     | Some endpoints => endpoints ++ [record]
     | None => [record]
     end).

Definition _get_endpoint_groups (api : catalog) : dict (list endpoint) :=
  fold_left (group_step api) api [].

Fixpoint foldM {A B : Type} (f : A -> B -> result A) (l : list B) (a : A)
  : result A :=
  match l with
  | [] => Ok a
  | b :: l' => do a' <- f a b; foldM f l' a'
  end.

(** [next((r for r in responses.values()
          if str(r.get('status_code')).startswith('2')), None)] *)
Definition success_response (responses : dict response) : option response :=
  List.find
    (fun r => PyStr.startswith (str_of_status (status_code r)) "2")
    (dict_values responses).

Section WithSetOrder.

(** [list(s)] for a set [s] of strings: the order in which a Python set
    yields its elements is not fixed by the language. The set is given by
    the sequence of its insertions. *)
Variable list_of_set : list string -> list string.

Definition _get_path_parameters (api : catalog) (service : string)
  : result (list string) :=
  match dict_get (_get_endpoint_groups api) service with
  | None => Raised (KeyError service)
  | Some endpoints =>
      let unique_params :=
        fold_left
          (fun unique_params endpoint =>
             if negb (String.eqb (method endpoint) "POST")
                && negb (Nat.eqb (List.length (path_parameters endpoint)) 0)
             then unique_params ++ path_parameters endpoint
             else unique_params)
          endpoints [] in
      Ok (list_of_set unique_params)
  end.

Definition snake_case_of (param : string) : string :=
  PyStr.lower (PyStr.replace "Id" "_id" param).

Definition uuid_id_field (properties : dict schema) (field : string) : bool :=
  PyStr.contains "id" (PyStr.lower field)
  && match dict_get properties field with
     | Some field_schema => opt_str_eqb (s_format field_schema) "uuid"
     | None => false
     end.

Definition _find_resource_id_field (api : catalog) (service : string)
    (responses : dict response) : result (option string) :=
  do path_params <- _get_path_parameters api service;
  match success_response responses with
  | None => Ok None
  | Some success =>
      match r_schema success with
      | None => Ok None
      | Some schema =>
          if negb (schema_truthy schema) then Ok None
          else if opt_str_eqb (content_type success) "text/plain"
                  && opt_str_eqb (s_type schema) "string"
                  && opt_str_eqb (s_format schema) "uuid"
          then Ok (Some (PyStr.lower service +:+ "Id"))
          else if opt_str_eqb (s_type schema) "string"
          then Ok (Some "response")
          else if opt_str_eqb (s_type schema) "object"
                  && properties_truthy schema
          then
            let properties := properties_or_empty schema in
            match List.find (dict_mem properties) path_params with
            | Some param => Ok (Some param)
            | None =>
                match List.find (dict_mem properties)
                                (map snake_case_of path_params) with
                | Some snake_case => Ok (Some snake_case)
                | None =>
                    Ok (List.find (uuid_id_field properties)
                                  (dict_keys properties))
                end
            end
          else Ok None
      end
  end.

Definition test_name_suffix_of (service endpoint_name : string) : string :=
  if String.eqb endpoint_name service then "default"
  else endpoint_name +:+ "_default".

(** The body of [for code in success_codes] in [_predict_id_usage]. *)
Definition record_source (api : catalog) (service : string) (e : endpoint)
    (id_mappings : dict mapping) (code : string) : result (dict mapping) :=
  if dict_mem (responses e) code then
    do found <- _find_resource_id_field api service (responses e);
    match found with
    | Some id_field =>
        if str_truthy id_field then
          let method := PyStr.lower (method e) in
          let test_name_suffix :=
            test_name_suffix_of service (endpoint_name e) in
          let source_test_name :=
            "test_" +:+ method +:+ "_" +:+ service +:+ "_" +:+ test_name_suffix in
          Ok (dict_set id_mappings service
                {| source := path e;
                   source_test_name := source_test_name;
                   id_field := id_field;
                   used_in := [] |})
        else Ok id_mappings
    | None => Ok id_mappings
    end
  else Ok id_mappings.

Definition record_endpoint (api : catalog) (service : string)
    (id_mappings : dict mapping) (e : endpoint) : result (dict mapping) :=
  if String.eqb (method e) "POST"
  then foldM (record_source api service e) ["200"; "201"] id_mappings
  else Ok id_mappings.

Definition record_service (api : catalog) (id_mappings : dict mapping)
    (group : string * list endpoint) : result (dict mapping) :=
  foldM (record_endpoint api (fst group)) (snd group) id_mappings.

(** [id_mappings[service]['used_in'].append(p)] *)
Definition append_used_in (id_mappings : dict mapping) (service p : string)
  : dict mapping :=
  match dict_get id_mappings service with
  | Some m =>
      dict_set id_mappings service
        {| source := source m;
           source_test_name := source_test_name m;
           id_field := id_field m;
           used_in := used_in m ++ [p] |}
  | None => id_mappings
  end.

Definition id_field_of (id_mappings : dict mapping) (service : string) : string :=
  match dict_get id_mappings service with
  | Some m => id_field m
  | None => EmptyString
  end.

Definition use_param (service : string) (e : endpoint)
    (id_mappings : dict mapping) (param : parameter) : dict mapping :=
  if String.eqb (p_type param) "path" then
    let param_name := p_name param in
    let id_field := id_field_of id_mappings service in
    if String.eqb param_name id_field
       || PyStr.contains "id" (PyStr.lower param_name)
    then append_used_in id_mappings service (path e)
    else id_mappings
  else id_mappings.

Definition use_endpoint (service : string) (id_mappings : dict mapping)
    (e : endpoint) : dict mapping :=
  if mem_str (method e) ["GET"; "PUT"; "DELETE"; "PATCH"]
  then fold_left (use_param service e) (parameters e) id_mappings
  else id_mappings.

Definition use_service (id_mappings : dict mapping)
    (group : string * list endpoint) : dict mapping :=
  if dict_mem id_mappings (fst group)
  then fold_left (use_endpoint (fst group)) (snd group) id_mappings
  else id_mappings.

Definition _predict_id_usage (api : catalog) : result (dict mapping) :=
  let api_reference := _get_endpoint_groups api in
  do id_mappings <- foldM (record_service api) api_reference [];
  Ok (fold_left use_service api_reference id_mappings).

(** [sorted(l, key=...)]: Python's sort is stable, so the result is the one
    insertion sort gives when an element is put before the first element
    whose key is not smaller. *)
Fixpoint insert_sorted {A : Type} (leb : A -> A -> bool) (x : A) (l : list A)
  : list A :=
  match l with
  | [] => [x]
  | y :: l' => if leb x y then x :: l else y :: insert_sorted leb x l'
  end.

Definition sorted {A : Type} (leb : A -> A -> bool) (l : list A) : list A :=
  fold_right (insert_sorted leb) [] l.

(** [method_order.get(m, 5)] *)
Definition method_order (m : string) : nat :=
  if String.eqb m "POST" then 0
  else if String.eqb m "PUT" then 1
  else if String.eqb m "GET" then 2
  else if String.eqb m "PATCH" then 3
  else if String.eqb m "DELETE" then 4
  else 5.

Definition sort_key (e : endpoint) : nat * string :=
  (method_order (method e), path e).

(** Tuples compare lexicographically, strings by character code. *)
Definition key_leb (k1 k2 : nat * string) : bool :=
  Nat.ltb (fst k1) (fst k2)
  || (Nat.eqb (fst k1) (fst k2) && String.leb (snd k1) (snd k2)).

Definition endpoint_leb (e1 e2 : endpoint) : bool :=
  key_leb (sort_key e1) (sort_key e2).

Definition qualified_name (service endpoint_name : string) : string :=
  if String.eqb endpoint_name service then service
  else service +:+ "_" +:+ endpoint_name.

(** The lines one iteration of the loop of [_generate_test_content] appends
    to [content]; [title] is the title of the first endpoint of the group. *)
Definition test_method_lines (id_mappings : dict mapping)
    (service title : string) (endpoint : endpoint) : list string :=
  let method := method endpoint in
  let endpoint_name := endpoint_name endpoint in
  let path_key := qualified_name service endpoint_name in
  match success_response (responses endpoint) with
  | None => []
  | Some success =>
      let expected_status := status_code success in
      let test_name_suffix := test_name_suffix_of service endpoint_name in
      let test_name_suffix :=
        if negb (Nat.eqb (List.length (path_parameters endpoint)) 0)
           && negb (String.eqb endpoint_name service)
        then endpoint_name +:+ "_id_default"
        else test_name_suffix in
      let test_name :=
        "test_" +:+ PyStr.lower method +:+ "_" +:+ service +:+ "_"
        +:+ test_name_suffix in
      let model_name := qualified_name service endpoint_name in
      let validate_model :=
        "models." +:+ PyStr.lower title +:+ ".validate."
        +:+ PyStr.lower method +:+ "_" +:+ model_name
        +:+ "_validation_success" in
      let headers := "models." +:+ PyStr.lower title +:+ ".headers.auth" in
      let dependency : option string :=
        match dict_get id_mappings service with
        | Some m =>
            if mem_str (path endpoint) (used_in m)
            then (if str_truthy (source_test_name m)
                  then Some (source_test_name m) else None)
            else None
        | None => None
        end in
      let data_type : option string :=
        if request_body_truthy (request_body endpoint)
           && mem_str method ["POST"; "PUT"]
        then Some ("models." +:+ PyStr.lower title +:+ ".payload."
                   +:+ PyStr.lower method +:+ "_" +:+ model_name
                   +:+ "_payload_default")
        else None in
      let dependency_line :=
        match dependency with
        | Some d => ", depends=['" +:+ d +:+ "'], force=True"
        | None => EmptyString
        end in
      [ "    @pytest.mark.dependency(name='" +:+ test_name +:+ "'"
          +:+ dependency_line +:+ ")";
        "    async def " +:+ test_name
          +:+ "(self, domain, api_client, models):" ]
      ++ (if is_some dependency
          then ["        add_url = f'{self.__class__.resource_id}'"] else [])
      ++ [ "        response = await api_client.make_request(";
           "            '" +:+ method +:+ "',";
           "            models." +:+ PyStr.lower title +:+ ".paths."
             +:+ path_key +:+ ",";
           "            headers=" +:+ headers +:+ "," ]
      ++ (match data_type with
          | Some d => ["            data_type=" +:+ d +:+ ","]
          | None => []
          end)
      ++ (if is_some dependency
          then ["            add_url1=add_url,"] else [])
      ++ [ "            expected_status_code="
             +:+ str_of_status expected_status +:+ "," ]
      ++ (if negb (opt_str_eqb
                     (match r_schema success with
                      | Some schema => s_type schema
                      | None => None
                      end) "null")
          then ["            validate_model=" +:+ validate_model] else [])
      ++ [ "        )" ]
      ++ (if status_is expected_status 201 && dict_mem id_mappings service
          then
            let resource_field := id_field_of id_mappings service in
            if String.eqb resource_field "response"
            then [ "        assert response is not None";
                   "        self.__class__.resource_id = response" ]
            else [ "        # Автоматически выбрано поле '" +:+ resource_field
                     +:+ "' для resource_id";
                   "        assert response is not None";
                   "        self.__class__.resource_id = response['"
                     +:+ resource_field +:+ "']" ]
          else if status_is expected_status 204
          then [ "        assert response == ''" ]
          else [ "        assert response is not None" ])
      ++ [ EmptyString ]
  end.

Definition group_title (endpoints : list endpoint) : string :=
  match endpoints with
  | e :: _ => title e
  | [] => "common"
  end.

Definition class_header_lines (id_mappings : dict mapping)
    (service title : string) : list string :=
  [ "import allure";
    "import pytest";
    EmptyString;
    EmptyString;
    "@allure.story('" +:+ PyStr.capitalize service +:+ "')";
    "@allure.label(" +:+ DQ +:+ "suite" +:+ DQ +:+ ", " +:+ DQ +:+ "API"
      +:+ DQ +:+ ")";
    "@allure.label(" +:+ DQ +:+ "component" +:+ DQ +:+ ", " +:+ DQ
      +:+ PyStr.capitalize service +:+ DQ +:+ ")";
    "@allure.label(" +:+ DQ +:+ "owner" +:+ DQ +:+ ", " +:+ DQ
      +:+ PyStr.capitalize title +:+ DQ +:+ ")";
    "@pytest.mark.asyncio";
    "class Test" +:+ PyStr.capitalize service +:+ "Default:" ]
  ++ (if dict_mem id_mappings service
      then ["    resource_id: str = None"] else [])
  ++ [ EmptyString ].

(** The list [content] at the end of [_generate_test_content]. *)
Definition test_content_lines (id_mappings : dict mapping) (service : string)
    (endpoints : list endpoint) : list string :=
  let title := group_title endpoints in
  class_header_lines id_mappings service title
  ++ flat_map (test_method_lines id_mappings service title)
              (sorted endpoint_leb endpoints).

Definition _generate_test_content (id_mappings : dict mapping)
    (service : string) (endpoints : list endpoint) : string :=
  PyStr.join NL
             (test_content_lines id_mappings service endpoints).

Definition _generate_test_files (endpoint_groups : dict (list endpoint))
    (id_mappings : dict mapping) : list TestFile :=
  map (fun group : string * list endpoint =>
         let '(service, endpoints) := group in
         let title := group_title endpoints in
         let file_name :=
           title +:+ "/" +:+ service +:+ "/test_" +:+ service
           +:+ "_default.py" in
         {| name := file_name;
            content := _generate_test_content id_mappings service endpoints |})
      endpoint_groups.

(** [TestsContainer.__init__], followed by [get_files]. *)
Definition init_files (file : load_outcome) : result (list TestFile) :=
  do api_reference <- _load_api_reference file;
  let endpoint_groups := _get_endpoint_groups api_reference in
  do id_mappings <- _predict_id_usage api_reference;
  Ok (_generate_test_files endpoint_groups id_mappings).

End WithSetOrder.

(** [get_file_by_name]: the first file of that name, if any. *)
Definition get_file_by_name (files : list TestFile) (file_name : string)
  : option TestFile :=
  List.find (fun file => String.eqb (name file) file_name) files.

End TestsContainer.

(** ** [models_endpoints.py]: class [EndpointsContainer] *)

Module EndpointsContainer.

(** The text of a generated file. [_generate_config_content] prints [repr]
    of JSON values and of sets into [configs.py]; that text is kept
    symbolic, as the catalog it is generated from. *)
Inductive file_text : Type :=
  | Text (s : string)
  | ConfigText (api : catalog).

Record EndpointFile : Type := MkEndpointFile { name : string; content : file_text }.

(** The load failure is caught and reported, and the empty dictionary
    returned. *)
Definition _load_api_reference (file : load_outcome) : catalog :=
  match file with
  | Loaded api => api
  | LoadFailed _ => []
  end.

(** [p.startswith('{') and p.endswith('}')] *)
Definition is_dynamic (p : string) : bool :=
  PyStr.startswith p "{" && PyStr.endswith p "}".

(** [x or 'root'] *)
Definition or_root (s : string) : string :=
  if str_truthy s then s else "root".

Definition sanitize (s : string) : string :=
  PyStr.replace "." "_"
    (PyStr.replace "-" "_"
      (PyStr.replace "}" EmptyString (PyStr.replace "{" EmptyString s))).

(** What the grouping loop of [_generate_paths_content] derives from one
    path: the class name, the endpoint name and the URL template; [None]
    when the path is skipped. *)
Definition classify_path (path : string) : option (string * string * string) :=
  if negb (PyStr.startswith path "/") then None
  else
    let parts := PyStr.split "/" (PyStr.strip "/" path) in
    if Nat.ltb (List.length parts) 1 then None
    else
      let '(service_name, endpoint_parts) :=
        match parts with
        | p0 :: p1 :: rest =>
            if String.eqb p0 "users" && String.eqb p1 "profile"
            then ("UsersProfile", rest)
            else (PyStr.capitalize p0, p1 :: rest)
        | p0 :: rest => (PyStr.capitalize p0, rest)
        | [] => (EmptyString, [])
        end in
      let endpoint_name :=
        match endpoint_parts with
        | [] => "root"
        | _ => PyStr.join "_" endpoint_parts
        end in
      let endpoint_name := or_root (sanitize endpoint_name) in
      let clean_path :=
        PyStr.join "/" (List.filter (fun p => negb (is_dynamic p)) parts) in
      let has_dynamic_param :=
        Nat.ltb (List.length (PyStr.split "/" clean_path)) (List.length parts) in
      let clean_path :=
        if has_dynamic_param then "/" +:+ clean_path +:+ "/"
        else "/" +:+ clean_path in
      Some (service_name, endpoint_name, clean_path).

(** [services[service_name][endpoint_name] = clean_path], creating the inner
    dictionary when the class is new. *)
Definition services_step (services : dict (dict string)) (path : string)
  : dict (dict string) :=
  match classify_path path with
  | None => services
  | Some (service_name, endpoint_name, clean_path) =>
      let services :=
        if dict_mem services service_name then services
        else dict_set services service_name [] in
      dict_set services service_name
        (dict_set
           (match dict_get services service_name with
            | Some endpoints => endpoints
            | None => []
            end)
           endpoint_name clean_path)
  end.

(** The paths added to [unique_paths], in the order they are added. *)
Definition collect_paths (api : catalog) : list string :=
  fold_left
    (fun unique_paths (item : string * endpoint_data) =>
       let path :=
         match d_path (snd item) with Some p => p | None => EmptyString end in
       if str_truthy path && negb (mem_str path unique_paths)
       then unique_paths ++ [path] else unique_paths)
    api [].

Definition prefix_of (service_name : string) : string :=
  if String.eqb service_name "UsersProfile" then "users/profile"
  else PyStr.lower service_name.

Definition endpoint_lines (service_name : string) (item : string * string)
  : list string :=
  let '(endpoint_name, path) := item in
  if String.eqb endpoint_name "root"
     && String.eqb (PyStr.strip "/" path) (prefix_of service_name)
  then []
  else
    let relative_path :=
      PyStr.strip "/"
        (PyStr.drop (String.length ("/" +:+ prefix_of service_name)) path) in
    if PyStr.endswith endpoint_name "_id"
       || PyStr.endswith endpoint_name "_filter"
    then ["        " +:+ endpoint_name +:+ " = f" +:+ DQ +:+ "{prefix}/"
            +:+ relative_path +:+ "/" +:+ DQ]
    else ["        " +:+ endpoint_name +:+ " = f" +:+ DQ +:+ "{prefix}/"
            +:+ relative_path +:+ DQ].

Definition service_lines (group : string * dict string) : list string :=
  let '(service_name, endpoints) := group in
  [ "    class " +:+ service_name +:+ ":";
    "        prefix = f" +:+ DQ +:+ "{API_PREFIX}/" +:+ prefix_of service_name
      +:+ DQ ]
  ++ flat_map (endpoint_lines service_name) endpoints
  ++ [ EmptyString ].

Section WithSetOrder.

(** The iteration order of the set [unique_paths]. *)
Variable list_of_set : list string -> list string.

Definition paths_services (api : catalog) : dict (dict string) :=
  fold_left services_step (list_of_set (collect_paths api)) [].

Definition paths_content_lines (api : catalog) : list string :=
  [ "from dataclasses import dataclass";
    "from typing import Optional";
    EmptyString;
    "API_PREFIX = " +:+ DQ +:+ "/api/v1/pages" +:+ DQ;
    EmptyString;
    "@dataclass";
    "class Paths:" ]
  ++ flat_map service_lines (paths_services api)
  ++ [ "    def get_path(self, service: str, endpoint: str) -> Optional[str]:";
       "        svc = getattr(self, service, None)";
       "        if svc:";
       "            return getattr(svc, endpoint, None)";
       "        return None";
       EmptyString ].

Definition _generate_paths_content (api : catalog) : string :=
  PyStr.join NL (paths_content_lines api).

Definition _generate_endpoint_files (api : catalog) : list EndpointFile :=
  let paths_content := Text (_generate_paths_content api) in
  let config_content := ConfigText api in
  [ {| name := "paths.py"; content := paths_content |};
    {| name := "configs.py"; content := config_content |} ].

(** [EndpointsContainer.__init__], followed by [get_files]: loading cannot
    raise, so the files are always produced. *)
Definition init_files (file : load_outcome) : result (list EndpointFile) :=
  let api_reference := _load_api_reference file in
  Ok (_generate_endpoint_files api_reference).

End WithSetOrder.

End EndpointsContainer.

(** ** [models_validates.py]: class [ValidationsContainer] *)

Module ValidationsContainer.

(** Generated source text, as the list of its lines; the empty list stands
    for the empty string, which the generator returns for a model that was
    emitted before. *)
Definition code : Type := list string.

(** ["\n\n".join(blocks)] on texts given by their lines. *)
Definition join_blocks (blocks : list code) : code :=
  match blocks with
  | [] => []
  | b :: bs => b ++ flat_map (fun b' => EmptyString :: b') bs
  end.

Definition code_truthy (c : code) : bool :=
  negb (Nat.eqb (List.length c) 0).

(** The failure is logged and raised again as a plain [Exception]. *)
Definition _load_api_reference (file : load_outcome) : result catalog :=
  match file with
  | Loaded api => Ok api
  | LoadFailed msg =>
      Raised (Exception ("Failed to load api_reference.json: " +:+ msg))
  end.

Definition _snake_to_camel (name : string) : string :=
  PyStr.join EmptyString (map PyStr.capitalize (PyStr.split "_" name)).

(** A field name is truthy when it is given and not empty. *)
Definition field_truthy (field_name : option string) : bool :=
  match field_name with
  | Some f => str_truthy f
  | None => false
  end.

Definition _generate_model_name (field_name : option string)
    (is_success : bool) : string :=
  match field_name with
  | Some f =>
      if is_success && str_truthy f
      then "ResponseSuccessBody" +:+ _snake_to_camel f
      else if is_success then "ResponseSuccessBody" else "ResponseError"
  | None => if is_success then "ResponseSuccessBody" else "ResponseError"
  end.

Fixpoint _get_pydantic_type (schema : schema) (field_name : option string)
  : string :=
  match schema with
  | Schema schema_type _ properties items _ _ _ =>
      if opt_str_eqb schema_type "string" then "str"
      else if opt_str_eqb schema_type "integer" then "int"
      else if opt_str_eqb schema_type "boolean" then "bool"
      else if opt_str_eqb schema_type "array" then
        let item_type :=
          match items with
          | Some item_schema => _get_pydantic_type item_schema field_name
          | None => "Any"
          end in
        "List[" +:+ item_type +:+ "]"
      else if opt_str_eqb schema_type "object"
              || properties_truthy schema
      then _generate_model_name field_name true
      else "Any"
  end.

Fixpoint spaces (n : nat) : string :=
  match n with
  | O => EmptyString
  | S k => String " " (spaces k)
  end.

(** [prop_schema.get('type') == 'object' or prop_schema.get('properties')] *)
Definition is_object_like (s : schema) : bool :=
  opt_str_eqb (s_type s) "object" || properties_truthy s.

(** The model emitted for a schema that is empty or has neither properties
    nor the type array or string. *)
Definition empty_model (model_name : string) (indent : nat) : code :=
  [ "class " +:+ model_name +:+ "(BaseModelWithConfig):";
    spaces indent +:+ "pass" ].

(** [_generate_pydantic_model({}, model_name, ...)]: what the array case
    does when the schema has no ['items']. *)
Definition generate_for_empty (model_name : string) (indent : nat)
    (generated_models : gset string) : code * gset string :=
  if decide (model_name ∈ generated_models) then ([], generated_models)
  else (empty_model model_name indent, {[ model_name ]} ∪ generated_models).

Definition field_line (indent : nat) (required : option (list string))
    (prop_name : string) (prop_schema : schema) : string :=
  let prop_type := _get_pydantic_type prop_schema (Some prop_name) in
  let is_required :=
    mem_str prop_name (match required with Some r => r | None => [] end)
    || match s_nullable prop_schema with
       | Some false => true
       | _ => false
       end in
  let default := if is_required then "..." else "None" in
  spaces indent +:+ prop_name +:+ ": " +:+ prop_type +:+ " = Field("
  +:+ default +:+ ")".

(** [_generate_pydantic_model]: the text of the model and of the models
    nested in it, and the set [generated_models] after the call (the caller
    shares the set with the callee). *)
Fixpoint _generate_pydantic_model (schema : schema) (model_name : string)
    (field_name : option string) (indent : nat)
    (generated_models : gset string) {struct schema} : code * gset string :=
  if decide (model_name ∈ generated_models) then ([], generated_models)
  else
    let generated_models := {[ model_name ]} ∪ generated_models in
    match schema with
    | Schema schema_type _ properties items required _ _ =>
        if negb (schema_truthy schema)
           || (negb (properties_truthy schema)
               && negb (opt_str_eqb schema_type "array"
                        || opt_str_eqb schema_type "string"))
        then (empty_model model_name indent, generated_models)
        else if opt_str_eqb schema_type "string" then
          ([ "class " +:+ model_name +:+ "(RootModel):";
             spaces indent +:+ "root: str = Field(...)" ],
           generated_models)
        else if opt_str_eqb schema_type "array" then
          let item_model_name :=
            _generate_model_name
              (if field_truthy field_name then field_name else Some "items")
              true in
          let '(item_model_code, generated_models) :=
            match items with
            | Some item_schema =>
                _generate_pydantic_model item_schema item_model_name
                  field_name indent generated_models
            | None =>
                generate_for_empty item_model_name indent generated_models
            end in
          let lines :=
            [ "class " +:+ model_name +:+ "(BaseModelWithConfig):";
              spaces indent +:+ "items: List[" +:+ item_model_name
                +:+ "] = Field(...)" ] in
          (if code_truthy item_model_code
           then item_model_code ++ [EmptyString] ++ lines
           else lines,
           generated_models)
        else
          let first_line :=
            "class " +:+ model_name +:+ "(BaseModelWithConfig):" in
          let '(lines, nested_models, generated_models) :=
            match properties with
            | None => ([first_line], [], generated_models)
            | Some props =>
                (fix properties_loop (props : list (string * Catalog.schema))
                     (lines : list string) (nested_models : list code)
                     (generated_models : gset string) {struct props}
                   : list string * list code * gset string :=
                   match props with
                   | [] => (lines, nested_models, generated_models)
                   | (prop_name, prop_schema) :: rest =>
                       let lines :=
                         lines
                         ++ [field_line indent required prop_name prop_schema] in
                       let '(nested_model_code, generated_models) :=
                         if is_object_like prop_schema then
                           _generate_pydantic_model prop_schema
                             (_generate_model_name (Some prop_name) true)
                             (Some prop_name) indent generated_models
                         else if opt_str_eqb (s_type prop_schema) "array" then
                           match prop_schema with
                           | Schema _ _ _ (Some item_schema) _ _ _ =>
                               if is_object_like item_schema then
                                 _generate_pydantic_model item_schema
                                   (_generate_model_name (Some prop_name) true)
                                   (Some prop_name) indent generated_models
                               else ([], generated_models)
                           | _ => ([], generated_models)
                           end
                         else ([], generated_models) in
                       properties_loop rest lines
                         (if code_truthy nested_model_code
                          then nested_models ++ [nested_model_code]
                          else nested_models)
                         generated_models
                   end)
                  props [first_line] [] generated_models
            end in
          (if negb (Nat.eqb (List.length nested_models) 0)
           then join_blocks (nested_models ++ [lines])
           else lines,
           generated_models)
    end.

Definition error_schema : schema :=
  let str := Schema (Some "string") None None None None None [] in
  Schema (Some "object") None
    (Some [("applicationErrorCode", str); ("message", str); ("debug", str)])
    None (Some ["applicationErrorCode"; "message"; "debug"]) None [].

(** [schema.copy()] without the key ['parameters'], when it is there. *)
Definition without_parameters (s : schema) : schema :=
  match s with
  | Schema t f p i r n other =>
      Schema t f p i r n
        (List.filter (fun k => negb (String.eqb k "parameters")) other)
  end.

(** One iteration of the loop over [responses.items()] in
    [_generate_validation_file]. *)
Definition success_step (acc : list string * bool * gset string)
    (item : string * response) : list string * bool * gset string :=
  let '(content_lines, has_success_model, generated_models) := acc in
  let '(response_code, response) := item in
  if negb (PyStr.startswith response_code "2") then acc
  else
    let schema :=
      match r_schema response with Some s => s | None => empty_schema end in
    let schema := without_parameters schema in
    let model_name := _generate_model_name None true in
    let '(model_code, generated_models) :=
      _generate_pydantic_model schema model_name None 4 generated_models in
    if code_truthy model_code
    then (content_lines ++ model_code ++ [EmptyString], true, generated_models)
    else (content_lines, has_success_model, generated_models).

Definition validator_lines : list string :=
  [ "class ValidateResponseSuccess:";
    "    @staticmethod";
    "    def response_default(data):";
    "        try:";
    "            return ResponseSuccessBody.model_validate(data)";
    "        except ValidationError as e:";
    "            PydanticResponseError.print_error(e)";
    EmptyString;
    "class ValidateResponseError:";
    "    @staticmethod";
    "    def response_default(data):";
    "        try:";
    "            return ResponseError.model_validate(data)";
    "        except ValidationError as e:";
    "            PydanticResponseError.print_error(e)";
    EmptyString ].

(** The lines of the file [_generate_validation_file] writes for one
    endpoint; the set of generated models starts empty for each file. *)
Definition validation_file_lines (responses : dict response) : list string :=
  let content_lines :=
    [ "from typing import List, Optional";
      "from partest.utils import PydanticResponseError";
      "from pydantic import Field, ValidationError, BaseModel, ConfigDict, RootModel";
      EmptyString;
      EmptyString;
      "class BaseModelWithConfig(BaseModel):";
      "    model_config = ConfigDict(extra='forbid')";
      EmptyString ] in
  let generated_models : gset string := ∅ in
  let '(error_model_code, generated_models) :=
    _generate_pydantic_model error_schema "ResponseError" None 4
      generated_models in
  let content_lines := content_lines ++ error_model_code ++ [EmptyString] in
  let '(content_lines, has_success_model, generated_models) :=
    fold_left success_step responses (content_lines, false, generated_models) in
  let content_lines :=
    if has_success_model then content_lines
    else content_lines
         ++ [ "class ResponseSuccessBody(BaseModelWithConfig):";
              "    pass";
              EmptyString ] in
  content_lines ++ validator_lines.

(** The content of the file [_generate_validation_file] returns. *)
Definition _generate_validation_file (responses : dict response) : string :=
  PyStr.join NL (validation_file_lines responses).

(** [get_files]: the lines of every validation file, in catalog order (the
    file names go through [pathlib] and are left out). An entry without
    ['method'] or ['responses'] raises [KeyError]. *)
Definition get_files (api : catalog) : result (list (list string)) :=
  TestsContainer.foldM
    (fun files (item : string * endpoint_data) =>
       match d_method (snd item), d_responses (snd item) with
       | Some _, Some responses => Ok (files ++ [validation_file_lines responses])
       | None, _ => Raised (KeyError "method")
       | Some _, None => Raised (KeyError "responses")
       end)
    api [].

(** [ValidationsContainer(path).get_files()] *)
Definition init_files (file : load_outcome) : result (list (list string)) :=
  do api_reference <- _load_api_reference file;
  get_files api_reference.

End ValidationsContainer.

(** ** Vocabulary of the statements *)

Module Vocabulary.

(** Every character of [s] satisfies [P]. *)
Fixpoint all_chars (P : ascii -> bool) (s : string) : bool :=
  match s with
  | EmptyString => true
  | String c s' => P c && all_chars P s'
  end.

Definition differs (c : ascii) : ascii -> bool := fun d => negb (Ascii.eqb d c).

Definition not_upper (c : ascii) : bool := negb (PyStr.is_upper c).

(** The characters [_clean_name] neither removes nor replaces. *)
Definition plain (c : ascii) : bool :=
  differs "{" c && differs "}" c && differs "-" c && differs "." c
  && differs " " c.

(** A path segment: not empty, and without a slash. *)
Definition segment_ok (seg : string) : Prop :=
  seg <> EmptyString /\ all_chars (differs "/") seg = true.

(** The keys of a dictionary of services: no key twice, all lower case. *)
Definition keys_ok (keys : list string) : Prop :=
  List.NoDup keys /\ Forall (fun k => all_chars not_upper k = true) keys.

End Vocabulary.

(** ** Vocabulary of the resource-id inference *)

Module IdSpec.
Import TestsContainer.

(** An operation that may consume the identifier. *)
Definition is_dependent (e : endpoint) : bool :=
  mem_str (method e) ["GET"; "PUT"; "DELETE"; "PATCH"].

(** A path parameter whose name equals the identifier field or contains
    [id], whatever the case. *)
Definition param_matches (id_field : string) (p : parameter) : bool :=
  String.eqb (p_type p) "path"
  && (String.eqb (p_name p) id_field
      || PyStr.contains "id" (PyStr.lower (p_name p))).

Definition matching_params (id_field : string) (e : endpoint) : list parameter :=
  List.filter (param_matches id_field) (parameters e).

(** [used_in] as the specification words it: going through the dependent
    operations of the service, the path of the operation once for each of
    its matching path parameters. *)
Definition used_in_spec (id_field : string) (endpoints : list endpoint)
  : list string :=
  flat_map
    (fun e =>
       if is_dependent e
       then map (fun _ => path e) (matching_params id_field e)
       else [])
    endpoints.

(** A response keyed ["200"] or ["201"]. *)
Definition has_success_code (e : endpoint) : bool :=
  dict_mem (responses e) "200" || dict_mem (responses e) "201".

(** The mapping a qualifying POST [e] records, before [used_in] is filled. *)
Definition mapping_from (service : string) (e : endpoint) (field : string)
  : mapping :=
  {| source := path e;
     source_test_name :=
       "test_" +:+ PyStr.lower (method e) +:+ "_" +:+ service +:+ "_"
       +:+ test_name_suffix_of service (endpoint_name e);
     id_field := field;
     used_in := [] |}.

Definition with_used_in (m : mapping) (l : list string) : mapping :=
  {| source := source m;
     source_test_name := source_test_name m;
     id_field := id_field m;
     used_in := used_in m ++ l |}.

Section WithSetOrder.
Variable list_of_set : list string -> list string.

(** The field a POST contributes as an identifier source, if it qualifies. *)
Definition source_field (api : catalog) (service : string) (e : endpoint)
  : option string :=
  if String.eqb (method e) "POST" && has_success_code e then
    match _find_resource_id_field list_of_set api service (responses e) with
    | Ok (Some f) => if str_truthy f then Some f else None
    | _ => None
    end
  else None.

(** The last qualifying POST at or after [acc], in iteration order. *)
Definition last_source_from (api : catalog) (service : string)
    (acc : option mapping) (endpoints : list endpoint) : option mapping :=
  fold_left
    (fun acc e =>
       match source_field api service e with
       | Some f => Some (mapping_from service e f)
       | None => acc
       end)
    endpoints acc.

(** The first loop of [_predict_id_usage] at one endpoint, when nothing
    raises. *)
Definition pure_record (api : catalog) (service : string)
    (id_mappings : dict mapping) (e : endpoint) : dict mapping :=
  match source_field api service e with
  | Some f => dict_set id_mappings service (mapping_from service e f)
  | None => id_mappings
  end.

Definition pure_record_service (api : catalog) (id_mappings : dict mapping)
    (group : string * list endpoint) : dict mapping :=
  fold_left (pure_record api (fst group)) (snd group) id_mappings.

(** A POST that qualifies as an identifier source with field [f]: it has a
    response keyed ["200"] or ["201"], and Step 1 yields the non-empty
    field [f] for its responses. *)
Definition qualifies (api : catalog) (service : string) (e : endpoint)
    (f : string) : Prop :=
  method e = "POST" /\
  has_success_code e = true /\
  _find_resource_id_field list_of_set api service (responses e) = Ok (Some f) /\
  f <> EmptyString.

End WithSetOrder.

(** The paths one parameter, and one endpoint, add to [used_in]. *)
Definition param_uses (e : endpoint) (id_field : string) (p : parameter)
  : list string :=
  if param_matches id_field p then [path e] else [].

Definition endpoint_uses (id_field : string) (e : endpoint) : list string :=
  if is_dependent e then flat_map (param_uses e id_field) (parameters e)
  else [].

(** A mapping with its [used_in] extended by what [h] gives for its
    identifier field. *)
Definition extended (h : string -> list string) (m : option mapping)
  : option mapping :=
  match m with
  | Some m => Some (with_used_in m (h (id_field m)))
  | None => None
  end.

(** The mapping [_predict_id_usage] holds for a service: the last source
    among the endpoints of the service, with [used_in] as specified. *)
Definition predicted (list_of_set : list string -> list string)
    (api : catalog) (service : string) : option mapping :=
  match dict_get (_get_endpoint_groups api) service with
  | Some endpoints =>
      extended (fun f => used_in_spec f endpoints)
        (last_source_from list_of_set api service None endpoints)
  | None => None
  end.

End IdSpec.

(** ** Vocabulary of the path declarations *)

Module PathSpec.

(** The dictionary [services] of [_generate_paths_content] has the endpoint
    name under the class. *)
Definition declares (services : dict (dict string))
    (service_name endpoint_name : string) : Prop :=
  exists endpoints,
    dict_get services service_name = Some endpoints /\
    dict_mem endpoints endpoint_name = true.

End PathSpec.

(** ** Sample catalogs *)

Module Samples.

Definition uuid_string : schema :=
  Schema (Some "string") (Some "uuid") None None None None [].

Definition plain_string : schema :=
  Schema (Some "string") None None None None None [].

Definition object_of (props : dict schema) : schema :=
  Schema (Some "object") None (Some props) None None None [].

Definition bare_object : schema :=
  Schema (Some "object") None None None None None [].

Definition entry (method : string) (params : list parameter)
    (responses : dict response) : endpoint_data :=
  {| d_method := Some method;
     d_path := None;
     d_description := None;
     d_parameters := Some params;
     d_request_body := None;
     d_responses := Some responses;
     d_source_title := None |}.

Definition json_response (code : Z) (s : schema) : response :=
  {| status_code := StatusInt code;
     r_schema := Some s;
     content_type := Some "application/json" |}.

(** The end-to-end scenario of the specification. *)
Definition api_items : catalog :=
  [ ("POST /items",
     entry "POST" []
       [("201", json_response 201 (object_of [("itemId", uuid_string)]))]);
    ("GET /items/{itemId}",
     entry "GET" [Param "itemId" "path"]
       [("200", json_response 200 bare_object)]) ].

(** A creation returning [{"addressId": "<uuid>"}], read back by a GET. *)
Definition api_address : catalog :=
  [ ("GET /address/{addressId}",
     entry "GET" [Param "addressId" "path"]
       [("200", json_response 200 bare_object)]);
    ("POST /address",
     entry "POST" []
       [("201", json_response 201 (object_of [("addressId", uuid_string)]))]) ].

(** The same creation, answering 202 Accepted. *)
Definition api_accepted : catalog :=
  [ ("POST /address",
     entry "POST" []
       [("202", json_response 202 (object_of [("addressId", uuid_string)]))]);
    ("GET /address/{addressId}",
     entry "GET" [Param "addressId" "path"]
       [("200", json_response 200 bare_object)]) ].

(** Two creations in one service; the second returns a bare string. *)
Definition api_two_posts : catalog :=
  [ ("POST /address",
     entry "POST" []
       [("201", json_response 201 (object_of [("addressId", uuid_string)]))]);
    ("POST /address/import",
     entry "POST" []
       [("201", json_response 201 plain_string)]);
    ("GET /address/{addressId}",
     entry "GET" [Param "addressId" "path"]
       [("200", json_response 200 bare_object)]) ].

(** A creation answering a bare UUID as plain text. *)
Definition api_tokens : catalog :=
  [ ("POST /tokens",
     entry "POST" []
       [("201", {| status_code := StatusInt 201;
                   r_schema := Some uuid_string;
                   content_type := Some "text/plain" |})]) ].

(** A dependent operation with two matching path parameters. *)
Definition api_orgs : catalog :=
  [ ("POST /orgs",
     entry "POST" []
       [("201", json_response 201 (object_of [("orgId", uuid_string)]))]);
    ("GET /orgs/{orgId}/users/{userId}",
     entry "GET" [Param "orgId" "path"; Param "userId" "path"]
       [("200", json_response 200 bare_object)]) ].

(** An endpoint that only ever answers with an error. *)
Definition api_ping : catalog :=
  [ ("GET /ping",
     entry "GET" [] [("500", json_response 500 bare_object)]) ].

(** The mappings [_predict_id_usage] gives for [api_two_posts]. *)
Definition two_posts_mappings : dict TestsContainer.mapping :=
  [("address",
    {| TestsContainer.source := "POST /address/import";
       TestsContainer.source_test_name := "test_post_address_import_default";
       TestsContainer.id_field := "response";
       TestsContainer.used_in := ["GET /address/{addressId}"] |})].

(** A profile endpoint, keyed as [api_reference.json] keys it. *)
Definition api_profile : catalog :=
  [ ("GET /users/profile/settings/{section}",
     {| d_method := Some "GET";
        d_path := Some "/users/profile/settings/{section}";
        d_description := None;
        d_parameters := Some [Param "section" "path"];
        d_request_body := None;
        d_responses := Some [("200", json_response 200 bare_object)];
        d_source_title := Some "Users" |}) ].

(** An object with two structurally identical sub-objects. *)
Definition street_address : schema :=
  object_of [("street", plain_string)].

Definition two_addresses : schema :=
  object_of [("home", street_address); ("work", street_address)].

(** Two sub-objects, each with a property [x] of the same structure. *)
Definition nested_twice : schema :=
  object_of
    [ ("a", object_of [("x", street_address)]);
      ("b", object_of [("x", street_address)]) ].

(** Sets listed in insertion order, each element once. *)
Definition insertion_order : list string -> list string :=
  List.nodup string_dec.

(** The endpoint records of a service, as [_get_endpoint_groups] builds
    them. *)
Definition group_of (api : catalog) (service : string)
  : list TestsContainer.endpoint :=
  match dict_get (TestsContainer._get_endpoint_groups api) service with
  | Some endpoints => endpoints
  | None => []
  end.

Definition nth_endpoint (api : catalog) (service : string) (n : nat)
  : TestsContainer.endpoint :=
  nth n (group_of api service)
    (TestsContainer.Endpoint EmptyString EmptyString EmptyString [] None []
       EmptyString [] EmptyString).

(** The records of the sample services. *)
Definition address_group : list TestsContainer.endpoint :=
  Eval vm_compute in group_of api_address "address".
Definition address_get : TestsContainer.endpoint :=
  Eval vm_compute in nth_endpoint api_address "address" 0.
Definition address_post : TestsContainer.endpoint :=
  Eval vm_compute in nth_endpoint api_address "address" 1.

Definition accepted_post : TestsContainer.endpoint :=
  Eval vm_compute in nth_endpoint api_accepted "address" 0.
Definition accepted_get : TestsContainer.endpoint :=
  Eval vm_compute in nth_endpoint api_accepted "address" 1.

Definition two_posts_group : list TestsContainer.endpoint :=
  Eval vm_compute in group_of api_two_posts "address".
Definition two_posts_first : TestsContainer.endpoint :=
  Eval vm_compute in nth_endpoint api_two_posts "address" 0.
Definition two_posts_second : TestsContainer.endpoint :=
  Eval vm_compute in nth_endpoint api_two_posts "address" 1.
Definition two_posts_get : TestsContainer.endpoint :=
  Eval vm_compute in nth_endpoint api_two_posts "address" 2.

Definition tokens_group : list TestsContainer.endpoint :=
  Eval vm_compute in group_of api_tokens "tokens".
Definition tokens_post : TestsContainer.endpoint :=
  Eval vm_compute in nth_endpoint api_tokens "tokens" 0.

Definition ping_group : list TestsContainer.endpoint :=
  Eval vm_compute in group_of api_ping "ping".

Definition profile_get : TestsContainer.endpoint :=
  Eval vm_compute in nth_endpoint api_profile "users" 0.

End Samples.

(** ** Vocabulary of the emitted test classes *)

Module TestSpec.
Import TestsContainer.

(** Two constant strings that differ at a position both have: none is then
    a prefix of an extension of the other. *)
Fixpoint clash (a b : string) : bool :=
  match a, b with
  | String c a', String d b' => negb (Ascii.eqb c d) || clash a' b'
  | _, _ => false
  end.

(** The line that opens a test method. *)
Definition is_def_line (l : string) : bool :=
  String.prefix "    async def " l.

(** The line that opens a class. *)
Definition is_class_line (l : string) : bool :=
  String.prefix "class " l.

(** A line that assigns the shared slot [resource_id] of the class. *)
Definition writes_resource_id (l : string) : bool :=
  String.prefix "        self.__class__.resource_id = " l.

(** The endpoint has a success response, so a test method is emitted. *)
Definition has_success (e : endpoint) : bool :=
  is_some (success_response (responses e)).

Definition key_eqb (k1 k2 : nat * string) : bool :=
  Nat.eqb (fst k1) (fst k2) && String.eqb (snd k1) (snd k2).

(** The endpoints of [l] whose sort key is [k], in the order of [l]. *)
Definition with_key (k : nat * string) (l : list endpoint) : list endpoint :=
  List.filter (fun e => key_eqb (sort_key e) k) l.

(** The order of the sort key, on endpoints. *)
Definition le_endpoint (e1 e2 : endpoint) : Prop := endpoint_leb e1 e2 = true.

(** The name [_generate_test_content] gives the test of an endpoint. *)
Definition test_name_of (service : string) (e : endpoint) : string :=
  "test_" +:+ PyStr.lower (method e) +:+ "_" +:+ service +:+ "_"
  +:+ (if negb (Nat.eqb (List.length (path_parameters e)) 0)
          && negb (String.eqb (endpoint_name e) service)
       then endpoint_name e +:+ "_id_default"
       else test_name_suffix_of service (endpoint_name e)).

Definition def_line_of (service : string) (e : endpoint) : string :=
  "    async def " +:+ test_name_of service e
  +:+ "(self, domain, api_client, models):".

End TestSpec.

(** ** The order of the test methods, as the specification words it *)

Module OrderSpec.
Import TestsContainer.

(** The methods in the order of their rank. *)
Definition ranked_methods : list string :=
  ["POST"; "PUT"; "GET"; "PATCH"; "DELETE"].

(** The position of [m] in [l]; the length of [l] when [m] is not in it. *)
Fixpoint position (m : string) (l : list string) : nat :=
  match l with
  | [] => 0
  | x :: l' => if String.eqb x m then 0 else S (position m l')
  end.

(** POST has rank 0, PUT 1, GET 2, PATCH 3, DELETE 4, and every other
    method rank 5. *)
Definition rank (m : string) : nat := position m ranked_methods.

(** [s] is [t] or comes before it in the order of the character codes. *)
Inductive str_le : string -> string -> Prop :=
  | str_le_empty (t : string) : str_le EmptyString t
  | str_le_less (c d : ascii) (s t : string) :
      (nat_of_ascii c < nat_of_ascii d)%nat -> str_le (String c s) (String d t)
  | str_le_same (c : ascii) (s t : string) :
      str_le s t -> str_le (String c s) (String c t).

(** The endpoint [e1] may stand before [e2]: its method has the lower rank,
    or the same rank and a path that does not come after. *)
Definition comes_before (e1 e2 : endpoint) : Prop :=
  (rank (method e1) < rank (method e2))%nat \/
  (rank (method e1) = rank (method e2) /\ str_le (path e1) (path e2)).

(** The endpoint has the rank [r] and the path [p]. *)
Definition has_key (r : nat) (p : string) (e : endpoint) : bool :=
  Nat.eqb (rank (method e)) r && String.eqb (path e) p.

End OrderSpec.

(** ** Vocabulary of the validation models *)

Module ModelSpec.
Import ValidationsContainer.

(** The line [l] opens the declaration of the model named [n]. *)
Definition declares_model (n l : string) : bool :=
  String.eqb l ("class " +:+ n +:+ "(BaseModelWithConfig):")
  || String.eqb l ("class " +:+ n +:+ "(RootModel):").

(** How many times the text [c] declares the model [n]. *)
Definition count_decl (n : string) (c : list string) : nat :=
  List.length (List.filter (declares_model n) c).

(** The nested model one property asks for, given the generator to call. *)
Definition nested_model
    (gen : schema -> string -> option string -> nat -> gset string
           -> code * gset string)
    (indent : nat) (prop_name : string) (prop_schema : schema)
    (generated_models : gset string) : code * gset string :=
  if is_object_like prop_schema then
    gen prop_schema (_generate_model_name (Some prop_name) true)
      (Some prop_name) indent generated_models
  else if opt_str_eqb (s_type prop_schema) "array" then
    match prop_schema with
    | Schema _ _ _ (Some item_schema) _ _ _ =>
        if is_object_like item_schema then
          gen item_schema (_generate_model_name (Some prop_name) true)
            (Some prop_name) indent generated_models
        else ([], generated_models)
    | _ => ([], generated_models)
    end
  else ([], generated_models).

(** The loop over the properties of an object schema, on its own. *)
Fixpoint properties_loop
    (gen : schema -> string -> option string -> nat -> gset string
           -> code * gset string)
    (indent : nat) (required : option (list string))
    (props : list (string * schema)) (lines : list string)
    (nested_models : list code) (generated_models : gset string)
  : list string * list code * gset string :=
  match props with
  | [] => (lines, nested_models, generated_models)
  | (prop_name, prop_schema) :: rest =>
      let lines :=
        lines ++ [field_line indent required prop_name prop_schema] in
      let '(nested_model_code, generated_models) :=
        nested_model gen indent prop_name prop_schema generated_models in
      properties_loop gen indent required rest lines
        (if code_truthy nested_model_code
         then nested_models ++ [nested_model_code]
         else nested_models)
        generated_models
  end.

(** The generated models are declared where the text says so: [n] is
    declared once if the call added it to the set, and not at all
    otherwise. *)
Definition declared_once (before : gset string) (result : code * gset string)
  : Prop :=
  before ⊆ snd result /\
  forall n,
    count_decl n (fst result) =
    if decide (n ∈ snd result /\ n ∉ before) then 1 else 0.

(** [c] ends with [s]. *)
Definition suffixb (s c : string) : bool :=
  Nat.leb (String.length s) (String.length c)
  && String.eqb (PyStr.drop (String.length c - String.length s) c) s.

(** While a validation file is written: every generated model is declared
    once in the lines so far, and the success model is still to come when
    the flag [has_success_model] is off. *)
Definition file_ok (state : list string * bool * gset string) : Prop :=
  let '(content_lines, has_success_model, generated_models) := state in
  (forall n,
      count_decl n content_lines =
      if decide (n ∈ generated_models) then 1 else 0) /\
  (has_success_model = false -> "ResponseSuccessBody" ∉ generated_models).

(** Every call of the generator on [s] declares its models once. *)
Definition generates_once (indent : nat) (s : schema) : Prop :=
  forall model_name field_name generated_models,
    declared_once generated_models
      (_generate_pydantic_model s model_name field_name indent
         generated_models).

(** The same for [s] and for the schema of its items. *)
Definition generates_once_deep (indent : nat) (s : schema) : Prop :=
  generates_once indent s /\
  forall item_schema,
    s_items s = Some item_schema -> generates_once indent item_schema.

End ModelSpec.

(** ** Vocabulary of the further properties *)

Module GroupSpec.
Import TestsContainer Vocabulary.

(** The service key [_get_endpoint_groups] files a catalog key under. *)
Definition service_of (api : catalog) (endpoint_path : string) : string :=
  _clean_name (fst (_get_service_and_title api endpoint_path)).

(** The catalog keys filed under [service], in catalog order. *)
Definition keys_of_service (api items : catalog) (service : string)
  : list string :=
  List.filter (fun k => String.eqb (service_of api k) service) (dict_keys items).

(** A character a service key can hold: none of the characters
    [_clean_name] rewrites, no slash, no upper-case letter. *)
Definition key_char (c : ascii) : bool :=
  plain c && not_upper c && differs "/" c.

End GroupSpec.

Module WiringSpec.
Import TestsContainer TestSpec.

(** The test that [_generate_test_content] makes the test of [e] depend on:
    the source test of the mapping of the service, when [used_in] lists the
    path of [e]. *)
Definition dependency_of (id_mappings : dict mapping) (service : string)
    (e : endpoint) : option string :=
  match dict_get id_mappings service with
  | Some m =>
      if mem_str (path e) (used_in m)
      then (if str_truthy (source_test_name m)
            then Some (source_test_name m) else None)
      else None
  | None => None
  end.

(** The line that puts the captured identifier into [add_url], and the
    argument that passes it to the request. *)
Definition is_add_url_line (l : string) : bool :=
  String.prefix "        add_url = " l.

Definition is_add_url_argument (l : string) : bool :=
  String.prefix "            add_url1=" l.

(** The decorator of the test of [e] when it depends on [source_test]. *)
Definition decorator_with_dependency (service : string) (e : endpoint)
    (source_test : string) : string :=
  "    @pytest.mark.dependency(name='" +:+ test_name_of service e +:+ "'"
  +:+ (", depends=['" +:+ source_test +:+ "'], force=True") +:+ ")".

(** The assertion on the response. *)
Definition is_assert_line (l : string) : bool :=
  String.prefix "        assert " l.

(** A line that declares, fills or reads the shared slot [resource_id]. *)
Definition wiring_line (l : string) : bool :=
  writes_resource_id l || String.prefix "    resource_id" l
  || is_add_url_line l || is_add_url_argument l.

(** The name of the test file of a service. *)
Definition test_file_name (title service : string) : string :=
  title +:+ "/" +:+ service +:+ "/test_" +:+ service +:+ "_default.py".

End WiringSpec.

Module TemplateSpec.
Import EndpointsContainer Vocabulary.

(** The segments of a path, and those of them that are not dynamic. *)
Definition path_parts (path : string) : list string :=
  PyStr.split "/" (PyStr.strip "/" path).

Definition static_parts (path : string) : list string :=
  List.filter (fun p => negb (is_dynamic p)) (path_parts path).

(** A character an endpoint name can hold: none of those the sanitizing
    removes or replaces. *)
Definition name_char (c : ascii) : bool :=
  differs "{" c && differs "}" c && differs "-" c && differs "." c.

(** The line that opens the class of a service in [paths.py]. *)
Definition is_service_class_line (l : string) : bool :=
  String.prefix "    class " l.

Definition service_class_line (service_name : string) : string :=
  "    class " +:+ service_name +:+ ":".

End TemplateSpec.

Module FileSpec.
Import ValidationsContainer.

(** While a validation file is written: the error model has been generated,
    and so has the success model once the flag [has_success_model] is on. *)
Definition file_complete (state : list string * bool * gset string) : Prop :=
  let '(content_lines, has_success_model, generated_models) := state in
  "ResponseError" ∈ generated_models /\
  (has_success_model = true -> "ResponseSuccessBody" ∈ generated_models).

(** The entry has the two keys [get_files] reads. *)
Definition has_method_and_responses (item : string * endpoint_data) : Prop :=
  d_method (snd item) <> None /\ d_responses (snd item) <> None.

End FileSpec.

(** ** Further sample inputs *)

Module MoreSamples.
Import Samples.

(** The mapping [_predict_id_usage] gives for [api_orgs] and for
    [api_items]. *)
Definition orgs_mapping : TestsContainer.mapping :=
  {| TestsContainer.source := "POST /orgs";
     TestsContainer.source_test_name := "test_post_orgs_default";
     TestsContainer.id_field := "orgId";
     TestsContainer.used_in :=
       ["GET /orgs/{orgId}/users/{userId}"; "GET /orgs/{orgId}/users/{userId}"] |}.

Definition items_mapping : TestsContainer.mapping :=
  {| TestsContainer.source := "POST /items";
     TestsContainer.source_test_name := "test_post_items_default";
     TestsContainer.id_field := "itemId";
     TestsContainer.used_in := ["GET /items/{itemId}"] |}.

Definition items_get : TestsContainer.endpoint :=
  Eval vm_compute in nth_endpoint api_items "items" 1.

(** A deletion that answers 204 without a body. *)
Definition items_delete : TestsContainer.endpoint :=
  TestsContainer.Endpoint "DELETE /items/{itemId}" "DELETE" EmptyString
    [Param "itemId" "path"] None
    [("204", json_response 204 bare_object)] "itemId" ["itemId"] "common".

(** The success response of the creation of [api_address]. *)
Definition address_created : response :=
  json_response 201 (object_of [("addressId", uuid_string)]).

(** Two reads of one service whose paths end in the same parameter. *)
Definition api_shop : catalog :=
  [ ("GET /shop/orders/{id}",
     entry "GET" [Param "id" "path"]
       [("200", json_response 200 bare_object)]);
    ("GET /shop/carts/{id}",
     entry "GET" [Param "id" "path"]
       [("200", json_response 200 bare_object)]) ].

Definition shop_group : list TestsContainer.endpoint :=
  Eval vm_compute in group_of api_shop "shop".

(** Two sub-objects whose property names give the same model name. *)
Definition two_user_ids : schema :=
  object_of [("user_id", street_address); ("user__id", bare_object)].

End MoreSamples.

(** * Properties *)

(** ** Strings *)

Module PyStrFacts.
Import PyStr Vocabulary.

Lemma all_chars_append P s t :
  all_chars P (s +:+ t) = all_chars P s && all_chars P t.
Proof.
  induction s as [|c s IH]; simpl; [reflexivity|].
  rewrite IH. now rewrite andb_assoc.
Qed.

Lemma prefix_singleton c d s :
  String.prefix (String c EmptyString) (String d s) = Ascii.eqb d c.
Proof.
  simpl. destruct (ascii_dec c d) as [->|Hne].
  - rewrite Ascii.eqb_refl. now destruct s.
  - symmetry. apply Ascii.eqb_neq. congruence.
Qed.

(** Replacing a one-character pattern acts character by character. *)
Lemma replace_char_cons c new d s :
  replace (String c EmptyString) new (String d s) =
  if Ascii.eqb d c then new +:+ replace (String c EmptyString) new s
  else String d (replace (String c EmptyString) new s).
Proof.
  unfold replace. cbn [replace_from].
  rewrite prefix_singleton. reflexivity.
Qed.

Lemma replace_char_nil c new : replace (String c EmptyString) new EmptyString = EmptyString.
Proof. reflexivity. Qed.

Lemma replace_char_absent c new s :
  all_chars (differs c) s = true -> replace (String c EmptyString) new s = s.
Proof.
  induction s as [|d s IH]; intros H; [reflexivity|].
  simpl in H. apply andb_prop in H as [Hd Hs].
  rewrite replace_char_cons. unfold differs in Hd.
  destruct (Ascii.eqb d c); [discriminate|]. now rewrite IH.
Qed.

Lemma all_chars_replace_char P c new s :
  all_chars P new = true -> all_chars P s = true ->
  all_chars P (replace (String c EmptyString) new s) = true.
Proof.
  intros Hnew. induction s as [|d s IH]; intros H; [reflexivity|].
  simpl in H. apply andb_prop in H as [Hd Hs].
  rewrite replace_char_cons. destruct (Ascii.eqb d c).
  - rewrite all_chars_append, Hnew. now apply IH.
  - simpl. rewrite Hd. now apply IH.
Qed.

Lemma replace_char_removes c new s :
  all_chars (differs c) new = true ->
  all_chars (differs c) (replace (String c EmptyString) new s) = true.
Proof.
  intros Hnew. induction s as [|d s IH]; [reflexivity|].
  rewrite replace_char_cons. destruct (Ascii.eqb d c) eqn:E.
  - now rewrite all_chars_append, Hnew.
  - simpl. unfold differs at 1. now rewrite E.
Qed.

Lemma lower_char_not_upper c : not_upper (lower_char c) = true.
Proof.
  destruct c as [[] [] [] [] [] [] [] []]; reflexivity.
Qed.

Lemma lower_char_fixed c : not_upper c = true -> lower_char c = c.
Proof.
  unfold not_upper, lower_char. now destruct (is_upper c).
Qed.

Lemma lower_not_upper s : all_chars not_upper (lower s) = true.
Proof.
  induction s as [|c s IH]; [reflexivity|].
  simpl. now rewrite lower_char_not_upper.
Qed.

Lemma lower_fixed s : all_chars not_upper s = true -> lower s = s.
Proof.
  induction s as [|c s IH]; intros H; [reflexivity|].
  simpl in H. apply andb_prop in H as [Hc Hs].
  unfold lower in *. simpl. now rewrite lower_char_fixed, IH.
Qed.

Lemma append_length_sum a b :
  String.length (a +:+ b) = String.length a + String.length b.
Proof. induction a as [|c a IH]; simpl; [reflexivity|now rewrite IH]. Qed.

Lemma append_inj_same_length x y a b :
  x +:+ a = y +:+ b -> String.length a = String.length b -> x = y /\ a = b.
Proof.
  revert y. induction x as [|c x IH]; intros [|d y] H Hlen; simpl in H.
  - now split.
  - exfalso. apply (f_equal String.length) in H.
    rewrite ?append_length_sum in H. simpl in H.
    rewrite ?append_length_sum in H. lia.
  - exfalso. apply (f_equal String.length) in H.
    rewrite ?append_length_sum in H. simpl in H.
    rewrite ?append_length_sum in H. lia.
  - injection H as -> H. destruct (IH y H Hlen) as [-> ->]. now split.
Qed.

Lemma append_assoc_str a b c : (a +:+ b) +:+ c = a +:+ (b +:+ c).
Proof.
  induction a as [|x a IH]; [reflexivity|].
  change (String x ((a +:+ b) +:+ c) = String x (a +:+ (b +:+ c))).
  now rewrite IH.
Qed.

Lemma append_cancel_l p a b : p +:+ a = p +:+ b -> a = b.
Proof.
  induction p as [|c p IH]; intros H; [exact H|].
  change (String c (p +:+ a) = String c (p +:+ b)) in H.
  injection H as H. now apply IH.
Qed.

End PyStrFacts.

(** ** Name sanitization *)

Module CleanName.
Import PyStr Vocabulary PyStrFacts TestsContainer.

Lemma all_chars_and P Q s :
  all_chars (fun c => P c && Q c) s = all_chars P s && all_chars Q s.
Proof.
  induction s as [|c s IH]; [reflexivity|].
  simpl. rewrite IH. destruct (P c), (Q c), (all_chars P s); reflexivity.
Qed.

Lemma plain_split s :
  all_chars plain s = true <->
  all_chars (differs "{") s = true /\ all_chars (differs "}") s = true /\
  all_chars (differs "-") s = true /\ all_chars (differs ".") s = true /\
  all_chars (differs " ") s = true.
Proof.
  unfold plain. rewrite !all_chars_and, !andb_true_iff. tauto.
Qed.

Lemma _clean_name_plain s : all_chars plain (_clean_name s) = true.
Proof.
  apply plain_split. unfold _clean_name.
  repeat split;
    repeat first
      [ apply replace_char_removes; reflexivity
      | apply all_chars_replace_char; [reflexivity|] ].
Qed.

Lemma _clean_name_fixed s : all_chars plain s = true -> _clean_name s = s.
Proof.
  intros H. apply plain_split in H as (H1 & H2 & H3 & H4 & H5).
  unfold _clean_name.
  now rewrite (replace_char_absent "{"), (replace_char_absent "}"),
    (replace_char_absent "-"), (replace_char_absent "."),
    (replace_char_absent " ").
Qed.

(** C9: [_clean_name] is idempotent: cleaning a name that is already clean
    returns it unchanged, for every input string. *)
Theorem clean_name_idempotent (name : string) :
  _clean_name (_clean_name name) = _clean_name name.
Proof.
  apply _clean_name_fixed, _clean_name_plain.
Qed.

Example clean_name_sample :
  _clean_name "{user-id}.v 2" = "user_id_v_2".
Proof. reflexivity. Qed.

End CleanName.

(** ** Dictionaries *)

Module DictFacts.

Section Dict.
Context {V : Type}.
Implicit Types (d : dict V) (k : string) (v : V).

Lemma dict_get_set d k v k' :
  dict_get (dict_set d k v) k' =
  if String.eqb k k' then Some v else dict_get d k'.
Proof.
  induction d as [|[k0 v0] d IH]; simpl.
  - reflexivity.
  - destruct (String.eqb k0 k) eqn:E0; simpl.
    + apply String.eqb_eq in E0. subst k0.
      now destruct (String.eqb k k').
    + destruct (String.eqb k0 k') eqn:E1.
      * apply String.eqb_eq in E1. subst k0.
        rewrite String.eqb_sym in E0. now rewrite E0.
      * apply IH.
Qed.

Lemma dict_get_set_same d k v : dict_get (dict_set d k v) k = Some v.
Proof. now rewrite dict_get_set, String.eqb_refl. Qed.

Lemma dict_get_set_other d k v k' :
  k <> k' -> dict_get (dict_set d k v) k' = dict_get d k'.
Proof.
  intros H. rewrite dict_get_set.
  apply String.eqb_neq in H. now rewrite H.
Qed.

Lemma dict_mem_set d k v k' :
  dict_mem (dict_set d k v) k' = String.eqb k k' || dict_mem d k'.
Proof.
  unfold dict_mem. rewrite dict_get_set. now destruct (String.eqb k k').
Qed.

Lemma dict_get_keys d k : dict_get d k = None <-> ~ In k (dict_keys d).
Proof.
  induction d as [|[k0 v0] d IH]; simpl.
  - tauto.
  - destruct (String.eqb k0 k) eqn:E.
    + apply String.eqb_eq in E. split; [discriminate|]. intros H. exfalso. auto.
    + apply String.eqb_neq in E. rewrite IH. tauto.
Qed.

Lemma dict_mem_keys d k : dict_mem d k = true <-> In k (dict_keys d).
Proof.
  unfold dict_mem. destruct (dict_get d k) eqn:E.
  - split; [intros _|reflexivity].
    destruct (in_dec string_dec k (dict_keys d)) as [H|H]; [exact H|].
    apply dict_get_keys in H. congruence.
  - apply dict_get_keys in E. split; [discriminate|contradiction].
Qed.

Lemma dict_keys_set d k v :
  dict_keys (dict_set d k v) =
  if dict_mem d k then dict_keys d else dict_keys d ++ [k].
Proof.
  unfold dict_mem.
  induction d as [|[k0 v0] d IH]; simpl; [reflexivity|].
  destruct (String.eqb k0 k) eqn:E; simpl; [reflexivity|].
  unfold dict_keys in *. rewrite IH.
  now destruct (dict_get d k).
Qed.

Lemma NoDup_keys_set d k v :
  List.NoDup (dict_keys d) -> List.NoDup (dict_keys (dict_set d k v)).
Proof.
  intros H. rewrite dict_keys_set.
  destruct (dict_mem d k) eqn:E; [exact H|].
  apply List.NoDup_app; [exact H|repeat constructor; simpl; tauto|].
  intros x Hx [<-|[]]. apply dict_mem_keys in Hx. congruence.
Qed.

Lemma dict_get_In d k v : dict_get d k = Some v -> In (k, v) d.
Proof.
  induction d as [|[k0 v0] d IH]; simpl; [discriminate|].
  destruct (String.eqb k0 k) eqn:E.
  - apply String.eqb_eq in E. intros [= <-]. left. now subst.
  - auto.
Qed.

Lemma In_dict_get d k v :
  List.NoDup (dict_keys d) -> In (k, v) d -> dict_get d k = Some v.
Proof.
  induction d as [|[k0 v0] d IH]; simpl; [tauto|].
  intros Hnd [H|H].
  - injection H as -> ->. now rewrite String.eqb_refl.
  - inversion Hnd as [|? ? Hk0 Hnd']; subst.
    destruct (String.eqb k0 k) eqn:E.
    + apply String.eqb_eq in E. subst k0. exfalso. apply Hk0.
      change (In (fst (k, v)) (map fst d)). now apply in_map.
    + auto.
Qed.

(** Assigning the value a key already has changes nothing more. *)
Lemma dict_set_twice d k v v' :
  dict_set (dict_set d k v) k v' = dict_set d k v'.
Proof.
  induction d as [|[k0 v0] d IH]; simpl.
  - now rewrite String.eqb_refl.
  - destruct (String.eqb k0 k) eqn:E; simpl; rewrite E; [reflexivity|].
    now rewrite IH.
Qed.

End Dict.

(** A loop over the items of a dictionary whose body, at item [(k, v)],
    touches only the entry of [k] in the dictionary it builds. *)
Lemma fold_left_local {V W : Type}
    (step : dict W -> string * V -> dict W)
    (f : string -> V -> option W -> option W) (g : dict V) :
  (forall m k v k',
      dict_get (step m (k, v)) k' =
      if String.eqb k k' then f k v (dict_get m k') else dict_get m k') ->
  List.NoDup (dict_keys g) ->
  forall m k,
    dict_get (fold_left step g m) k =
    match dict_get g k with
    | Some v => f k v (dict_get m k)
    | None => dict_get m k
    end.
Proof.
  intros Hstep. induction g as [|[k0 v0] g IH]; intros Hnd m k; simpl.
  - reflexivity.
  - inversion Hnd as [|? ? Hk0 Hnd']; subst.
    rewrite IH by exact Hnd'.
    destruct (String.eqb k0 k) eqn:E.
    + apply String.eqb_eq in E. subst k0.
      apply dict_get_keys in Hk0. rewrite Hk0.
      now rewrite Hstep, String.eqb_refl.
    + rewrite Hstep, E. reflexivity.
Qed.

Lemma fold_left_keys {V W : Type} (step : dict W -> string * V -> dict W)
    (g : dict V) :
  (forall m k v, List.NoDup (dict_keys m) -> List.NoDup (dict_keys (step m (k, v)))) ->
  forall m, List.NoDup (dict_keys m) -> List.NoDup (dict_keys (fold_left step g m)).
Proof.
  intros Hstep. induction g as [|[k0 v0] g IH]; intros m Hm; simpl; auto.
Qed.

End DictFacts.
(** ** Endpoint groups *)

Module GroupFacts.
Import PyStr Vocabulary PyStrFacts DictFacts TestsContainer.

Lemma _clean_name_not_upper s :
  all_chars not_upper s = true -> all_chars not_upper (_clean_name s) = true.
Proof.
  intros H. unfold _clean_name.
  repeat (apply all_chars_replace_char; [reflexivity|]). exact H.
Qed.

Lemma service_not_upper api endpoint :
  all_chars not_upper (fst (_get_service_and_title api endpoint)) = true.
Proof.
  unfold _get_service_and_title. cbn [fst].
  destruct (split "/" _) as [|p0 parts].
  - reflexivity.
  - destruct (String.eqb _ "users_profile"); [reflexivity|].
    repeat (apply all_chars_replace_char; [reflexivity|]).
    apply lower_not_upper.
Qed.

(** What one catalog entry adds to the groups: its service key and its
    record. *)
Lemma group_step_keys api groups item :
  dict_keys (group_step api groups item) =
  let service :=
    _clean_name (fst (_get_service_and_title api (fst item))) in
  if dict_mem groups service then dict_keys groups
  else dict_keys groups ++ [service].
Proof.
  destruct item as [endpoint_path endpoint_data]. unfold group_step.
  cbn [fst]. cbv zeta.
  destruct (_get_service_and_title api endpoint_path) as [service title].
  cbn [fst].
  destruct (dict_mem groups (_clean_name service)) eqn:E.
  - now rewrite dict_keys_set, E.
  - rewrite dict_keys_set, dict_mem_set, String.eqb_refl. cbn [orb].
    rewrite dict_keys_set, E. reflexivity.
Qed.

Lemma group_step_ok api groups item :
  keys_ok (dict_keys groups) ->
  keys_ok (dict_keys (group_step api groups item)).
Proof.
  intros [Hnd Hlow]. rewrite group_step_keys. cbv zeta.
  destruct (dict_mem groups _) eqn:E; [now split|].
  split.
  - apply List.NoDup_app; [exact Hnd|repeat constructor; simpl; tauto|].
    intros x Hx [<-|[]]. apply dict_mem_keys in Hx. congruence.
  - apply List.Forall_app. split; [exact Hlow|].
    constructor; [|constructor].
    apply _clean_name_not_upper, service_not_upper.
Qed.

Lemma groups_ok api : keys_ok (dict_keys (_get_endpoint_groups api)).
Proof.
  unfold _get_endpoint_groups.
  assert (H : forall items groups,
             keys_ok (dict_keys groups) ->
             keys_ok (dict_keys (fold_left (group_step api) items groups))).
  { induction items as [|item items IH]; intros groups Hg; simpl; [exact Hg|].
    apply IH, group_step_ok, Hg. }
  apply H. split; constructor.
Qed.

(** A dictionary never has a key twice. *)
Lemma groups_keys_nodup api :
  List.NoDup (dict_keys (_get_endpoint_groups api)).
Proof. apply groups_ok. Qed.

(** Service keys are lower case: [service.lower()] leaves them as they are. *)
Lemma groups_key_lower api service endpoints :
  dict_get (_get_endpoint_groups api) service = Some endpoints ->
  lower service = service.
Proof.
  intros H. apply lower_fixed.
  destruct (groups_ok api) as [_ Hlow].
  rewrite List.Forall_forall in Hlow. apply Hlow.
  apply dict_mem_keys. unfold dict_mem. now rewrite H.
Qed.

End GroupFacts.
(** ** The identifier mapping *)

Module PredictFacts.
Import PyStr Vocabulary PyStrFacts DictFacts GroupFacts TestsContainer IdSpec.

Lemma foldM_pure {A B : Type} (f : A -> B -> result A) (g : A -> B -> A) l :
  (forall a b, In b l -> f a b = Ok (g a b)) ->
  forall a, foldM f l a = Ok (fold_left g l a).
Proof.
  induction l as [|b l IH]; intros H a; simpl; [reflexivity|].
  rewrite H by now left. simpl. apply IH. intros a' b' Hb'. apply H. now right.
Qed.

Lemma with_used_in_nil m : with_used_in m [] = m.
Proof. destruct m. unfold with_used_in. simpl. now rewrite app_nil_r. Qed.

Lemma with_used_in_app m l1 l2 :
  with_used_in (with_used_in m l1) l2 = with_used_in m (l1 ++ l2).
Proof. unfold with_used_in. simpl. now rewrite app_assoc. Qed.

Lemma id_field_with_used_in m l : id_field (with_used_in m l) = id_field m.
Proof. reflexivity. Qed.

(** A loop whose body extends [used_in] of the mapping of [service] and
    leaves the rest alone. *)
Lemma fold_extend {X : Type} (st : dict mapping -> X -> dict mapping)
    (h : string -> X -> list string) (service : string) :
  (forall M x k,
      dict_get (st M x) k =
      if String.eqb service k
      then extended (fun f => h f x) (dict_get M k) else dict_get M k) ->
  forall xs M k,
    dict_get (fold_left st xs M) k =
    if String.eqb service k
    then extended (fun f => flat_map (h f) xs) (dict_get M k)
    else dict_get M k.
Proof.
  intros Hst. induction xs as [|x xs IH]; intros M k; simpl.
  - destruct (String.eqb service k); [|reflexivity].
    destruct (dict_get M k) as [m|]; simpl; [|reflexivity].
    now rewrite with_used_in_nil.
  - rewrite IH, Hst. destruct (String.eqb service k); [|reflexivity].
    destruct (dict_get M k) as [m|]; simpl; [|reflexivity].
    now rewrite with_used_in_app.
Qed.

Lemma flat_map_param_uses e f params :
  flat_map (param_uses e f) params =
  map (fun _ => path e) (List.filter (param_matches f) params).
Proof.
  induction params as [|p params IH]; simpl; [reflexivity|].
  unfold param_uses at 1. destruct (param_matches f p); simpl; now rewrite IH.
Qed.

Lemma flat_map_endpoint_uses f endpoints :
  flat_map (endpoint_uses f) endpoints = used_in_spec f endpoints.
Proof.
  unfold used_in_spec. induction endpoints as [|e endpoints IH]; simpl.
  - reflexivity.
  - rewrite IH. f_equal. unfold endpoint_uses, matching_params.
    destruct (is_dependent e); [apply flat_map_param_uses|reflexivity].
Qed.

Lemma append_used_in_get M service p k :
  dict_get (append_used_in M service p) k =
  if String.eqb service k
  then extended (fun _ => [p]) (dict_get M k) else dict_get M k.
Proof.
  unfold append_used_in. destruct (dict_get M service) as [m|] eqn:E.
  - rewrite dict_get_set. destruct (String.eqb service k) eqn:Ek; [|reflexivity].
    apply String.eqb_eq in Ek. subst k. now rewrite E.
  - destruct (String.eqb service k) eqn:Ek; [|reflexivity].
    apply String.eqb_eq in Ek. subst k. now rewrite E.
Qed.

Lemma use_param_get service e M p k :
  dict_get (use_param service e M p) k =
  if String.eqb service k
  then extended (fun f => param_uses e f p) (dict_get M k) else dict_get M k.
Proof.
  unfold use_param, param_uses, param_matches, id_field_of.
  destruct (String.eqb (p_type p) "path"); cbn [andb].
  - destruct (String.eqb service k) eqn:Ek.
    + apply String.eqb_eq in Ek. subst k.
      destruct (dict_get M service) as [m|] eqn:E; cbn [extended].
      * destruct (_ || _).
        -- now rewrite append_used_in_get, String.eqb_refl, E.
        -- now rewrite E, with_used_in_nil.
      * destruct (_ || _); [|exact E].
        now rewrite append_used_in_get, String.eqb_refl, E.
    + destruct (_ || _); [|reflexivity].
      now rewrite append_used_in_get, Ek.
  - destruct (String.eqb service k); [|reflexivity].
    destruct (dict_get M k) as [m|]; cbn [extended]; [|reflexivity].
    now rewrite with_used_in_nil.
Qed.

Lemma use_endpoint_get service M e k :
  dict_get (use_endpoint service M e) k =
  if String.eqb service k
  then extended (fun f => endpoint_uses f e) (dict_get M k) else dict_get M k.
Proof.
  unfold use_endpoint, endpoint_uses. fold (is_dependent e).
  destruct (is_dependent e).
  - apply (fold_extend (use_param service e) (param_uses e)).
    intros M' p k'. apply use_param_get.
  - destruct (String.eqb service k); [|reflexivity].
    destruct (dict_get M k) as [m|]; cbn [extended]; [|reflexivity].
    now rewrite with_used_in_nil.
Qed.

Lemma use_service_get M service endpoints k :
  dict_get (use_service M (service, endpoints)) k =
  if String.eqb service k
  then extended (fun f => used_in_spec f endpoints) (dict_get M k)
  else dict_get M k.
Proof.
  unfold use_service. cbn [fst snd].
  destruct (dict_mem M service) eqn:E.
  - rewrite (fold_extend (use_endpoint service) endpoint_uses service)
      by (intros; apply use_endpoint_get).
    destruct (String.eqb service k); [|reflexivity].
    destruct (dict_get M k) as [m|]; cbn [extended]; [|reflexivity].
    now rewrite flat_map_endpoint_uses.
  - destruct (String.eqb service k) eqn:Ek; [|reflexivity].
    apply String.eqb_eq in Ek. subst k. unfold dict_mem in E.
    now destruct (dict_get M service).
Qed.

Section WithSetOrder.
Variable list_of_set : list string -> list string.

(** [_find_resource_id_field] raises only for a service that is no key of
    the groups. *)
Lemma find_total api service resp endpoints :
  dict_get (_get_endpoint_groups api) service = Some endpoints ->
  exists r, _find_resource_id_field list_of_set api service resp = Ok r.
Proof.
  intros H. unfold _find_resource_id_field, _get_path_parameters.
  rewrite H. cbn [bind].
  repeat match goal with
         | |- context [match ?x with _ => _ end] => destruct x
         end; eauto.
Qed.

(** Outside the keys of the groups, the lookup of the service raises. *)
Lemma find_raises_outside_groups api service resp :
  dict_get (_get_endpoint_groups api) service = None ->
  _find_resource_id_field list_of_set api service resp
  = Raised (KeyError service).
Proof.
  intros H. unfold _find_resource_id_field, _get_path_parameters.
  now rewrite H.
Qed.

Lemma record_endpoint_pure api service endpoints M e :
  dict_get (_get_endpoint_groups api) service = Some endpoints ->
  record_endpoint list_of_set api service M e =
  Ok (pure_record list_of_set api service M e).
Proof.
  intros H. unfold record_endpoint, pure_record, source_field, has_success_code.
  destruct (String.eqb (method e) "POST"); cbn [andb]; [|reflexivity].
  destruct (find_total api service (responses e) endpoints H) as [r Hr].
  unfold foldM, record_source. rewrite Hr. cbn [bind].
  fold (mapping_from service e).
  destruct (dict_mem (responses e) "200"), (dict_mem (responses e) "201"),
    r as [f|]; cbn [bind orb]; try reflexivity;
    unfold mapping_from; destruct (str_truthy f); cbn [bind];
    rewrite ?dict_set_twice; reflexivity.
Qed.

Lemma pure_record_get api service M e k :
  dict_get (pure_record list_of_set api service M e) k =
  if String.eqb service k
  then last_source_from list_of_set api service (dict_get M k) [e]
  else dict_get M k.
Proof.
  unfold pure_record, last_source_from. cbn [fold_left].
  destruct (source_field list_of_set api service e) as [f|].
  - now rewrite dict_get_set.
  - now destruct (String.eqb service k).
Qed.

Lemma pure_record_service_get api M service endpoints k :
  dict_get (pure_record_service list_of_set api M (service, endpoints)) k =
  if String.eqb service k
  then last_source_from list_of_set api service (dict_get M k) endpoints
  else dict_get M k.
Proof.
  unfold pure_record_service. cbn [fst snd].
  revert M. induction endpoints as [|e endpoints IH]; intros M.
  - cbn. now destruct (String.eqb service k).
  - cbn [fold_left]. rewrite IH, pure_record_get.
    destruct (String.eqb service k); reflexivity.
Qed.

Lemma record_service_pure api M group :
  In group (_get_endpoint_groups api) ->
  record_service list_of_set api M group =
  Ok (pure_record_service list_of_set api M group).
Proof.
  intros Hin. destruct group as [service endpoints].
  unfold record_service, pure_record_service. cbn [fst snd].
  apply foldM_pure. intros a b _.
  apply (record_endpoint_pure api service endpoints).
  apply In_dict_get; [apply groups_keys_nodup|exact Hin].
Qed.

(** [_predict_id_usage] never raises, and gives the predicted mappings. *)
Lemma predict_spec api :
  exists M,
    _predict_id_usage list_of_set api = Ok M /\
    forall service, dict_get M service = predicted list_of_set api service.
Proof.
  unfold _predict_id_usage.
  rewrite (foldM_pure _ (pure_record_service list_of_set api))
    by (intros; now apply record_service_pure).
  cbn [bind]. eexists. split; [reflexivity|].
  intros service. unfold predicted.
  rewrite (fold_left_local use_service
             (fun _ endpoints => extended (fun f => used_in_spec f endpoints)))
    by (try apply groups_keys_nodup; intros; apply use_service_get).
  rewrite (fold_left_local (pure_record_service list_of_set api)
             (fun k endpoints old =>
                last_source_from list_of_set api k old endpoints))
    by (try apply groups_keys_nodup; intros; apply pure_record_service_get).
  cbn [dict_get].
  destruct (dict_get (_get_endpoint_groups api) service); reflexivity.
Qed.

Lemma append_used_in_keys M service p :
  dict_keys (append_used_in M service p) = dict_keys M.
Proof.
  unfold append_used_in. destruct (dict_get M service) as [m|] eqn:E.
  - rewrite dict_keys_set. unfold dict_mem. now rewrite E.
  - reflexivity.
Qed.

Lemma fold_left_same_keys {X : Type} (st : dict mapping -> X -> dict mapping) :
  (forall M x, dict_keys (st M x) = dict_keys M) ->
  forall xs M, dict_keys (fold_left st xs M) = dict_keys M.
Proof.
  intros H. induction xs as [|x xs IH]; intros M; simpl; [reflexivity|].
  now rewrite IH, H.
Qed.

Lemma use_service_keys M group : dict_keys (use_service M group) = dict_keys M.
Proof.
  unfold use_service. destruct (dict_mem M (fst group)); [|reflexivity].
  apply fold_left_same_keys. intros M' e. unfold use_endpoint.
  destruct (mem_str _ _); [|reflexivity].
  apply fold_left_same_keys. intros M'' p. unfold use_param.
  destruct (String.eqb _ _); [|reflexivity].
  destruct (_ || _); [apply append_used_in_keys|reflexivity].
Qed.

Lemma pure_record_service_keys api M group :
  List.NoDup (dict_keys M) ->
  List.NoDup (dict_keys (pure_record_service list_of_set api M group)).
Proof.
  unfold pure_record_service. generalize (snd group) as endpoints.
  intros endpoints. revert M.
  induction endpoints as [|e endpoints IH]; intros M HM; simpl; [exact HM|].
  apply IH. unfold pure_record.
  destruct (source_field _ _ _ _); [now apply NoDup_keys_set|exact HM].
Qed.

(** The result is a dictionary: no service has two mappings. *)
Lemma predict_keys_nodup api M :
  _predict_id_usage list_of_set api = Ok M -> List.NoDup (dict_keys M).
Proof.
  unfold _predict_id_usage.
  rewrite (foldM_pure _ (pure_record_service list_of_set api))
    by (intros; now apply record_service_pure).
  cbn [bind]. intros [= <-].
  rewrite (fold_left_same_keys use_service use_service_keys).
  generalize (_get_endpoint_groups api) as groups. intros groups.
  assert (H : forall M0, List.NoDup (dict_keys M0) ->
            List.NoDup (dict_keys
              (fold_left (pure_record_service list_of_set api) groups M0))).
  { induction groups as [|g groups IH]; intros M0 H0; simpl; [exact H0|].
    apply IH, pure_record_service_keys, H0. }
  apply H. constructor.
Qed.

Lemma source_field_qualifies api service e f :
  source_field list_of_set api service e = Some f <->
  qualifies list_of_set api service e f.
Proof.
  unfold source_field, qualifies. split.
  - destruct (String.eqb (method e) "POST") eqn:Em; cbn [andb]; [|discriminate].
    destruct (has_success_code e); [|discriminate].
    destruct (_find_resource_id_field _ _ _ _) as [[f'|]|]; try discriminate.
    destruct f'; cbn [str_truthy]; [discriminate|].
    intros [= <-]. apply String.eqb_eq in Em. repeat split; [exact Em|discriminate].
  - intros (Hm & Hc & Hf & Hne). rewrite Hm, Hc, Hf. cbn.
    destruct f; [contradiction|reflexivity].
Qed.

Lemma source_field_none api service e :
  (forall f, ~ qualifies list_of_set api service e f) ->
  source_field list_of_set api service e = None.
Proof.
  intros H. destruct (source_field list_of_set api service e) as [f|] eqn:E;
    [|reflexivity].
  apply source_field_qualifies in E. now apply H in E.
Qed.

(** The last qualifying POST decides the mapping. *)
Lemma last_source_split api service acc pre e f post :
  qualifies list_of_set api service e f ->
  (forall e' f', In e' post -> ~ qualifies list_of_set api service e' f') ->
  last_source_from list_of_set api service acc (pre ++ e :: post) =
  Some (mapping_from service e f).
Proof.
  intros He Hpost. unfold last_source_from.
  rewrite fold_left_app. cbn [fold_left].
  apply source_field_qualifies in He. rewrite He. clear He.
  induction post as [|e' post IH]; [reflexivity|].
  cbn [fold_left]. rewrite source_field_none.
  - apply IH. intros e'' f' Hin. apply Hpost. now right.
  - intros f'. apply Hpost. now left.
Qed.

Lemma has_mapping_count api M service m :
  _predict_id_usage list_of_set api = Ok M ->
  dict_get M service = Some m ->
  count_occ string_dec (dict_keys M) service = 1.
Proof.
  intros HM Hm. apply predict_keys_nodup in HM.
  apply (proj1 (NoDup_count_occ' string_dec _) HM).
  apply dict_mem_keys. unfold dict_mem. now rewrite Hm.
Qed.

(** C3: when two or more POST operations of a service qualify as identifier
    sources, [_predict_id_usage] keeps exactly one mapping for the service,
    the one of the last qualifying POST in iteration order: it has
    overwritten what the earlier ones recorded. *)
Theorem predict_last_post_wins (api : catalog) (service : string)
    (endpoints pre mid post : list endpoint) (e1 e2 : endpoint)
    (f1 f2 : string) :
  dict_get (_get_endpoint_groups api) service = Some endpoints ->
  endpoints = pre ++ e1 :: mid ++ e2 :: post ->
  qualifies list_of_set api service e1 f1 ->
  qualifies list_of_set api service e2 f2 ->
  (forall e f, In e post -> ~ qualifies list_of_set api service e f) ->
  exists M,
    _predict_id_usage list_of_set api = Ok M /\
    count_occ string_dec (dict_keys M) service = 1 /\
    dict_get M service =
      Some (with_used_in (mapping_from service e2 f2)
              (used_in_spec f2 endpoints)).
Proof.
  intros HG Hsplit _ H2 Hpost.
  destruct (predict_spec api) as (M & HM & Hget).
  exists M. split; [exact HM|].
  assert (Hm : dict_get M service =
               Some (with_used_in (mapping_from service e2 f2)
                       (used_in_spec f2 endpoints))).
  { rewrite Hget. unfold predicted. rewrite HG, Hsplit.
    change (pre ++ e1 :: mid ++ e2 :: post)
      with (pre ++ (e1 :: mid) ++ e2 :: post).
    rewrite app_assoc.
    now rewrite (last_source_split api service None _ e2 f2 post H2 Hpost). }
  split; [|exact Hm].
  eapply has_mapping_count; eassumption.
Qed.

(** C10: for a service with a mapping, [used_in] holds the path of each
    dependent GET, PUT, DELETE or PATCH operation once per matching path
    parameter of that operation, in order and without deduplication; so a
    path occurs at least as often as its operation has matching path
    parameters. *)
Theorem used_in_once_per_matching_param (api : catalog) :
  exists M,
    _predict_id_usage list_of_set api = Ok M /\
    forall service m,
      dict_get M service = Some m ->
      exists endpoints,
        dict_get (_get_endpoint_groups api) service = Some endpoints /\
        used_in m = used_in_spec (id_field m) endpoints /\
        forall e,
          In e endpoints -> is_dependent e = true ->
          List.length (matching_params (id_field m) e)
          <= count_occ string_dec (used_in m) (path e).
Proof.
  destruct (predict_spec api) as (M & HM & Hget).
  exists M. split; [exact HM|].
  intros service m Hm. rewrite Hget in Hm. unfold predicted in Hm.
  destruct (dict_get (_get_endpoint_groups api) service) as [endpoints|];
    [|discriminate].
  exists endpoints. split; [reflexivity|].
  assert (Hnil : forall acc eps m0,
             last_source_from list_of_set api service acc eps = Some m0 ->
             (forall a, acc = Some a -> used_in a = []) -> used_in m0 = []).
  { intros acc eps. revert acc. unfold last_source_from.
    induction eps as [|e eps IH]; intros acc m0; simpl.
    - intros -> H. now apply H.
    - intros H Hacc. apply (IH _ _ H).
      destruct (source_field list_of_set api service e).
      + now intros a [= <-].
      + exact Hacc. }
  destruct (last_source_from list_of_set api service None endpoints) as [m0|] eqn:E;
    [|discriminate].
  cbn [extended] in Hm. injection Hm as <-.
  apply Hnil in E; [|discriminate].
  cbn [with_used_in used_in id_field]. rewrite E. cbn [app].
  split; [reflexivity|].
  intros e Hin Hdep. unfold used_in_spec.
  induction endpoints as [|e' endpoints IH]; [contradiction|].
  cbn [flat_map]. rewrite count_occ_app.
  destruct Hin as [->|Hin].
  - rewrite Hdep.
    assert (Hc : forall (l : list parameter),
               count_occ string_dec (map (fun _ => path e) l) (path e) =
               List.length l).
    { induction l as [|p l IHl]; simpl; [reflexivity|].
      destruct (string_dec (path e) (path e)); [now rewrite IHl|contradiction]. }
    rewrite Hc. lia.
  - specialize (IH Hin). lia.
Qed.

Lemma opt_str_eqb_true o s : opt_str_eqb o s = true <-> o = Some s.
Proof.
  destruct o as [x|]; simpl.
  - rewrite String.eqb_eq. split; congruence.
  - split; discriminate.
Qed.

(** C2: for a service of the catalog and responses whose success response
    (the first whose status code starts with 2) has a schema of type string,
    [_find_resource_id_field] returns the service key followed by [Id] when
    the format is uuid and the content type text/plain, a name no field of
    the body bears, and the sentinel [response] otherwise. *)
Theorem find_id_of_string_schema (api : catalog) (service : string)
    (endpoints : list endpoint) (resp : dict response) (r : response)
    (sch : schema) :
  dict_get (_get_endpoint_groups api) service = Some endpoints ->
  success_response resp = Some r ->
  r_schema r = Some sch ->
  s_type sch = Some "string" ->
  (s_format sch = Some "uuid" -> content_type r = Some "text/plain" ->
   _find_resource_id_field list_of_set api service resp
   = Ok (Some (service +:+ "Id"))) /\
  (s_format sch <> Some "uuid" \/ content_type r <> Some "text/plain" ->
   _find_resource_id_field list_of_set api service resp
   = Ok (Some "response")).
Proof.
  intros HG Hr Hs Ht.
  unfold _find_resource_id_field, _get_path_parameters.
  rewrite HG. cbn [bind]. rewrite Hr, Hs.
  assert (Htruthy : schema_truthy sch = true).
  { unfold schema_truthy. now rewrite Ht. }
  rewrite Htruthy. cbn [negb]. rewrite Ht. cbn [opt_str_eqb].
  change (String.eqb "string" "string") with true.
  rewrite andb_true_r. split.
  - intros Hf Hc. rewrite Hf, Hc. cbn.
    now rewrite (groups_key_lower api service endpoints HG).
  - intros Hno.
    destruct (opt_str_eqb (content_type r) "text/plain") eqn:Ec;
      destruct (opt_str_eqb (s_format sch) "uuid") eqn:Ef;
      try reflexivity.
    apply opt_str_eqb_true in Ec, Ef. destruct Hno; contradiction.
Qed.

End WithSetOrder.

Section WithSetSemantics.
Variable list_of_set : list string -> list string.

(** Listing a set yields exactly the elements put into it. *)
Hypothesis list_of_set_In : forall l x, In x (list_of_set l) <-> In x l.

Lemma unique_params_In (endpoints : list endpoint) acc p :
  In p (fold_left
          (fun unique_params endpoint =>
             if negb (String.eqb (method endpoint) "POST")
                && negb (Nat.eqb (List.length (path_parameters endpoint)) 0)
             then unique_params ++ path_parameters endpoint
             else unique_params)
          endpoints acc) <->
  In p acc \/
  exists e, In e endpoints /\ method e <> "POST" /\ In p (path_parameters e).
Proof.
  revert acc. induction endpoints as [|e endpoints IH]; intros acc; simpl.
  - split; [now left|]. intros [H|(e & [] & _)]. exact H.
  - rewrite IH. split.
    + intros [H|(e' & Hin & Hm & Hp)].
      * destruct (String.eqb (method e) "POST") eqn:Em; cbn [negb andb] in H;
          [now left|].
        destruct (Nat.eqb _ 0); cbn [negb] in H; [now left|].
        apply in_app_or in H as [H|H]; [now left|].
        right. exists e. apply String.eqb_neq in Em. auto.
      * right. exists e'. auto.
    + intros [H|(e' & [->|Hin] & Hm & Hp)].
      * left. destruct (_ && _); [apply in_or_app|]; auto.
      * left. apply String.eqb_neq in Hm. rewrite Hm. cbn [negb andb].
        destruct (path_parameters e'); [contradiction|].
        cbn. apply in_or_app. now right.
      * right. exists e'. auto.
Qed.

Lemma used_in_spec_In f endpoints g prm :
  In g endpoints -> is_dependent g = true -> In prm (parameters g) ->
  param_matches f prm = true -> In (path g) (used_in_spec f endpoints).
Proof.
  intros Hg Hdep Hprm Hmatch. unfold used_in_spec.
  apply in_flat_map. exists g. split; [exact Hg|]. rewrite Hdep.
  apply in_map_iff. exists prm. split; [reflexivity|].
  apply filter_In. now split.
Qed.

(** C1, as the code has it: take a service whose last qualifying POST has a
    response keyed 200 or 201 and a success response with an object schema,
    one of whose properties, none of them with an empty name, bears the name
    of a path parameter of a non-POST operation of the service. Then the
    service gets a mapping from that POST; its [id_field] is the first path
    parameter, in the iteration order of the path-parameter set, that is a
    property; and the path of every GET with a path parameter of that name,
    or with [id] in its name, is in [used_in]. *)
Theorem infer_id_from_path_param (api : catalog) (service : string)
    (endpoints pre rest : list endpoint) (post_e g0 : endpoint)
    (r : response) (sch : schema) (props : dict schema) (p : string) :
  dict_get (_get_endpoint_groups api) service = Some endpoints ->
  endpoints = pre ++ post_e :: rest ->
  method post_e = "POST" ->
  has_success_code post_e = true ->
  success_response (responses post_e) = Some r ->
  r_schema r = Some sch ->
  s_type sch = Some "object" ->
  s_properties sch = Some props ->
  dict_mem props p = true ->
  dict_mem props EmptyString = false ->
  In g0 endpoints -> method g0 <> "POST" -> In p (path_parameters g0) ->
  (forall e f, In e rest -> ~ qualifies list_of_set api service e f) ->
  exists M m path_params,
    _predict_id_usage list_of_set api = Ok M /\
    dict_get M service = Some m /\
    source m = path post_e /\
    _get_path_parameters list_of_set api service = Ok path_params /\
    List.find (dict_mem props) path_params = Some (id_field m) /\
    dict_mem props (id_field m) = true /\
    forall g prm,
      In g endpoints -> method g = "GET" ->
      In prm (parameters g) -> p_type prm = "path" ->
      p_name prm = id_field m
      \/ PyStr.contains "id" (PyStr.lower (p_name prm)) = true ->
      In (path g) (used_in m).
Proof.
  intros HG Hsplit Hpost Hcode Hr Hs Ht Hprops Hp Hempty Hg0 Hm0 Hp0 Hrest.
  assert (Hpp : exists path_params,
             _get_path_parameters list_of_set api service = Ok path_params /\
             In p path_params).
  { unfold _get_path_parameters. rewrite HG. eexists. split; [reflexivity|].
    apply list_of_set_In, unique_params_In. right. exists g0. auto. }
  destruct Hpp as (path_params & Hpp & Hin).
  destruct (List.find (dict_mem props) path_params) as [q|] eqn:Eq.
  2:{ apply (find_none _ _ Eq) in Hin. congruence. }
  assert (Hq : dict_mem props q = true) by (apply (find_some _ _ Eq)).
  assert (Hfind : _find_resource_id_field list_of_set api service
                    (responses post_e) = Ok (Some q)).
  { unfold _find_resource_id_field. rewrite Hpp. cbn [bind]. rewrite Hr, Hs.
    unfold schema_truthy, properties_truthy, properties_or_empty.
    rewrite Ht, Hprops. cbn.
    destruct props as [|prop props']; [discriminate|].
    rewrite andb_false_r. cbn [andb]. now rewrite Eq. }
  assert (Hqual : qualifies list_of_set api service post_e q).
  { repeat split; try assumption. intros ->. congruence. }
  destruct (predict_spec list_of_set api) as (M & HM & Hget).
  exists M. eexists. exists path_params.
  split; [exact HM|]. split.
  { rewrite Hget. unfold predicted. rewrite HG, Hsplit.
    rewrite (last_source_split list_of_set api service None pre post_e q rest
               Hqual Hrest).
    reflexivity. }
  cbn. repeat split; try assumption.
  intros g prm Hg Hmeth Hprm Htype Hname.
  rewrite <- Hsplit. apply (used_in_spec_In q endpoints g prm); try assumption.
  - unfold is_dependent. now rewrite Hmeth.
  - unfold param_matches. rewrite Htype. cbn.
    destruct Hname as [Hn|Hn]; rewrite Hn;
      [now rewrite String.eqb_refl|apply orb_true_r].
Qed.

End WithSetSemantics.

End PredictFacts.
(** ** The inference on sample catalogs *)

Module PredictSamples.
Import PyStr Vocabulary DictFacts TestsContainer IdSpec PredictFacts Samples.

Ltac by_computation := vm_compute; reflexivity.

Lemma insertion_order_In l x : In x (insertion_order l) <-> In x l.
Proof. apply nodup_In. Qed.

Example predict_items :
  _predict_id_usage insertion_order api_items =
  Ok [("items",
       {| source := "POST /items";
          source_test_name := "test_post_items_default";
          id_field := "itemId";
          used_in := ["GET /items/{itemId}"] |})].
Proof. by_computation. Qed.

(** C1 as stated fails: a creation whose success response is keyed 202
    records no mapping, and a later qualifying POST replaces the field. *)
Lemma infer_id_counterexample :
  (dict_get (_get_endpoint_groups api_accepted) "address"
   = Some [accepted_post; accepted_get]
   /\ success_response (responses accepted_post)
      = Some (json_response 202 (object_of [("addressId", uuid_string)]))
   /\ method accepted_get = "GET"
   /\ path_parameters accepted_get = ["addressId"]
   /\ _predict_id_usage insertion_order api_accepted = Ok [])
  /\
  (dict_get (_get_endpoint_groups api_two_posts) "address"
   = Some [two_posts_first; two_posts_second; two_posts_get]
   /\ success_response (responses two_posts_first)
      = Some (json_response 201 (object_of [("addressId", uuid_string)]))
   /\ method two_posts_get = "GET"
   /\ path_parameters two_posts_get = ["addressId"]
   /\ _predict_id_usage insertion_order api_two_posts =
      Ok [("address",
           {| source := "POST /address/import";
              source_test_name := "test_post_address_import_default";
              id_field := "response";
              used_in := ["GET /address/{addressId}"] |})]).
Proof. repeat split; by_computation. Qed.

Lemma infer_id_from_path_param_witness :
  exists M m path_params,
    _predict_id_usage insertion_order api_address = Ok M /\
    dict_get M "address" = Some m /\
    source m = path address_post /\
    _get_path_parameters insertion_order api_address "address"
    = Ok path_params /\
    List.find (dict_mem [("addressId", uuid_string)]) path_params
    = Some (id_field m) /\
    dict_mem [("addressId", uuid_string)] (id_field m) = true /\
    forall g prm,
      In g address_group -> method g = "GET" ->
      In prm (parameters g) -> p_type prm = "path" ->
      p_name prm = id_field m
      \/ PyStr.contains "id" (PyStr.lower (p_name prm)) = true ->
      In (path g) (used_in m).
Proof.
  apply (infer_id_from_path_param insertion_order insertion_order_In
           api_address "address" address_group [address_get] []
           address_post address_get
           (json_response 201 (object_of [("addressId", uuid_string)]))
           (object_of [("addressId", uuid_string)])
           [("addressId", uuid_string)] "addressId").
  - by_computation.
  - reflexivity.
  - reflexivity.
  - reflexivity.
  - reflexivity.
  - reflexivity.
  - reflexivity.
  - reflexivity.
  - reflexivity.
  - reflexivity.
  - left. reflexivity.
  - discriminate.
  - left. reflexivity.
  - intros e f [].
Defined.

Lemma find_id_of_string_schema_witness :
  (s_format uuid_string = Some "uuid" ->
   content_type (Response (StatusInt 201) (Some uuid_string) (Some "text/plain"))
   = Some "text/plain" ->
   _find_resource_id_field insertion_order api_tokens "tokens"
     (responses tokens_post)
   = Ok (Some ("tokens" +:+ "Id"))) /\
  (s_format uuid_string <> Some "uuid"
   \/ content_type (Response (StatusInt 201) (Some uuid_string) (Some "text/plain"))
      <> Some "text/plain" ->
   _find_resource_id_field insertion_order api_tokens "tokens"
     (responses tokens_post)
   = Ok (Some "response")).
Proof.
  apply (find_id_of_string_schema insertion_order api_tokens "tokens"
           tokens_group (responses tokens_post)
           (Response (StatusInt 201) (Some uuid_string) (Some "text/plain"))
           uuid_string).
  - by_computation.
  - reflexivity.
  - reflexivity.
  - reflexivity.
Defined.

Example find_id_plain_string :
  _find_resource_id_field insertion_order api_two_posts "address"
    (responses two_posts_second)
  = Ok (Some "response").
Proof. by_computation. Qed.

Lemma predict_last_post_wins_witness :
  exists M,
    _predict_id_usage insertion_order api_two_posts = Ok M /\
    count_occ string_dec (dict_keys M) "address" = 1 /\
    dict_get M "address" =
      Some (with_used_in (mapping_from "address" two_posts_second "response")
              (used_in_spec "response" two_posts_group)).
Proof.
  apply (predict_last_post_wins insertion_order api_two_posts "address"
           two_posts_group [] [] [two_posts_get]
           two_posts_first two_posts_second "addressId" "response").
  - by_computation.
  - reflexivity.
  - split; [reflexivity|split; [reflexivity|split; [by_computation|discriminate]]].
  - split; [reflexivity|split; [reflexivity|split; [by_computation|discriminate]]].
  - intros e f [<-|[]] (Hm & _). discriminate Hm.
Defined.

(** A path is listed twice when its operation has two matching path
    parameters. *)
Example used_in_repeats :
  _predict_id_usage insertion_order api_orgs =
  Ok [("orgs",
       {| source := "POST /orgs";
          source_test_name := "test_post_orgs_default";
          id_field := "orgId";
          used_in := ["GET /orgs/{orgId}/users/{userId}";
                      "GET /orgs/{orgId}/users/{userId}"] |})].
Proof. by_computation. Qed.

Lemma used_in_once_per_matching_param_witness :
  exists M m endpoints e,
    _predict_id_usage insertion_order api_orgs = Ok M /\
    dict_get M "orgs" = Some m /\
    dict_get (_get_endpoint_groups api_orgs) "orgs" = Some endpoints /\
    used_in m = used_in_spec (id_field m) endpoints /\
    In e endpoints /\
    2 <= count_occ string_dec (used_in m) (path e).
Proof.
  destruct (used_in_once_per_matching_param insertion_order api_orgs)
    as (M & HM & H).
  assert (HM' : _predict_id_usage insertion_order api_orgs =
                Ok [("orgs",
                     {| source := "POST /orgs";
                        source_test_name := "test_post_orgs_default";
                        id_field := "orgId";
                        used_in := ["GET /orgs/{orgId}/users/{userId}";
                                    "GET /orgs/{orgId}/users/{userId}"] |})])
    by by_computation.
  rewrite HM' in HM. injection HM as <-.
  destruct (H "orgs" _ eq_refl) as (endpoints & HG & Hused & Hcount).
  assert (HG' : dict_get (_get_endpoint_groups api_orgs) "orgs" =
                Some (group_of api_orgs "orgs")) by by_computation.
  rewrite HG' in HG. injection HG as <-.
  eexists. eexists. exists (group_of api_orgs "orgs").
  exists (nth_endpoint api_orgs "orgs" 1).
  split; [exact HM'|]. split; [reflexivity|]. split; [exact HG'|].
  split; [exact Hused|]. split; [right; left; by_computation|].
  by_computation.
Defined.

End PredictSamples.

(** ** Sorting the endpoints of a service *)

Module SortFacts.
Import PyStr Vocabulary TestsContainer TestSpec.

Lemma ascii_compare_N a b :
  Ascii.compare a b = N.compare (N_of_ascii a) (N_of_ascii b).
Proof. reflexivity. Qed.

Lemma string_leb_refl s : String.leb s s = true.
Proof.
  unfold String.leb. induction s as [|c s IH]; simpl; [reflexivity|].
  rewrite ascii_compare_N, N.compare_refl. exact IH.
Qed.

Lemma string_leb_trans a b c :
  String.leb a b = true -> String.leb b c = true -> String.leb a c = true.
Proof.
  unfold String.leb. revert b c.
  induction a as [|x a IH]; intros [|y b] [|z c]; simpl; try easy.
  rewrite !ascii_compare_N.
  destruct (N.compare_spec (N_of_ascii x) (N_of_ascii y)) as [Hxy|Hxy|Hxy];
    destruct (N.compare_spec (N_of_ascii y) (N_of_ascii z)) as [Hyz|Hyz|Hyz];
    try easy.
  - rewrite Hxy, Hyz, N.compare_refl. apply IH.
  - intros _ _. rewrite Hxy. now apply N.compare_lt_iff in Hyz as ->.
  - intros _ _. rewrite <- Hyz. now apply N.compare_lt_iff in Hxy as ->.
  - intros _ _.
    assert (H : (N_of_ascii x < N_of_ascii z)%N) by lia.
    now apply N.compare_lt_iff in H as ->.
Qed.

Lemma key_leb_refl k : key_leb k k = true.
Proof.
  unfold key_leb. now rewrite Nat.eqb_refl, string_leb_refl, orb_true_r.
Qed.

Lemma key_leb_total k1 k2 : key_leb k1 k2 = false -> key_leb k2 k1 = true.
Proof.
  unfold key_leb. intros H.
  apply orb_false_iff in H as [Hlt H].
  apply Nat.ltb_ge in Hlt.
  destruct (Nat.eqb (fst k1) (fst k2)) eqn:E.
  - apply Nat.eqb_eq in E. cbn [andb] in H.
    rewrite <- E, Nat.eqb_refl. cbn [andb].
    destruct (String.leb_total (snd k1) (snd k2)) as [H'|H']; [congruence|].
    rewrite H'. apply orb_true_r.
  - apply Nat.eqb_neq in E.
    assert (Hlt' : fst k2 < fst k1) by lia.
    apply Nat.ltb_lt in Hlt'. now rewrite Hlt'.
Qed.

Lemma key_leb_trans k1 k2 k3 :
  key_leb k1 k2 = true -> key_leb k2 k3 = true -> key_leb k1 k3 = true.
Proof.
  unfold key_leb. intros H12 H23.
  apply orb_true_iff in H12 as [H12|H12], H23 as [H23|H23].
  - apply Nat.ltb_lt in H12, H23.
    assert (H : fst k1 < fst k3) by lia. apply Nat.ltb_lt in H. now rewrite H.
  - apply andb_prop in H23 as [E _]. apply Nat.eqb_eq in E.
    rewrite <- E, H12. reflexivity.
  - apply andb_prop in H12 as [E _]. apply Nat.eqb_eq in E.
    rewrite E, H23. reflexivity.
  - apply andb_prop in H12 as [E12 L12], H23 as [E23 L23].
    apply Nat.eqb_eq in E12, E23.
    rewrite E12, E23, Nat.eqb_refl, (string_leb_trans _ _ _ L12 L23).
    apply orb_true_r.
Qed.

Lemma key_eqb_eq k1 k2 : key_eqb k1 k2 = true <-> k1 = k2.
Proof.
  unfold key_eqb. destruct k1 as [n1 s1], k2 as [n2 s2]. cbn [fst snd].
  rewrite andb_true_iff, Nat.eqb_eq, String.eqb_eq.
  split; [intros [-> ->]; reflexivity|intros [= -> ->]; auto].
Qed.

Lemma insert_sorted_perm (x : endpoint) l :
  Permutation (insert_sorted endpoint_leb x l) (x :: l).
Proof.
  induction l as [|y l IH]; simpl; [reflexivity|].
  destruct (endpoint_leb x y); [reflexivity|].
  rewrite IH. apply perm_swap.
Qed.

Lemma sorted_perm (l : list endpoint) : Permutation (sorted endpoint_leb l) l.
Proof.
  unfold sorted. induction l as [|x l IH]; simpl; [reflexivity|].
  rewrite insert_sorted_perm. now constructor.
Qed.

Lemma insert_sorted_strongly x l :
  StronglySorted le_endpoint l ->
  StronglySorted le_endpoint (insert_sorted endpoint_leb x l).
Proof.
  induction 1 as [|y l Hl IH Hy]; simpl.
  - repeat constructor.
  - destruct (endpoint_leb x y) eqn:E.
    + constructor; [now constructor|].
      constructor; [exact E|].
      apply List.Forall_forall. intros z Hz.
      rewrite List.Forall_forall in Hy.
      exact (key_leb_trans _ _ _ E (Hy z Hz)).
    + constructor; [exact IH|].
      apply List.Forall_forall. intros z Hz.
      apply (Permutation_in _ (insert_sorted_perm x l)) in Hz.
      destruct Hz as [<-|Hz].
      * now apply key_leb_total.
      * rewrite List.Forall_forall in Hy. now apply Hy.
Qed.

Lemma sorted_strongly (l : list endpoint) :
  StronglySorted le_endpoint (sorted endpoint_leb l).
Proof.
  unfold sorted. induction l as [|x l IH]; simpl; [constructor|].
  now apply insert_sorted_strongly.
Qed.

(** The sort is stable: endpoints with the same key keep their order. *)
Lemma insert_sorted_stable k x l :
  with_key k (insert_sorted endpoint_leb x l) = with_key k (x :: l).
Proof.
  unfold with_key. induction l as [|y l IH]; [reflexivity|].
  cbn [insert_sorted]. destruct (endpoint_leb x y) eqn:E; [reflexivity|].
  cbn [List.filter] in *. rewrite IH.
  destruct (key_eqb (sort_key x) k) eqn:Ex; [|reflexivity].
  destruct (key_eqb (sort_key y) k) eqn:Ey; [|reflexivity].
  apply key_eqb_eq in Ex, Ey. unfold endpoint_leb in E.
  rewrite Ex, Ey, key_leb_refl in E. discriminate.
Qed.

Lemma sorted_stable k (l : list endpoint) :
  with_key k (sorted endpoint_leb l) = with_key k l.
Proof.
  unfold sorted. induction l as [|x l IH]; [reflexivity|].
  cbn [fold_right]. rewrite insert_sorted_stable.
  unfold with_key in *. cbn [List.filter]. now rewrite IH.
Qed.

End SortFacts.
(** ** The order of the specification *)

Module OrderFacts.
Import PyStr Vocabulary TestsContainer TestSpec OrderSpec SortFacts.

(** The rank the code gives a method is its rank in the specification. *)
Lemma method_order_rank m : method_order m = rank m.
Proof.
  unfold method_order, rank, ranked_methods. cbn [position].
  rewrite !(String.eqb_sym _ m).
  repeat match goal with
         | |- context [String.eqb m ?x] => destruct (String.eqb m x)
         end; reflexivity.
Qed.

Lemma string_leb_le s t : String.leb s t = true -> str_le s t.
Proof.
  unfold String.leb. revert t.
  induction s as [|c s IH]; intros [|d t]; cbn [String.compare];
    try (intros; constructor; fail); try discriminate.
  rewrite ascii_compare_N.
  destruct (N.compare_spec (N_of_ascii c) (N_of_ascii d)) as [E|L|G].
  - apply (f_equal ascii_of_N) in E. rewrite !ascii_N_embedding in E. subst d.
    intros H. apply str_le_same, IH, H.
  - intros _. apply str_le_less. unfold nat_of_ascii. lia.
  - discriminate.
Qed.

Lemma endpoint_leb_before e1 e2 :
  endpoint_leb e1 e2 = true -> comes_before e1 e2.
Proof.
  unfold endpoint_leb, key_leb, sort_key, comes_before. cbn [fst snd].
  rewrite !method_order_rank. intros H.
  apply orb_true_iff in H as [H|H].
  - left. now apply Nat.ltb_lt.
  - right. apply andb_prop in H as [E L]. split.
    + now apply Nat.eqb_eq.
    + now apply string_leb_le.
Qed.

Lemma StronglySorted_weaken {A : Type} (R S : A -> A -> Prop) l :
  (forall x y, R x y -> S x y) ->
  StronglySorted R l -> StronglySorted S l.
Proof.
  intros HRS. induction 1 as [|x l Hl IH Hx]; constructor; [exact IH|].
  apply List.Forall_forall. intros y Hy.
  rewrite List.Forall_forall in Hx. now apply HRS, Hx.
Qed.

Lemma sorted_in_spec_order (l : list endpoint) :
  StronglySorted comes_before (sorted endpoint_leb l).
Proof.
  apply (StronglySorted_weaken le_endpoint); [|apply sorted_strongly].
  intros x y. apply endpoint_leb_before.
Qed.

Lemma has_key_with_key r p (l : list endpoint) :
  List.filter (has_key r p) l = with_key (r, p) l.
Proof.
  unfold with_key. apply List.filter_ext. intros e.
  unfold has_key, key_eqb, sort_key. cbn [fst snd].
  now rewrite method_order_rank.
Qed.

Lemma Permutation_filter_length {A : Type} (f : A -> bool) l l' :
  Permutation l l' ->
  List.length (List.filter f l) = List.length (List.filter f l').
Proof.
  induction 1 as [|x l l' _ IH|x y l|l l' l'' _ IH1 _ IH2]; cbn [List.filter].
  - reflexivity.
  - destruct (f x); cbn [List.length]; now rewrite IH.
  - destruct (f x), (f y); reflexivity.
  - now rewrite IH1.
Qed.

End OrderFacts.

(** ** The emitted test classes *)

Module TestContentFacts.
Import PyStr Vocabulary DictFacts TestsContainer TestSpec SortFacts.
Import OrderSpec OrderFacts.

Lemma clash_prefix a b x :
  clash a b = true -> String.prefix a (b +:+ x) = false.
Proof.
  revert b. induction a as [|c a IH]; intros [|d b]; simpl; try discriminate.
  intros H. destruct (ascii_dec c d) as [->|Hne]; [|reflexivity].
  rewrite Ascii.eqb_refl in H. now apply IH.
Qed.

Lemma prefix_append a x : String.prefix a (a +:+ x) = true.
Proof.
  induction a as [|c a IH]; simpl; [now destruct x|].
  destruct (ascii_dec c c); [exact IH|contradiction].
Qed.

(** Decide [String.prefix p l] on the lines of a goal: [l] is a constant, or
    a constant followed by text that is not known. *)
Ltac prefix_step :=
  match goal with
  | |- context [String.prefix ?p (?c +:+ ?x)] =>
      first [ rewrite (clash_prefix p c x eq_refl)
            | rewrite (prefix_append p x) ]
  | |- context [String.prefix ?p ?c] =>
      let v := eval vm_compute in (String.prefix p c) in
      match v with
      | true => change (String.prefix p c) with true
      | false => change (String.prefix p c) with false
      end
  end.

Ltac decide_prefixes := repeat prefix_step; cbv iota.

Ltac split_ifs :=
  repeat match goal with
         | |- context [if ?b then _ else _] =>
             lazymatch b with
             | true => fail
             | false => fail
             | _ => destruct b
             end
         | |- context [match ?o with Some _ => _ | None => _ end] =>
             lazymatch o with
             | Some _ => fail
             | None => fail
             | _ => destruct o
             end
         end.

Lemma def_lines_of_method M service title e :
  List.filter is_def_line (test_method_lines M service title e) =
  if has_success e then [def_line_of service e] else [].
Proof.
  unfold test_method_lines, has_success, def_line_of, test_name_of, is_def_line.
  destruct (success_response (responses e)) as [r|]; [|reflexivity].
  cbn [is_some]. cbv zeta.
  rewrite !List.filter_app. cbn [List.filter].
  decide_prefixes.
  split_ifs; cbn [List.filter app]; decide_prefixes; reflexivity.
Qed.

Lemma class_lines_of_method M service title e :
  List.filter is_class_line (test_method_lines M service title e) = [].
Proof.
  unfold test_method_lines, is_class_line.
  destruct (success_response (responses e)) as [r|]; [|reflexivity].
  cbv zeta. rewrite !List.filter_app. cbn [List.filter].
  decide_prefixes.
  split_ifs; cbn [List.filter app]; decide_prefixes; reflexivity.
Qed.

Lemma writes_of_method M service title e :
  existsb writes_resource_id (test_method_lines M service title e) =
  match success_response (responses e) with
  | Some r => status_is (status_code r) 201 && dict_mem M service
  | None => false
  end.
Proof.
  unfold test_method_lines, writes_resource_id.
  destruct (success_response (responses e)) as [r|]; [|reflexivity].
  cbv zeta. rewrite !existsb_app. cbn [existsb].
  decide_prefixes.
  destruct (status_is (status_code r) 201 && dict_mem M service);
    split_ifs; cbn [existsb orb]; decide_prefixes; reflexivity.
Qed.

Lemma header_lines M service title :
  List.filter is_def_line (class_header_lines M service title) = [] /\
  List.filter is_class_line (class_header_lines M service title) =
  ["class Test" +:+ capitalize service +:+ "Default:"].
Proof.
  unfold class_header_lines, is_def_line, is_class_line.
  rewrite !List.filter_app. cbn [List.filter]. unfold DQ.
  decide_prefixes.
  split_ifs; cbn [List.filter app]; decide_prefixes; split; reflexivity.
Qed.

Lemma filter_flat_map {A B : Type} (p : B -> bool) (f : A -> list B) l :
  List.filter p (flat_map f l) = flat_map (fun x => List.filter p (f x)) l.
Proof.
  induction l as [|x l IH]; simpl; [reflexivity|].
  now rewrite List.filter_app, IH.
Qed.

Lemma flat_map_optional {A B : Type} (p : A -> bool) (f : A -> B) l :
  flat_map (fun x => if p x then [f x] else []) l = map f (List.filter p l).
Proof.
  induction l as [|x l IH]; simpl; [reflexivity|].
  destruct (p x); simpl; now rewrite IH.
Qed.

Lemma flat_map_nil {A B : Type} (l : list A) :
  flat_map (fun _ => @nil B) l = [].
Proof. induction l; simpl; auto. Qed.

(** C5, as the code has it: the generator emits one file, holding one test
    class, for every service; the class has one test-method definition for
    every endpoint of the service that has a success response, and none for
    the others, so that it has as many definitions as the service has such
    endpoints (two of them can bear the same name); the definitions come in
    the order of the method rank POST, PUT, GET, PATCH, DELETE, any other
    method last, then of the path by character code, endpoints with the same
    rank and path keeping their catalog order. *)
Theorem test_methods_in_order (M : dict mapping) (service : string)
    (endpoints : list endpoint) :
  let lines := test_content_lines M service endpoints in
  let ordered := sorted endpoint_leb endpoints in
  (forall groups,
      map content (_generate_test_files groups M) =
      map (fun g => _generate_test_content M (fst g) (snd g)) groups) /\
  List.filter is_class_line lines =
    ["class Test" +:+ capitalize service +:+ "Default:"] /\
  List.filter is_def_line lines =
    map (def_line_of service) (List.filter has_success ordered) /\
  List.length (List.filter is_def_line lines) =
    List.length (List.filter has_success endpoints) /\
  Permutation ordered endpoints /\
  StronglySorted comes_before ordered /\
  (forall r p,
      List.filter (has_key r p) ordered = List.filter (has_key r p) endpoints).
Proof.
  cbv zeta.
  assert (Hdefs :
            List.filter is_def_line (test_content_lines M service endpoints) =
            map (def_line_of service)
              (List.filter has_success (sorted endpoint_leb endpoints))).
  { unfold test_content_lines. rewrite List.filter_app, filter_flat_map.
    rewrite (proj1 (header_lines M service _)). cbn [app].
    rewrite <- flat_map_optional. apply flat_map_ext.
    intros e. apply def_lines_of_method. }
  split; [|split; [|split; [|split; [|split; [|split]]]]].
  - intros groups. unfold _generate_test_files. rewrite map_map.
    apply map_ext. now intros [s eps].
  - unfold test_content_lines. rewrite List.filter_app, filter_flat_map.
    rewrite (proj2 (header_lines M service _)).
    rewrite (flat_map_ext _ (fun _ => [])), flat_map_nil; [reflexivity|].
    intros e. apply class_lines_of_method.
  - exact Hdefs.
  - rewrite Hdefs, length_map.
    apply Permutation_filter_length, sorted_perm.
  - apply sorted_perm.
  - apply sorted_in_spec_order.
  - intros r p. rewrite !has_key_with_key. apply sorted_stable.
Qed.

(** C4, as the code has it: the body emitted for an endpoint assigns the
    class-level [resource_id] exactly when the success response of the
    endpoint has the integer status 201 and the service has a mapping,
    whichever operation the endpoint is. *)
Theorem resource_id_written_iff_201 (M : dict mapping) (service title : string)
    (e : endpoint) :
  existsb writes_resource_id (test_method_lines M service title e) = true <->
  exists r,
    success_response (responses e) = Some r /\
    status_code r = StatusInt 201 /\
    dict_mem M service = true.
Proof.
  rewrite writes_of_method.
  destruct (success_response (responses e)) as [r|].
  - rewrite andb_true_iff. split.
    + intros [H1 H2]. exists r. repeat split; [|exact H2].
      destruct (status_code r) as [n| |]; try discriminate.
      cbn in H1. apply Z.eqb_eq in H1. now subst.
    + intros (r' & [= <-] & H1 & H2). rewrite H1. now split.
  - split; [discriminate|]. now intros (r & H & _).
Qed.

End TestContentFacts.
(** ** The emitted test classes on sample catalogs *)

Module TestContentSamples.
Import PyStr Vocabulary TestsContainer TestSpec TestContentFacts Samples.
Import MoreSamples.

(** C5 as stated fails: an endpoint without a success response gets no test
    method; and two endpoints of a service whose paths end in the same
    parameter get two definitions of one name, of which a Python class keeps
    the second only. *)
Lemma one_method_per_endpoint_counterexample :
  (dict_get (_get_endpoint_groups api_ping) "ping" = Some ping_group
   /\ List.length ping_group = 1
   /\ _predict_id_usage insertion_order api_ping = Ok []
   /\ List.filter is_def_line (test_content_lines [] "ping" ping_group) = [])
  /\
  (dict_get (_get_endpoint_groups api_shop) "shop" = Some shop_group
   /\ List.length shop_group = 2
   /\ _predict_id_usage insertion_order api_shop = Ok []
   /\ List.filter is_def_line (test_content_lines [] "shop" shop_group)
      = [ "    async def test_get_shop_id_id_default(self, domain, api_client, models):";
          "    async def test_get_shop_id_id_default(self, domain, api_client, models):" ]).
Proof. repeat split; vm_compute; reflexivity. Qed.

Example methods_post_get_delete :
  List.filter is_def_line
    (test_content_lines [] "items"
       [ Endpoint "GET /items" "GET" EmptyString [] None
           [("200", json_response 200 bare_object)] "items" [] "common";
         Endpoint "DELETE /items" "DELETE" EmptyString [] None
           [("204", json_response 204 bare_object)] "items" [] "common";
         Endpoint "POST /items" "POST" EmptyString [] None
           [("201", json_response 201 bare_object)] "items" [] "common" ])
  = [ "    async def test_post_items_default(self, domain, api_client, models):";
      "    async def test_get_items_default(self, domain, api_client, models):";
      "    async def test_delete_items_default(self, domain, api_client, models):" ].
Proof. vm_compute. reflexivity. Qed.

(** The end-to-end scenario of the specification: the POST test captures
    [response['itemId']], and the GET test depends on it and takes the
    captured value into its URL. *)
Example items_end_to_end :
  exists files,
    init_files insertion_order (Loaded api_items) = Ok files
    /\ map name files = ["common/items/test_items_default.py"]
    /\ List.filter
         (fun l => writes_resource_id l
                   || String.prefix "    @pytest.mark.dependency" l
                   || String.prefix "        add_url" l)
         (test_content_lines
            [("items",
              {| source := "POST /items";
                 source_test_name := "test_post_items_default";
                 id_field := "itemId";
                 used_in := ["GET /items/{itemId}"] |})]
            "items" (group_of api_items "items"))
       = [ "    @pytest.mark.dependency(name='test_post_items_default')";
           "        self.__class__.resource_id = response['itemId']";
           "    @pytest.mark.dependency(name='test_get_items_itemId_id_default', depends=['test_post_items_default'], force=True)";
           "        add_url = f'{self.__class__.resource_id}'" ].
Proof.
  eexists. split; [vm_compute; reflexivity|].
  split; vm_compute; reflexivity.
Qed.

(** C4 as stated fails: the test of a POST that is not the source of the
    mapping assigns [resource_id] as well. *)
Lemma single_writer_counterexample :
  _predict_id_usage insertion_order api_two_posts = Ok two_posts_mappings
  /\ dict_get (_get_endpoint_groups api_two_posts) "address"
     = Some [two_posts_first; two_posts_second; two_posts_get]
  /\ test_name_of "address" two_posts_first = "test_post_address_default"
  /\ In "        self.__class__.resource_id = response"
       (test_method_lines two_posts_mappings "address" "common" two_posts_first)
  /\ existsb writes_resource_id
       (test_method_lines two_posts_mappings "address" "common" two_posts_first)
     = true.
Proof.
  split; [vm_compute; reflexivity|].
  split; [vm_compute; reflexivity|].
  split; [vm_compute; reflexivity|].
  split; [vm_compute; tauto|vm_compute; reflexivity].
Qed.

End TestContentSamples.
(** ** Paths and their segments *)

Module SegmentFacts.
Import PyStr Vocabulary PyStrFacts.

Lemma append_empty_r s : s +:+ EmptyString = s.
Proof.
  induction s as [|c s IH]; [reflexivity|].
  change (String c (s +:+ EmptyString) = String c s). now rewrite IH.
Qed.

Lemma rev_string_twice a b s :
  rev_string a (rev_string b s) = rev_string (s +:+ a) b.
Proof.
  revert a b. induction s as [|c s IH]; intros a b; [reflexivity|].
  cbn [rev_string]. rewrite IH. reflexivity.
Qed.

Lemma rev_string_involutive s :
  rev_string EmptyString (rev_string EmptyString s) = s.
Proof. rewrite rev_string_twice. cbn [rev_string]. apply append_empty_r. Qed.

Lemma rev_string_append acc a b :
  rev_string acc (a +:+ b) = rev_string (rev_string acc a) b.
Proof.
  revert acc. induction a as [|c a IH]; intros acc; [reflexivity|].
  change (rev_string (String c acc) (a +:+ b)
          = rev_string (rev_string (String c acc) a) b).
  apply IH.
Qed.

(** Reversed, a segment starts with a character that is not the slash. *)
Lemma rev_string_segment acc seg :
  segment_ok seg ->
  exists d t,
    rev_string acc seg = String d t /\ Ascii.eqb d "/" = false.
Proof.
  intros [Hne Hfree]. revert acc.
  induction seg as [|c seg IH]; intros acc; [contradiction|].
  cbn [all_chars] in Hfree. apply andb_prop in Hfree as [Hc Hfree].
  destruct seg as [|c' seg'].
  - exists c, acc. split; [reflexivity|].
    unfold differs in Hc. now destruct (Ascii.eqb c "/").
  - cbn [rev_string]. apply (IH ltac:(discriminate) Hfree).
Qed.

Lemma rstrip_segment x seg :
  segment_ok seg -> rstrip "/" (x +:+ seg) = x +:+ seg.
Proof.
  intros Hseg. unfold rstrip. rewrite rev_string_append.
  destruct (rev_string_segment (rev_string EmptyString x) seg Hseg)
    as (d & t & Hrev & Hd).
  rewrite Hrev. cbn [lstrip]. rewrite Hd, <- Hrev, <- rev_string_append.
  apply rev_string_involutive.
Qed.

Lemma split_from_segment cur seg rest :
  all_chars (differs "/") seg = true ->
  split_from "/" cur (seg +:+ rest) = split_from "/" (rev_string cur seg) rest.
Proof.
  revert cur. induction seg as [|c seg IH]; intros cur Hfree; [reflexivity|].
  cbn [all_chars] in Hfree. apply andb_prop in Hfree as [Hc Hfree].
  change (String c seg +:+ rest) with (String c (seg +:+ rest)).
  cbn [split_from rev_string]. unfold differs in Hc.
  destruct (Ascii.eqb c "/"); [discriminate|]. now apply IH.
Qed.

(** Splitting what [join] made of slash-free segments gives them back. *)
Lemma split_join segs :
  segs <> [] ->
  Forall (fun seg => all_chars (differs "/") seg = true) segs ->
  split "/" (join "/" segs) = segs.
Proof.
  intros Hne Hfree. unfold split, join.
  induction Hfree as [|seg segs Hseg Hsegs IH]; [contradiction|].
  destruct segs as [|seg' segs'].
  - cbn [String.concat]. rewrite <- (append_empty_r seg) at 1.
    rewrite split_from_segment by exact Hseg.
    cbn [split_from]. now rewrite rev_string_involutive.
  - change (String.concat "/" (seg :: seg' :: segs'))
      with (seg +:+ String "/" (String.concat "/" (seg' :: segs'))).
    rewrite split_from_segment by exact Hseg.
    cbn [split_from]. change (Ascii.eqb "/" "/") with true. cbv iota.
    rewrite rev_string_involutive. f_equal. apply IH. discriminate.
Qed.

Lemma join_ends_with_segment segs seg :
  exists x, join "/" (segs ++ [seg]) = x +:+ seg.
Proof.
  unfold join. induction segs as [|s segs IH].
  - now exists EmptyString.
  - destruct IH as [x Hx]. destruct segs as [|s' segs'].
    + exists (s +:+ "/"). cbn [app String.concat]. cbn [app String.concat] in Hx.
      now rewrite append_assoc_str.
    + exists (s +:+ "/" +:+ x).
      change (String.concat "/" ((s :: s' :: segs') ++ [seg]))
        with (s +:+ "/" +:+ String.concat "/" ((s' :: segs') ++ [seg])).
      rewrite Hx. now rewrite !append_assoc_str.
Qed.

(** A path made of a slash and of segments joined by slashes has exactly
    these segments. *)
Lemma path_segments segs :
  segs <> [] -> Forall segment_ok segs ->
  startswith ("/" +:+ join "/" segs) "/" = true /\
  split "/" (strip "/" ("/" +:+ join "/" segs)) = segs.
Proof.
  intros Hne Hok. split.
  - unfold startswith. change ("/" +:+ join "/" segs)
      with (String "/" (join "/" segs)).
    cbn. now destruct (join "/" segs).
  - assert (Hstrip : strip "/" ("/" +:+ join "/" segs) = join "/" segs).
    { unfold strip.
      change ("/" +:+ join "/" segs) with (String "/" (join "/" segs)).
      cbn [lstrip]. change (Ascii.eqb "/" "/") with true. cbv iota.
      destruct (exists_last Hne) as (segs' & seg & ->).
      assert (Hseg : segment_ok seg).
      { rewrite List.Forall_forall in Hok. apply Hok, in_or_app. right. now left. }
      destruct (join_ends_with_segment segs' seg) as [x Hx].
      assert (Hfirst : lstrip "/" (join "/" (segs' ++ [seg]))
                       = join "/" (segs' ++ [seg])).
      { assert (Hhead : exists s0 tl, segs' ++ [seg] = s0 :: tl /\ segment_ok s0).
        { destruct segs' as [|s0 tl]; cbn [app].
          - now exists seg, [].
          - exists s0, (tl ++ [seg]). split; [reflexivity|].
            rewrite List.Forall_forall in Hok. apply Hok. now left. }
        destruct Hhead as (s0 & tl & -> & [Hne0 Hfree0]).
        destruct s0 as [|c s0]; [contradiction|].
        cbn [all_chars] in Hfree0. apply andb_prop in Hfree0 as [Hc _].
        unfold differs in Hc. unfold join.
        destruct tl; cbn [String.concat];
          [|change (String c s0 +:+ ?y) with (String c (s0 +:+ y))];
          cbn [lstrip]; now destruct (Ascii.eqb c "/"). }
      rewrite Hfirst, Hx. now apply rstrip_segment. }
    rewrite Hstrip. apply split_join; [exact Hne|].
    eapply List.Forall_impl; [|exact Hok]. now intros seg [_ H].
Qed.

End SegmentFacts.

(** ** Path declarations and catalog loading *)

Module EndpointFacts.
Import PyStr Vocabulary DictFacts SegmentFacts PathSpec Samples.

(** The paths [/users/profile/seg1/.../segn]: their first two segments are
    [users] and [profile], the others follow. *)
Lemma users_profile_path_parts rest :
  Forall segment_ok rest ->
  startswith ("/" +:+ join "/" ("users" :: "profile" :: rest)) "/" = true /\
  split "/" (strip "/" ("/" +:+ join "/" ("users" :: "profile" :: rest)))
  = "users" :: "profile" :: rest.
Proof.
  intros Hrest. apply path_segments; [discriminate|].
  repeat constructor; try discriminate. exact Hrest.
Qed.

(** The test-group classifier names an endpoint after the last segment of
    its key. *)
Lemma group_step_names api groups item :
  (forall k eps e,
      dict_get groups k = Some eps -> In e eps ->
      TestsContainer.endpoint_name e =
      TestsContainer._clean_name
        (last_seg (split "/" (TestsContainer.path e)))) ->
  forall k eps e,
    dict_get (TestsContainer.group_step api groups item) k = Some eps ->
    In e eps ->
    TestsContainer.endpoint_name e =
    TestsContainer._clean_name (last_seg (split "/" (TestsContainer.path e))).
Proof.
  intros Hinv k eps e. destruct item as [endpoint_path endpoint_data].
  unfold TestsContainer.group_step.
  destruct (TestsContainer._get_service_and_title api endpoint_path)
    as [service title].
  cbv zeta. set (s := TestsContainer._clean_name service).
  set (groups' := if dict_mem groups s then groups else dict_set groups s []).
  assert (Hinv' : forall k eps e,
             dict_get groups' k = Some eps -> In e eps ->
             TestsContainer.endpoint_name e =
             TestsContainer._clean_name
               (last_seg (split "/" (TestsContainer.path e)))).
  { intros k' eps' e'. unfold groups'. destruct (dict_mem groups s).
    - apply Hinv.
    - rewrite dict_get_set. destruct (String.eqb s k').
      + now intros [= <-] [].
      + apply Hinv. }
  rewrite dict_get_set. destruct (String.eqb s k).
  - intros [= <-] Hin.
    destruct (dict_get groups' s) as [old|] eqn:E.
    + apply in_app_or in Hin as [Hin|[<-|[]]]; [|reflexivity].
      now apply (Hinv' s old).
    + destruct Hin as [<-|[]]. reflexivity.
  - apply Hinv'.
Qed.

Lemma groups_names api k eps e :
  dict_get (TestsContainer._get_endpoint_groups api) k = Some eps ->
  In e eps ->
  TestsContainer.endpoint_name e =
  TestsContainer._clean_name (last_seg (split "/" (TestsContainer.path e))).
Proof.
  unfold TestsContainer._get_endpoint_groups.
  generalize api at 1. intros api0.
  assert (H : forall items groups,
             (forall k eps e,
                 dict_get groups k = Some eps -> In e eps ->
                 TestsContainer.endpoint_name e =
                 TestsContainer._clean_name
                   (last_seg (split "/" (TestsContainer.path e)))) ->
             forall k eps e,
               dict_get (fold_left (TestsContainer.group_step api0) items groups) k
               = Some eps ->
               In e eps ->
               TestsContainer.endpoint_name e =
               TestsContainer._clean_name
                 (last_seg (split "/" (TestsContainer.path e)))).
  { induction items as [|item items IH]; intros groups Hinv; simpl.
    - exact Hinv.
    - apply IH. now apply group_step_names. }
  apply H. intros k' eps' e'. discriminate.
Qed.

Import EndpointsContainer.

(** Once [services] has an endpoint name under a class, it keeps it. *)
Lemma services_step_keeps services p sn en :
  declares services sn en -> declares (services_step services p) sn en.
Proof.
  intros (eps & Hget & Hmem). unfold services_step.
  destruct (classify_path p) as [[[sn' en'] cp]|]; [|now exists eps].
  set (services' := if dict_mem services sn' then services
                    else dict_set services sn' []).
  assert (Hget' : dict_get services' sn = Some eps).
  { unfold services'. destruct (dict_mem services sn') eqn:E; [exact Hget|].
    rewrite dict_get_set. destruct (String.eqb sn' sn) eqn:E'; [|exact Hget].
    apply String.eqb_eq in E'. subst sn'. unfold dict_mem in E.
    now rewrite Hget in E. }
  unfold declares. rewrite dict_get_set.
  destruct (String.eqb sn' sn) eqn:E'.
  - apply String.eqb_eq in E'. subst sn'. rewrite Hget'.
    eexists. split; [reflexivity|].
    rewrite dict_mem_set, Hmem. apply orb_true_r.
  - now exists eps.
Qed.

Lemma services_step_adds services p sn en cp :
  classify_path p = Some (sn, en, cp) ->
  declares (services_step services p) sn en.
Proof.
  intros H. unfold services_step, declares. rewrite H.
  rewrite dict_get_set_same. eexists. split; [reflexivity|].
  now rewrite dict_mem_set, String.eqb_refl.
Qed.

Lemma fold_services_declares paths p sn en cp :
  In p paths -> classify_path p = Some (sn, en, cp) ->
  forall services, declares (fold_left services_step paths services) sn en.
Proof.
  intros Hin Hc.
  assert (Hkeep : forall l services,
             declares services sn en ->
             declares (fold_left services_step l services) sn en).
  { induction l as [|q l IH]; intros services H; simpl; [exact H|].
    apply IH, services_step_keeps, H. }
  induction paths as [|q paths IH]; intros services; [contradiction|].
  simpl. destruct Hin as [->|Hin].
  - apply Hkeep. eapply services_step_adds, Hc.
  - now apply IH.
Qed.

Lemma mem_str_In x l : mem_str x l = true <-> In x l.
Proof.
  unfold mem_str. rewrite existsb_exists. split.
  - intros (y & Hy & E). apply String.eqb_eq in E. now subst.
  - intros H. exists x. split; [exact H|apply String.eqb_refl].
Qed.

Lemma collect_paths_In api key d p :
  In (key, d) api -> d_path d = Some p -> str_truthy p = true ->
  In p (collect_paths api).
Proof.
  intros Hin Hp Ht. unfold collect_paths.
  set (step := fun (unique_paths : list string) (item : string * endpoint_data) =>
                 let path := match d_path (snd item) with
                             | Some p => p
                             | None => EmptyString
                             end in
                 if str_truthy path && negb (mem_str path unique_paths)
                 then unique_paths ++ [path] else unique_paths).
  assert (Hkeep : forall l acc, In p acc -> In p (fold_left step l acc)).
  { induction l as [|i l IH]; intros acc H; simpl; [exact H|].
    apply IH. unfold step. destruct (_ && _); [apply in_or_app; now left|exact H]. }
  generalize (@nil string) as acc.
  induction api as [|i api IH]; intros acc; [contradiction|].
  simpl. destruct Hin as [->|Hin]; [|now apply IH].
  apply Hkeep. unfold step. cbn [snd]. rewrite Hp, Ht. cbn [andb].
  destruct (mem_str p acc) eqn:E; cbn [negb].
  - now apply mem_str_In.
  - apply in_or_app. right. now left.
Qed.

Lemma service_lines_In services sn endpoints :
  dict_get services sn = Some endpoints ->
  In ("    class " +:+ sn +:+ ":") (flat_map service_lines services).
Proof.
  intros H. apply dict_get_In in H. apply in_flat_map.
  exists (sn, endpoints). split; [exact H|]. now left.
Qed.

Section WithSetSemantics.
Variable list_of_set : list string -> list string.
Hypothesis list_of_set_In : forall l x, In x (list_of_set l) <-> In x l.

(** C6, as the code has it: the path-declaration generator files every
    path whose first two segments are [users] and [profile] under the class
    [UsersProfile], the segments after [profile], joined by underscores and
    sanitized, forming the endpoint name ([root] when there is none); the
    test-group classifier names every endpoint after the last segment of
    its key alone. *)
Theorem users_profile_paths (api : catalog) (key : string)
    (d : endpoint_data) (path : string) (rest : list string) :
  In (key, d) api ->
  d_path d = Some path ->
  startswith path "/" = true ->
  split "/" (strip "/" path) = "users" :: "profile" :: rest ->
  (exists clean_path,
      classify_path path =
      Some ("UsersProfile",
            or_root (sanitize (match rest with
                               | [] => "root"
                               | _ => join "_" rest
                               end)),
            clean_path)) /\
  declares (paths_services list_of_set api) "UsersProfile"
    (or_root (sanitize (match rest with
                        | [] => "root"
                        | _ => join "_" rest
                        end))) /\
  In "    class UsersProfile:" (paths_content_lines list_of_set api) /\
  (forall service endpoints e,
      dict_get (TestsContainer._get_endpoint_groups api) service
      = Some endpoints ->
      In e endpoints ->
      TestsContainer.endpoint_name e =
      TestsContainer._clean_name
        (last_seg (split "/" (TestsContainer.path e)))).
Proof.
  intros Hin Hpath Hstart Hsplit.
  assert (Hc : exists clean_path,
             classify_path path =
             Some ("UsersProfile",
                   or_root (sanitize (match rest with
                                      | [] => "root"
                                      | _ => join "_" rest
                                      end)),
                   clean_path)).
  { unfold classify_path. rewrite Hstart, Hsplit. cbn [negb].
    eexists. reflexivity. }
  destruct Hc as [clean_path Hc].
  assert (Hd : declares (paths_services list_of_set api) "UsersProfile"
                 (or_root (sanitize (match rest with
                                     | [] => "root"
                                     | _ => join "_" rest
                                     end)))).
  { unfold paths_services.
    apply (fold_services_declares _ path _ _ clean_path); [|exact Hc].
    apply list_of_set_In. apply (collect_paths_In api key d); try assumption.
    destruct path; [discriminate|reflexivity]. }
  split; [now exists clean_path|]. split; [exact Hd|]. split.
  - unfold paths_content_lines. apply in_or_app. right. apply in_or_app. left.
    destruct Hd as (endpoints & Hget & _).
    apply (service_lines_In _ "UsersProfile" endpoints Hget).
  - intros service endpoints e. apply groups_names.
Qed.

(** C7, as the code has it: when the catalog cannot be loaded,
    [TestsContainer] and [ValidationsContainer] raise and produce nothing,
    while [EndpointsContainer] goes on with the empty catalog and produces
    [paths.py] and [configs.py] as for a catalog without endpoints. *)
Theorem load_failure_outcomes (msg : string) :
  TestsContainer.init_files list_of_set (LoadFailed msg)
  = Raised (JSONLoadError msg) /\
  ValidationsContainer.init_files (LoadFailed msg)
  = Raised (Exception ("Failed to load api_reference.json: " +:+ msg)) /\
  init_files list_of_set (LoadFailed msg) = init_files list_of_set (Loaded []) /\
  map name (_generate_endpoint_files list_of_set []) = ["paths.py"; "configs.py"] /\
  init_files list_of_set (LoadFailed msg) =
  Ok [ {| name := "paths.py";
          content :=
            Text (join NL
                    [ "from dataclasses import dataclass";
                      "from typing import Optional";
                      EmptyString;
                      "API_PREFIX = " +:+ DQ +:+ "/api/v1/pages" +:+ DQ;
                      EmptyString;
                      "@dataclass";
                      "class Paths:";
                      "    def get_path(self, service: str, endpoint: str) -> Optional[str]:";
                      "        svc = getattr(self, service, None)";
                      "        if svc:";
                      "            return getattr(svc, endpoint, None)";
                      "        return None";
                      EmptyString ]) |};
       {| name := "configs.py"; content := ConfigText [] |} ].
Proof.
  repeat split.
  assert (H : list_of_set [] = []).
  { destruct (list_of_set []) as [|x l] eqn:E; [reflexivity|].
    exfalso. apply (list_of_set_In [] x). rewrite E. now left. }
  unfold init_files, _load_api_reference, _generate_endpoint_files,
    _generate_paths_content, paths_content_lines, paths_services, collect_paths.
  cbn [fold_left]. rewrite H. reflexivity.
Qed.

End WithSetSemantics.

End EndpointFacts.

Module EndpointSamples.
Import PyStr Vocabulary TestsContainer EndpointsContainer PathSpec Samples
  EndpointFacts PredictSamples.

(** C6 as stated fails: the test-group classifier files a [users/profile]
    path under the service [users], and names it after its last segment. *)
Lemma users_profile_counterexample :
  fst (_get_service_and_title api_profile
         "GET /users/profile/settings/{section}") = "users"
  /\ dict_keys (_get_endpoint_groups api_profile) = ["users"]
  /\ dict_get (_get_endpoint_groups api_profile) "users" = Some [profile_get]
  /\ endpoint_name profile_get = "section"
  /\ classify_path "/users/profile/settings/{section}"
     = Some ("UsersProfile", "settings_section", "/users/profile/settings/").
Proof. repeat split; vm_compute; reflexivity. Qed.

Lemma users_profile_paths_witness :
  (exists clean_path,
      classify_path "/users/profile/settings/{section}" =
      Some ("UsersProfile",
            or_root (sanitize (join "_" ["settings"; "{section}"])),
            clean_path)) /\
  declares (paths_services insertion_order api_profile) "UsersProfile"
    (or_root (sanitize (join "_" ["settings"; "{section}"]))) /\
  In "    class UsersProfile:" (paths_content_lines insertion_order api_profile) /\
  (forall service endpoints e,
      dict_get (_get_endpoint_groups api_profile) service = Some endpoints ->
      In e endpoints ->
      endpoint_name e = _clean_name (last_seg (split "/" (path e)))).
Proof.
  apply (users_profile_paths insertion_order insertion_order_In api_profile
           "GET /users/profile/settings/{section}"
           (snd (nth 0 api_profile (EmptyString, entry EmptyString [] [])))
           "/users/profile/settings/{section}" ["settings"; "{section}"]).
  - left. reflexivity.
  - reflexivity.
  - reflexivity.
  - reflexivity.
Defined.

(** C7 as stated fails: after a load failure [EndpointsContainer] still
    produces its two files. *)
Lemma load_failure_counterexample :
  map EndpointsContainer.name
    (_generate_endpoint_files insertion_order
       (EndpointsContainer._load_api_reference (LoadFailed "Expecting value")))
  = ["paths.py"; "configs.py"]
  /\ (exists files,
        EndpointsContainer.init_files insertion_order
          (LoadFailed "Expecting value") = Ok files
        /\ List.length files = 2)
  /\ ValidationsContainer.init_files (LoadFailed "Expecting value")
     = Raised (Exception "Failed to load api_reference.json: Expecting value").
Proof.
  split; [reflexivity|]. split; [|reflexivity].
  eexists. split; reflexivity.
Qed.

Lemma load_failure_outcomes_witness :
  TestsContainer.init_files insertion_order (LoadFailed "Expecting value")
  = Raised (JSONLoadError "Expecting value")
  /\ EndpointsContainer.init_files insertion_order (LoadFailed "Expecting value")
     = EndpointsContainer.init_files insertion_order (Loaded []).
Proof.
  destruct (load_failure_outcomes insertion_order insertion_order_In
              "Expecting value") as (H1 & _ & H3 & _).
  split; [exact H1|exact H3].
Defined.

End EndpointSamples.
(** ** The validation models *)

Module ModelFacts.
Import PyStr Vocabulary PyStrFacts ValidationsContainer ModelSpec.

(** The body of [_generate_pydantic_model], with its loop named. *)
Lemma generate_unfold t f props items required nul other model_name
    field_name indent generated_models :
  _generate_pydantic_model (Schema t f props items required nul other)
    model_name field_name indent generated_models =
  if decide (model_name ∈ generated_models) then ([], generated_models)
  else
    let schema := Schema t f props items required nul other in
    let generated_models := {[ model_name ]} ∪ generated_models in
    if negb (schema_truthy schema)
       || (negb (properties_truthy schema)
           && negb (opt_str_eqb t "array" || opt_str_eqb t "string"))
    then (empty_model model_name indent, generated_models)
    else if opt_str_eqb t "string" then
      ([ "class " +:+ model_name +:+ "(RootModel):";
         spaces indent +:+ "root: str = Field(...)" ],
       generated_models)
    else if opt_str_eqb t "array" then
      let item_model_name :=
        _generate_model_name
          (if field_truthy field_name then field_name else Some "items")
          true in
      let '(item_model_code, generated_models) :=
        match items with
        | Some item_schema =>
            _generate_pydantic_model item_schema item_model_name
              field_name indent generated_models
        | None => generate_for_empty item_model_name indent generated_models
        end in
      let lines :=
        [ "class " +:+ model_name +:+ "(BaseModelWithConfig):";
          spaces indent +:+ "items: List[" +:+ item_model_name
            +:+ "] = Field(...)" ] in
      (if code_truthy item_model_code
       then item_model_code ++ [EmptyString] ++ lines
       else lines,
       generated_models)
    else
      let first_line := "class " +:+ model_name +:+ "(BaseModelWithConfig):" in
      let '(lines, nested_models, generated_models) :=
        match props with
        | None => ([first_line], [], generated_models)
        | Some ps =>
            properties_loop _generate_pydantic_model indent required ps
              [first_line] [] generated_models
        end in
      (if negb (Nat.eqb (List.length nested_models) 0)
       then join_blocks (nested_models ++ [lines])
       else lines,
       generated_models).
Proof.
  cbn [_generate_pydantic_model].
  destruct (decide (model_name ∈ generated_models)); [reflexivity|].
  cbv zeta.
  repeat match goal with
         | |- (if ?b then _ else _) = (if ?b then _ else _) =>
             destruct b; [reflexivity|]
         end.
  destruct props as [ps|]; [|reflexivity].
  match goal with
  | |- match ?X with (_, _) => _ end = _ =>
      match X with
      | ?loop ps _ _ _ =>
          assert (Hloop : forall ps0 l0 n0 g0,
                     loop ps0 l0 n0 g0 =
                     properties_loop _generate_pydantic_model indent required
                       ps0 l0 n0 g0)
      end
  end.
  { induction ps0 as [|[prop_name prop_schema] rest IH]; intros l0 n0 g0;
      [reflexivity|].
    cbn [properties_loop]. unfold nested_model. cbv beta iota fix.
    match goal with
    | |- match ?X with (_, _) => _ end = _ => destruct X as [c g1]
    end.
    apply IH. }
  now rewrite Hloop.
Qed.

(** *** Induction on schemas *)

Lemma schema_nested_ind (Q : schema -> Prop) :
  (forall t f props items required nul other,
      (forall ps, props = Some ps -> Forall (fun kv => Q (snd kv)) ps) ->
      (forall it, items = Some it -> Q it) ->
      Q (Schema t f props items required nul other)) ->
  forall s, Q s.
Proof.
  intros H. fix IH 1. intros [t f props items required nul other].
  apply H.
  - destruct props as [ps|]; [|discriminate].
    assert (Hps : Forall (fun kv => Q (snd kv)) ps).
    { clear -IH.
      induction ps as [|[k v] ps IHps]; constructor; [apply IH|exact IHps]. }
    now intros ps' [= <-].
  - destruct items as [it|]; [|discriminate].
    assert (Hit : Q it) by apply IH.
    now intros it' [= <-].
Qed.

(** *** Lines and declarations *)

Lemma declares_base n m :
  declares_model n ("class " +:+ m +:+ "(BaseModelWithConfig):")
  = String.eqb m n.
Proof.
  unfold declares_model.
  destruct (String.eqb_spec m n) as [->|Hne].
  - now rewrite String.eqb_refl.
  - apply orb_false_iff. split; apply String.eqb_neq; intros H;
      apply append_cancel_l in H.
    + apply append_inj_same_length in H as [H _]; [contradiction|reflexivity].
    + change (m +:+ "(BaseModelWithConfig):")
        with (m +:+ ("(BaseModelWithConfi" +:+ "g):")) in H.
      change (n +:+ "(RootModel):") with (n +:+ ("(RootMode" +:+ "l):")) in H.
      rewrite <- !append_assoc_str in H.
      apply append_inj_same_length in H as [_ H]; [discriminate|reflexivity].
Qed.

Lemma declares_root n m :
  declares_model n ("class " +:+ m +:+ "(RootModel):") = String.eqb m n.
Proof.
  unfold declares_model.
  destruct (String.eqb_spec m n) as [->|Hne].
  - rewrite String.eqb_refl. apply orb_true_r.
  - apply orb_false_iff. split; apply String.eqb_neq; intros H;
      apply append_cancel_l in H.
    + change (n +:+ "(BaseModelWithConfig):")
        with (n +:+ ("(BaseModelWithConfi" +:+ "g):")) in H.
      change (m +:+ "(RootModel):") with (m +:+ ("(RootMode" +:+ "l):")) in H.
      rewrite <- !append_assoc_str in H.
      apply append_inj_same_length in H as [_ H]; [discriminate|reflexivity].
    + apply append_inj_same_length in H as [H _]; [contradiction|reflexivity].
Qed.

Lemma declares_indented n k x :
  declares_model n (spaces (S k) +:+ x) = false.
Proof. reflexivity. Qed.

Lemma declares_blank n : declares_model n EmptyString = false.
Proof. reflexivity. Qed.

Lemma count_decl_app n a b :
  count_decl n (a ++ b) = count_decl n a + count_decl n b.
Proof. unfold count_decl. now rewrite List.filter_app, length_app. Qed.

Lemma count_decl_cons n l c :
  count_decl n (l :: c) = (if declares_model n l then 1 else 0) + count_decl n c.
Proof. unfold count_decl. simpl. now destruct (declares_model n l). Qed.

Lemma count_decl_nil n : count_decl n [] = 0.
Proof. reflexivity. Qed.

Lemma count_decl_join n blocks :
  count_decl n (join_blocks blocks) = count_decl n (concat blocks).
Proof.
  destruct blocks as [|b bs]; [reflexivity|].
  cbn [join_blocks concat]. rewrite !count_decl_app. f_equal.
  induction bs as [|b' bs IH]; [reflexivity|].
  cbn [flat_map concat]. rewrite !count_decl_app, count_decl_cons, declares_blank.
  rewrite IH. reflexivity.
Qed.

Lemma code_falsy c : code_truthy c = false -> c = [].
Proof. now destruct c. Qed.

(** *** Each model is declared once *)

Lemma once_base (gm : gset string) name n :
  name ∉ gm ->
  (if String.eqb name n then 1 else 0) =
  (if decide (n ∈ {[ name ]} ∪ gm /\ n ∉ gm) then 1 else 0).
Proof.
  intros Hname. destruct (String.eqb_spec name n) as [->|Hne];
    case_decide; try lia; set_solver.
Qed.

Lemma once_trans (g0 g1 g2 : gset string) n :
  g0 ⊆ g1 -> g1 ⊆ g2 ->
  (if decide (n ∈ g1 /\ n ∉ g0) then 1 else 0)
  + (if decide (n ∈ g2 /\ n ∉ g1) then 1 else 0)
  = (if decide (n ∈ g2 /\ n ∉ g0) then 1 else 0).
Proof. intros H1 H2. repeat case_decide; try lia; set_solver. Qed.

Lemma once_extend (gm g2 : gset string) name n :
  name ∉ gm -> {[ name ]} ∪ gm ⊆ g2 ->
  (if decide (n ∈ g2 /\ n ∉ {[ name ]} ∪ gm) then 1 else 0)
  + (if String.eqb name n then 1 else 0)
  = (if decide (n ∈ g2 /\ n ∉ gm) then 1 else 0).
Proof.
  intros Hname Hsub. rewrite (once_base gm name n Hname), Nat.add_comm.
  apply once_trans; [set_solver|exact Hsub].
Qed.

Lemma declared_once_skip (gm : gset string) : declared_once gm ([], gm).
Proof.
  split; [reflexivity|]. intros n. cbn [fst snd].
  rewrite count_decl_nil. case_decide; [|reflexivity]. tauto.
Qed.

Lemma declared_once_empty_model name k (gm : gset string) :
  name ∉ gm ->
  declared_once gm (empty_model name (S k), {[ name ]} ∪ gm).
Proof.
  intros Hname. split; [cbn [snd]; set_solver|]. intros n. cbn [fst snd].
  unfold empty_model.
  rewrite !count_decl_cons, declares_base, declares_indented, count_decl_nil.
  rewrite <- (once_base gm name n Hname). lia.
Qed.

Lemma declared_once_for_empty name k (gm : gset string) :
  declared_once gm (generate_for_empty name (S k) gm).
Proof.
  unfold generate_for_empty. case_decide.
  - apply declared_once_skip.
  - now apply declared_once_empty_model.
Qed.

Lemma nested_model_once k prop_name prop_schema (gm : gset string) :
  generates_once_deep (S k) prop_schema ->
  declared_once gm
    (nested_model _generate_pydantic_model (S k) prop_name prop_schema gm).
Proof.
  intros [Hself Hitems]. unfold nested_model.
  destruct (is_object_like prop_schema); [apply Hself|].
  destruct (opt_str_eqb (s_type prop_schema) "array");
    [|apply declared_once_skip].
  destruct prop_schema as [t f props [item_schema|] required nul other];
    [|apply declared_once_skip].
  destruct (is_object_like item_schema); [|apply declared_once_skip].
  now apply Hitems.
Qed.

Lemma properties_loop_once k required ps :
  Forall (fun kv => generates_once_deep (S k) (snd kv)) ps ->
  forall lines nested (gm : gset string) lines' nested' gm',
    properties_loop _generate_pydantic_model (S k) required ps lines nested gm
    = (lines', nested', gm') ->
    gm ⊆ gm' /\
    forall n,
      count_decl n lines' = count_decl n lines /\
      count_decl n (concat nested') =
      count_decl n (concat nested)
      + (if decide (n ∈ gm' /\ n ∉ gm) then 1 else 0).
Proof.
  induction 1 as [|[prop_name prop_schema] ps Hhead _ IH];
    intros lines nested gm lines' nested' gm' Hloop.
  - injection Hloop as <- <- <-. split; [reflexivity|]. intros n.
    split; [reflexivity|]. case_decide; [tauto|lia].
  - cbn [properties_loop snd] in *.
    pose proof (nested_model_once k prop_name prop_schema gm Hhead) as Hn.
    destruct (nested_model _ _ _ _ gm) as [c g1].
    destruct Hn as [Hsub Hcount]. cbn [fst snd] in Hsub, Hcount.
    apply IH in Hloop as [Hsub' Hrest].
    split; [set_solver|]. intros n.
    destruct (Hrest n) as [Hlines Hnested]. split.
    + rewrite Hlines, count_decl_app, count_decl_cons, count_decl_nil.
      unfold field_line. rewrite declares_indented. lia.
    + rewrite Hnested, <- (once_trans gm g1 gm' n Hsub Hsub'), <- Hcount.
      destruct (code_truthy c) eqn:Ec.
      * rewrite concat_app, count_decl_app. cbn [concat].
        rewrite app_nil_r. lia.
      * apply code_falsy in Ec. subst c. rewrite count_decl_nil. lia.
Qed.

(** Whatever the schema, the name and the models generated before, a call
    declares each model it adds to the set once, and nothing else. *)
Lemma generate_once k s : generates_once_deep (S k) s.
Proof.
  induction s as [t f props items required nul other Hprops Hitems]
    using schema_nested_ind.
  split.
  2:{ intros item_schema Hit. cbn in Hit.
      exact (proj1 (Hitems item_schema Hit)). }
  intros name field gm. rewrite generate_unfold.
  case_decide as Hname; [apply declared_once_skip|].
  cbv zeta.
  destruct (negb (schema_truthy _) || _);
    [now apply declared_once_empty_model|].
  destruct (opt_str_eqb t "string").
  { split; [cbn [snd]; set_solver|]. intros n. cbn [fst snd].
    rewrite !count_decl_cons, declares_root, declares_indented, count_decl_nil.
    rewrite <- (once_base gm name n Hname). lia. }
  destruct (opt_str_eqb t "array").
  { match goal with
    | |- declared_once _ (let '(_, _) := ?X in _) =>
        assert (Hitem : declared_once ({[ name ]} ∪ gm) X);
        [|destruct X as [c g2]]
    end.
    { destruct items as [item_schema|].
      - destruct (Hitems item_schema eq_refl) as [Hi _]. apply Hi.
      - apply declared_once_for_empty. }
    destruct Hitem as [Hsub Hcount]. cbn [fst snd] in Hsub, Hcount.
    split; [cbn [snd]; set_solver|]. intros n. cbn [fst snd].
    rewrite <- (once_extend gm g2 name n Hname Hsub), <- Hcount.
    destruct (code_truthy c) eqn:Ec.
    - rewrite !count_decl_app, !count_decl_cons, declares_blank,
        declares_base, declares_indented, count_decl_nil. lia.
    - apply code_falsy in Ec. subst c.
      rewrite !count_decl_cons, declares_base, declares_indented,
        !count_decl_nil. lia. }
  destruct props as [ps|].
  - destruct (properties_loop _ _ _ ps _ _ _) as [[lines' nested'] g2] eqn:El.
    apply (properties_loop_once k required ps (Hprops ps eq_refl)) in El
      as [Hsub Hcounts].
    split; [cbn [snd]; set_solver|]. intros n. cbn [fst snd].
    destruct (Hcounts n) as [Hlines Hnested].
    rewrite count_decl_cons, declares_base, count_decl_nil in Hlines.
    cbn [concat] in Hnested. rewrite count_decl_nil in Hnested.
    rewrite <- (once_extend gm g2 name n Hname Hsub).
    destruct nested' as [|b nested'].
    + cbn [List.length Nat.eqb negb]. rewrite Hlines.
      cbn [concat] in Hnested. rewrite count_decl_nil in Hnested. lia.
    + cbn [List.length Nat.eqb negb].
      rewrite count_decl_join, concat_app, count_decl_app, Hnested.
      cbn [concat]. rewrite app_nil_r, Hlines. lia.
  - split; [cbn [snd]; set_solver|]. intros n. cbn [fst snd List.length Nat.eqb negb].
    rewrite count_decl_cons, declares_base, count_decl_nil.
    rewrite <- (once_base gm name n Hname). lia.
Qed.

(** *** One validation file *)

Lemma drop_append x s : drop (String.length x) (x +:+ s) = s.
Proof. induction x as [|c x IH]; [reflexivity|exact IH]. Qed.

Lemma suffixb_append x s : suffixb s (x +:+ s) = true.
Proof.
  unfold suffixb. rewrite append_length_sum.
  replace (String.length x + String.length s - String.length s)
    with (String.length x) by lia.
  rewrite drop_append, String.eqb_refl, andb_true_r.
  apply Nat.leb_le. lia.
Qed.

(** A line that declares a model ends as a declaration does. *)
Lemma declares_suffix n l :
  declares_model n l = true ->
  suffixb "(BaseModelWithConfig):" l || suffixb "(RootModel):" l = true.
Proof.
  unfold declares_model. intros H. apply orb_true_iff in H as [H|H];
    apply String.eqb_eq in H; subst l; rewrite <- append_assoc_str;
    rewrite suffixb_append; [reflexivity|apply orb_true_r].
Qed.

Ltac not_a_declaration :=
  match goal with
  | |- declares_model ?n ?l = false =>
      destruct (declares_model n l) eqn:E; [|reflexivity];
      apply declares_suffix in E; vm_compute in E; discriminate E
  end.

Lemma count_decl_validators n : count_decl n validator_lines = 0.
Proof.
  unfold validator_lines.
  repeat (rewrite count_decl_cons;
          match goal with
          | |- context [declares_model n ?l] =>
              replace (declares_model n l) with false
                by (symmetry; not_a_declaration)
          end).
  reflexivity.
Qed.

Lemma success_step_ok state item :
  file_ok state -> file_ok (success_step state item).
Proof.
  destruct state as [[content has] gm], item as [response_code response].
  intros [Hcount Hflag]. unfold success_step.
  destruct (negb (startswith response_code "2")); [now split|].
  pose proof (proj1 (generate_once 3
                       (without_parameters
                          (match r_schema response with
                           | Some s => s
                           | None => empty_schema
                           end)))
                (_generate_model_name None true) None gm) as Hgen.
  destruct (_generate_pydantic_model _ _ None 4 gm) as [c g2].
  destruct Hgen as [Hsub Hc]. cbn [fst snd] in Hsub, Hc.
  destruct (code_truthy c) eqn:Ec.
  - split; [|discriminate]. intros n.
    rewrite !count_decl_app, count_decl_cons, declares_blank, count_decl_nil.
    rewrite Hcount, Hc. repeat case_decide; try lia; set_solver.
  - apply code_falsy in Ec. subst c. split.
    + intros n. specialize (Hc n). rewrite count_decl_nil in Hc.
      rewrite Hcount. repeat case_decide; try lia; set_solver.
    + intros Hhas. specialize (Hflag Hhas).
      specialize (Hc "ResponseSuccessBody"). rewrite count_decl_nil in Hc.
      case_decide; [discriminate|]. set_solver.
Qed.

Lemma fold_success_ok responses state :
  file_ok state -> file_ok (fold_left success_step responses state).
Proof.
  revert state. induction responses as [|item responses IH]; intros state H;
    simpl; [exact H|].
  apply IH, success_step_ok, H.
Qed.

Lemma validation_file_once responses n :
  count_decl n (validation_file_lines responses) <= 1.
Proof.
  unfold validation_file_lines.
  pose proof (proj1 (generate_once 3 error_schema) "ResponseError" None ∅)
    as Herr.
  destruct (_generate_pydantic_model error_schema "ResponseError" None 4 ∅)
    as [error_code g1] eqn:Eerr.
  assert (Hcode : error_code = fst (_generate_pydantic_model error_schema
                                      "ResponseError" None 4 ∅))
    by now rewrite Eerr.
  vm_compute in Hcode.
  destruct Herr as [_ Herr]. cbn [fst snd] in Herr.
  match goal with
  | |- context [fold_left success_step responses ?st] =>
      assert (Hinit : file_ok st)
  end.
  { split.
    - intros m. rewrite !count_decl_app, Herr.
      repeat (rewrite count_decl_cons;
              match goal with
              | |- context [declares_model m ?l] =>
                  replace (declares_model m l) with false
                    by (symmetry; not_a_declaration)
              end).
      rewrite count_decl_nil. repeat case_decide; try lia; set_solver.
    - intros _ Hin. specialize (Herr "ResponseSuccessBody").
      assert (H0 : count_decl "ResponseSuccessBody" error_code = 0)
        by (rewrite Hcode; vm_compute; reflexivity).
      rewrite H0 in Herr.
      case_decide; [discriminate|]. set_solver. }
  apply (fold_success_ok responses) in Hinit.
  destruct (fold_left success_step responses _) as [[content has] gm].
  destruct Hinit as [Hcount Hflag].
  destruct has.
  - rewrite count_decl_app, count_decl_validators, Hcount.
    case_decide; lia.
  - specialize (Hflag eq_refl).
    rewrite !count_decl_app, count_decl_validators, Hcount.
    change "class ResponseSuccessBody(BaseModelWithConfig):"
      with ("class " +:+ "ResponseSuccessBody" +:+ "(BaseModelWithConfig):").
    rewrite !count_decl_cons, declares_base, count_decl_nil.
    change "    pass" with (spaces 4 +:+ "pass").
    rewrite declares_indented, declares_blank.
    destruct (String.eqb_spec "ResponseSuccessBody" n) as [<-|Hne];
      case_decide; try lia. contradiction.
Qed.

Lemma all_generate_once_deep k (ps : list (string * schema)) :
  Forall (fun kv => generates_once_deep (S k) (snd kv)) ps.
Proof. apply List.Forall_forall. intros kv _. apply generate_once. Qed.

(** The generator puts the name it was called with into the set. *)
Lemma generated_has_name k s model_name field_name (gm : gset string) :
  model_name ∈ snd (_generate_pydantic_model s model_name field_name (S k) gm).
Proof.
  destruct s as [t f props items required nul other].
  rewrite generate_unfold. case_decide as Hname; [exact Hname|].
  cbv zeta.
  destruct (negb (schema_truthy _) || _); [cbn [snd]; set_solver|].
  destruct (opt_str_eqb t "string"); [cbn [snd]; set_solver|].
  destruct (opt_str_eqb t "array").
  { match goal with
    | |- _ ∈ snd (let '(_, _) := ?X in _) =>
        assert (Hitem : declared_once ({[ model_name ]} ∪ gm) X);
        [|destruct X as [c g2]]
    end.
    { destruct items as [item_schema|].
      - apply (proj1 (generate_once k item_schema)).
      - apply declared_once_for_empty. }
    destruct Hitem as [Hsub _]. cbn [snd] in *. set_solver. }
  destruct props as [ps|]; [|cbn [snd]; set_solver].
  destruct (properties_loop _ _ _ ps _ _ _) as [[lines' nested'] g2] eqn:El.
  apply (properties_loop_once k required ps (all_generate_once_deep k ps)) in El
    as [Hsub _].
  cbn [snd]. set_solver.
Qed.

Lemma properties_loop_names k required ps :
  forall lines nested (gm : gset string) lines' nested' gm',
    properties_loop _generate_pydantic_model (S k) required ps lines nested gm
    = (lines', nested', gm') ->
    forall prop_name prop_schema,
      In (prop_name, prop_schema) ps -> is_object_like prop_schema = true ->
      _generate_model_name (Some prop_name) true ∈ gm'.
Proof.
  induction ps as [|[p0 s0] ps IH];
    intros lines nested gm lines' nested' gm' Hloop prop_name prop_schema Hin Hobj;
    [contradiction|].
  cbn [properties_loop] in Hloop.
  destruct (nested_model _generate_pydantic_model (S k) p0 s0 gm) as [c g1] eqn:En.
  destruct Hin as [Hin|Hin].
  - injection Hin as -> ->.
    apply (properties_loop_once k required ps (all_generate_once_deep k ps)) in Hloop
      as [Hsub _].
    unfold nested_model in En. rewrite Hobj in En.
    pose proof (generated_has_name k prop_schema
                  (_generate_model_name (Some prop_name) true)
                  (Some prop_name) gm) as Hname.
    rewrite En in Hname. cbn [snd] in Hname. set_solver.
  - eapply IH; eassumption.
Qed.

(** C8, as the code has it: in one run of the validation-model generator
    declarations go by model name, not by structure. A call of
    [_generate_pydantic_model] declares exactly the names it adds to the set
    of generated models, each once, and none of those generated before; a
    whole validation file declares no name twice. When the call writes the
    model of an object, every property that is itself an object has the
    model name derived from its property name in the set afterwards, so that
    this name is declared exactly once in the run: properties whose names
    derive different model names get a declaration each, whatever their
    structures, and properties whose names derive the same model name share
    one declaration. *)
Theorem model_declared_once (k : nat) (s : schema) (model_name : string)
    (field_name : option string) (generated_models : gset string)
    (responses : dict response) (n : string) :
  let result :=
    _generate_pydantic_model s model_name field_name (S k) generated_models in
  count_decl n (fst result)
  = (if decide (n ∈ snd result /\ n ∉ generated_models) then 1 else 0)
  /\ count_decl n (validation_file_lines responses) <= 1
  /\ (forall props prop_name prop_schema,
         s_properties s = Some props ->
         opt_str_eqb (s_type s) "string" = false ->
         opt_str_eqb (s_type s) "array" = false ->
         model_name ∉ generated_models ->
         In (prop_name, prop_schema) props ->
         is_object_like prop_schema = true ->
         let nested_name := _generate_model_name (Some prop_name) true in
         nested_name ∈ snd result /\
         count_decl nested_name (fst result)
         = (if decide (nested_name ∈ generated_models) then 0 else 1)).
Proof.
  cbv zeta. split; [|split].
  - apply (proj1 (generate_once k s)).
  - apply validation_file_once.
  - intros props prop_name prop_schema Hprops Hstr Harr Hname Hin Hobj.
    destruct s as [t f props0 items required nul other].
    cbn [s_properties s_type] in Hprops, Hstr, Harr. subst props0.
    assert (Hset : _generate_model_name (Some prop_name) true
                   ∈ snd (_generate_pydantic_model
                            (Schema t f (Some props) items required nul other)
                            model_name field_name (S k) generated_models)).
    { rewrite generate_unfold. case_decide; [contradiction|]. cbv zeta.
      rewrite Hstr, Harr.
      assert (Ht : schema_truthy
                     (Schema t f (Some props) items required nul other) = true).
      { unfold schema_truthy. cbn. now rewrite !orb_true_r. }
      assert (Hp : properties_truthy
                     (Schema t f (Some props) items required nul other) = true).
      { unfold properties_truthy. cbn.
        destruct props; [contradiction|reflexivity]. }
      rewrite Ht, Hp. cbn [negb orb andb].
      destruct (properties_loop _ _ _ props _ _ _) as [[lines' nested'] g2] eqn:El.
      cbn [snd]. eapply properties_loop_names; eassumption. }
    split; [exact Hset|].
    rewrite (proj2 (proj1 (generate_once k
                             (Schema t f (Some props) items required nul other))
                      model_name field_name generated_models)).
    repeat case_decide; try reflexivity; tauto.
Qed.

End ModelFacts.

(** ** The validation models on sample schemas *)

Module ModelSamples.
Import PyStr Vocabulary ValidationsContainer ModelSpec ModelFacts Samples.
Import MoreSamples.

(** C8 as stated fails: two structurally identical sub-objects under the
    properties [home] and [work] get a nested model each. *)
Lemma one_declaration_per_structure_counterexample :
  s_properties two_addresses
  = Some [("home", street_address); ("work", street_address)]
  /\ fst (_generate_pydantic_model two_addresses "ResponseSuccessBody" None 4 ∅)
     = [ "class ResponseSuccessBodyHome(BaseModelWithConfig):";
         "    street: str = Field(None)";
         EmptyString;
         "class ResponseSuccessBodyWork(BaseModelWithConfig):";
         "    street: str = Field(None)";
         EmptyString;
         "class ResponseSuccessBody(BaseModelWithConfig):";
         "    home: ResponseSuccessBodyHome = Field(None)";
         "    work: ResponseSuccessBodyWork = Field(None)" ]
  /\ List.length
       (List.filter (fun l => String.prefix "class ResponseSuccessBody" l
                              && negb (String.eqb l
                                   "class ResponseSuccessBody(BaseModelWithConfig):"))
          (validation_file_lines
             [("200", json_response 200 two_addresses)])) = 2.
Proof. repeat split; vm_compute; reflexivity. Qed.

(** Sub-objects whose model names coincide collapse to one declaration. *)
Example same_name_collapses :
  fst (_generate_pydantic_model nested_twice "ResponseSuccessBody" None 4 ∅)
  = [ "class ResponseSuccessBodyX(BaseModelWithConfig):";
      "    street: str = Field(None)";
      EmptyString;
      "class ResponseSuccessBodyA(BaseModelWithConfig):";
      "    x: ResponseSuccessBodyX = Field(None)";
      EmptyString;
      "class ResponseSuccessBodyB(BaseModelWithConfig):";
      "    x: ResponseSuccessBodyX = Field(None)";
      EmptyString;
      "class ResponseSuccessBody(BaseModelWithConfig):";
      "    a: ResponseSuccessBodyA = Field(None)";
      "    b: ResponseSuccessBodyB = Field(None)" ].
Proof. vm_compute. reflexivity. Qed.

(** Two properties whose names give the same model name share the
    declaration of the first. *)
Example same_derived_name_collapses :
  _generate_model_name (Some "user_id") true = "ResponseSuccessBodyUserId"
  /\ _generate_model_name (Some "user__id") true = "ResponseSuccessBodyUserId"
  /\ fst (_generate_pydantic_model two_user_ids "ResponseSuccessBody" None 4 ∅)
     = [ "class ResponseSuccessBodyUserId(BaseModelWithConfig):";
         "    street: str = Field(None)";
         EmptyString;
         "class ResponseSuccessBody(BaseModelWithConfig):";
         "    user_id: ResponseSuccessBodyUserId = Field(None)";
         "    user__id: ResponseSuccessBodyUserId = Field(None)" ].
Proof. repeat split; vm_compute; reflexivity. Qed.

Lemma model_declared_once_witness :
  let result :=
    _generate_pydantic_model two_user_ids "ResponseSuccessBody" None 4 ∅ in
  let nested_name := _generate_model_name (Some "user__id") true in
  nested_name ∈ snd result /\
  count_decl nested_name (fst result)
  = (if decide (nested_name ∈ (∅ : gset string)) then 0 else 1).
Proof.
  destruct (model_declared_once 3 two_user_ids "ResponseSuccessBody" None ∅
              [("200", json_response 200 two_user_ids)]
              "ResponseSuccessBodyUserId") as (_ & _ & H).
  apply (H [("user_id", street_address); ("user__id", bare_object)]
           "user__id" bare_object).
  - reflexivity.
  - reflexivity.
  - reflexivity.
  - apply not_elem_of_empty.
  - right. left. reflexivity.
  - reflexivity.
Defined.

End ModelSamples.

(** * Further properties of the generators *)

(** ** Grouping the catalog *)

Module GroupExtras.
Import PyStr Vocabulary PyStrFacts DictFacts CleanName GroupFacts
  TestsContainer GroupSpec.

(** The paths of a group, or none when the service has no group. *)
Lemma group_step_paths api groups item service :
  match dict_get (group_step api groups item) service with
  | Some endpoints => map path endpoints
  | None => []
  end =
  match dict_get groups service with
  | Some endpoints => map path endpoints
  | None => []
  end ++
  (if String.eqb (service_of api (fst item)) service then [fst item] else []).
Proof.
  destruct item as [endpoint_path endpoint_data]. unfold group_step, service_of.
  cbn [fst]. cbv zeta.
  destruct (_get_service_and_title api endpoint_path) as [service0 title].
  cbn [fst]. rewrite dict_get_set.
  destruct (String.eqb (_clean_name service0) service) eqn:E.
  - apply String.eqb_eq in E. subst service.
    destruct (dict_mem groups (_clean_name service0)) eqn:M.
    + unfold dict_mem in M.
      destruct (dict_get groups (_clean_name service0)); [|discriminate].
      now rewrite map_app.
    + rewrite dict_get_set, String.eqb_refl. unfold dict_mem in M.
      destruct (dict_get groups (_clean_name service0)); [discriminate|].
      reflexivity.
  - rewrite app_nil_r.
    destruct (dict_mem groups (_clean_name service0)); [reflexivity|].
    now rewrite dict_get_set, E.
Qed.

Lemma group_step_nonempty api groups item service :
  (forall endpoints, dict_get groups service = Some endpoints -> endpoints <> []) ->
  forall endpoints,
    dict_get (group_step api groups item) service = Some endpoints ->
    endpoints <> [].
Proof.
  intros Hg endpoints. destruct item as [endpoint_path endpoint_data].
  unfold group_step. cbv zeta.
  destruct (_get_service_and_title api endpoint_path) as [service0 title].
  rewrite dict_get_set.
  destruct (String.eqb (_clean_name service0) service) eqn:E.
  - intros [= <-].
    destruct (dict_get _ (_clean_name service0)) as [l|]; [|discriminate].
    destruct l; discriminate.
  - destruct (dict_mem groups (_clean_name service0)); [apply Hg|].
    rewrite dict_get_set, E. apply Hg.
Qed.

Lemma fold_group_paths api items groups service :
  match dict_get (fold_left (group_step api) items groups) service with
  | Some endpoints => map path endpoints
  | None => []
  end =
  match dict_get groups service with
  | Some endpoints => map path endpoints
  | None => []
  end ++ keys_of_service api items service.
Proof.
  revert groups. induction items as [|item items IH]; intros groups.
  - cbn. now rewrite app_nil_r.
  - cbn [fold_left]. rewrite IH, group_step_paths, <- app_assoc. f_equal.
    unfold keys_of_service. cbn [dict_keys map List.filter].
    now destruct (String.eqb (service_of api (fst item)) service).
Qed.

Lemma fold_group_nonempty api items groups service :
  (forall endpoints, dict_get groups service = Some endpoints -> endpoints <> []) ->
  forall endpoints,
    dict_get (fold_left (group_step api) items groups) service = Some endpoints ->
    endpoints <> [].
Proof.
  revert groups. induction items as [|item items IH]; intros groups Hg.
  - exact Hg.
  - cbn [fold_left]. apply IH. now apply group_step_nonempty.
Qed.

(** X1: a service group holds exactly the catalog entries whose service key
    it is, in catalog order: the paths of its records are the catalog keys
    filed under the service, so that every entry is in one group and in no
    other; and no group is empty. *)
Theorem groups_partition api service :
  match dict_get (_get_endpoint_groups api) service with
  | Some endpoints =>
      map path endpoints = keys_of_service api api service /\ endpoints <> []
  | None => keys_of_service api api service = []
  end.
Proof.
  unfold _get_endpoint_groups.
  pose proof (fold_group_paths api api [] service) as Hp.
  pose proof (fold_group_nonempty api api [] service) as Hn.
  destruct (dict_get (fold_left (group_step api) api []) service) as [endpoints|].
  - split; [exact Hp|]. apply Hn; [discriminate|reflexivity].
  - symmetry. exact Hp.
Qed.

Lemma split_from_free c cur s :
  all_chars (differs c) cur = true ->
  Forall (fun seg => all_chars (differs c) seg = true) (split_from c cur s).
Proof.
  assert (Hrev : forall s acc,
             all_chars (differs c) s = true -> all_chars (differs c) acc = true ->
             all_chars (differs c) (rev_string acc s) = true).
  { induction s0 as [|d s0 IH]; intros acc Hs Hacc; [exact Hacc|].
    cbn [all_chars] in Hs. apply andb_prop in Hs as [Hd Hs].
    cbn [rev_string]. apply IH; [exact Hs|]. cbn [all_chars]. now rewrite Hd. }
  revert cur. induction s as [|d s IH]; intros cur Hcur; cbn [split_from].
  - constructor; [|constructor]. now apply Hrev.
  - destruct (Ascii.eqb d c) eqn:E.
    + constructor; [now apply Hrev|]. now apply IH.
    + apply IH. cbn [all_chars]. unfold differs at 1. now rewrite E.
Qed.

Lemma split_free c s :
  Forall (fun seg => all_chars (differs c) seg = true) (split c s).
Proof. now apply split_from_free. Qed.

Lemma lower_char_slash c : differs "/" c = true -> differs "/" (lower_char c) = true.
Proof.
  destruct c as [[] [] [] [] [] [] [] []]; intros H; try reflexivity; discriminate H.
Qed.

Lemma lower_no_slash s :
  all_chars (differs "/") s = true -> all_chars (differs "/") (lower s) = true.
Proof.
  induction s as [|c s IH]; intros H; [reflexivity|].
  cbn [all_chars] in H. apply andb_prop in H as [Hc Hs].
  cbn [lower map_chars all_chars]. rewrite (lower_char_slash c Hc). now apply IH.
Qed.

Lemma service_no_slash api endpoint :
  all_chars (differs "/") (fst (_get_service_and_title api endpoint)) = true.
Proof.
  unfold _get_service_and_title. cbn [fst].
  pose proof (split_free "/" (lstrip "/" (last_seg (split1 " " endpoint)))) as Hf.
  destruct (split "/" _) as [|p0 parts]; [reflexivity|].
  destruct (String.eqb _ "users_profile"); [reflexivity|].
  repeat (apply all_chars_replace_char; [reflexivity|]).
  apply lower_no_slash. now inversion Hf.
Qed.

Lemma service_of_key_char api endpoint :
  all_chars key_char (service_of api endpoint) = true.
Proof.
  unfold key_char, service_of. rewrite !all_chars_and, !andb_true_iff.
  split; [split|].
  - apply _clean_name_plain.
  - apply _clean_name_not_upper, service_not_upper.
  - unfold _clean_name.
    repeat (apply all_chars_replace_char; [reflexivity|]).
    apply service_no_slash.
Qed.

Lemma group_keys_from_catalog api items groups :
  Forall (fun k => all_chars key_char k = true) (dict_keys groups) ->
  Forall (fun k => all_chars key_char k = true)
    (dict_keys (fold_left (group_step api) items groups)).
Proof.
  revert groups. induction items as [|item items IH]; intros groups Hg; [exact Hg|].
  cbn [fold_left]. apply IH. rewrite group_step_keys. cbv zeta.
  destruct (dict_mem groups _); [exact Hg|].
  apply List.Forall_app. split; [exact Hg|].
  constructor; [|constructor]. apply service_of_key_char.
Qed.

(** X2: the service keys of the groups are pairwise different, and a key
    holds no brace, dash, dot, space, slash or upper-case letter, whatever
    the catalog keys look like. *)
Theorem group_keys_clean api :
  List.NoDup (dict_keys (_get_endpoint_groups api)) /\
  Forall (fun service => all_chars key_char service = true)
    (dict_keys (_get_endpoint_groups api)).
Proof.
  split; [apply groups_ok|].
  unfold _get_endpoint_groups. apply group_keys_from_catalog. constructor.
Qed.

End GroupExtras.

(** ** What the identifier mapping can hold *)

Module PredictExtras.
Import PyStr Vocabulary PyStrFacts DictFacts GroupFacts TestsContainer IdSpec
  PredictFacts.

Section WithSetOrder.
Variable list_of_set : list string -> list string.

Lemma last_source_from_inv api service endpoints acc m :
  last_source_from list_of_set api service acc endpoints = Some m ->
  acc = Some m \/
  exists e f,
    In e endpoints /\ qualifies list_of_set api service e f /\
    m = mapping_from service e f.
Proof.
  unfold last_source_from. revert acc.
  induction endpoints as [|e endpoints IH]; intros acc H; [now left|].
  cbn [fold_left] in H. apply IH in H as [H|(e' & f & Hin & Hq & Hm)].
  - destruct (source_field list_of_set api service e) as [f|] eqn:E; [|now left].
    right. exists e, f. injection H as <-.
    split; [now left|]. split; [|reflexivity].
    now apply source_field_qualifies.
  - right. exists e', f. split; [now right|]. now split.
Qed.

Lemma used_in_spec_inv f endpoints p :
  In p (used_in_spec f endpoints) ->
  exists g prm,
    In g endpoints /\ is_dependent g = true /\ p = path g /\
    In prm (parameters g) /\ param_matches f prm = true.
Proof.
  unfold used_in_spec. rewrite in_flat_map. intros (g & Hg & Hp).
  destruct (is_dependent g) eqn:Hdep; [|contradiction].
  apply in_map_iff in Hp as (prm & <- & Hprm).
  apply filter_In in Hprm as [Hprm Hmatch].
  exists g, prm. repeat split; assumption.
Qed.

(** X3: a mapping of [_predict_id_usage] stays within its service. The
    service is a group; the source is the path of a POST of that group with a
    response keyed 200 or 201, for which the identifier search gives the
    recorded, non-empty field; and every entry of [used_in] is the path of a
    GET, PUT, DELETE or PATCH of the same group that has a parameter of type
    path. *)
Theorem mapping_within_service api M service m :
  _predict_id_usage list_of_set api = Ok M ->
  dict_get M service = Some m ->
  exists endpoints e,
    dict_get (_get_endpoint_groups api) service = Some endpoints /\
    In e endpoints /\
    source m = path e /\
    qualifies list_of_set api service e (id_field m) /\
    forall p,
      In p (used_in m) ->
      exists g prm,
        In g endpoints /\ p = path g /\
        mem_str (method g) ["GET"; "PUT"; "DELETE"; "PATCH"] = true /\
        In prm (parameters g) /\ p_type prm = "path".
Proof.
  intros HM Hm. destruct (predict_spec list_of_set api) as (M' & HM' & Hspec).
  rewrite HM in HM'. injection HM' as <-.
  rewrite Hspec in Hm. unfold predicted in Hm.
  destruct (dict_get (_get_endpoint_groups api) service) as [endpoints|];
    [|discriminate].
  destruct (last_source_from list_of_set api service None endpoints) as [m0|] eqn:E;
    [|discriminate].
  cbn [extended] in Hm. injection Hm as <-.
  apply last_source_from_inv in E as [E|(e & f & Hin & Hq & ->)]; [discriminate|].
  exists endpoints, e. split; [reflexivity|]. split; [exact Hin|].
  split; [reflexivity|]. split; [exact Hq|].
  intros p Hp. cbn in Hp.
  apply used_in_spec_inv in Hp as (g & prm & Hg & Hdep & -> & Hprm & Hmatch).
  exists g, prm. split; [exact Hg|]. split; [reflexivity|].
  split; [exact Hdep|]. split; [exact Hprm|].
  unfold param_matches in Hmatch. apply andb_prop in Hmatch as [Ht _].
  now apply String.eqb_eq.
Qed.

Lemma last_source_from_none api service endpoints :
  (forall e, In e endpoints ->
             source_field list_of_set api service e = None) ->
  last_source_from list_of_set api service None endpoints = None.
Proof.
  unfold last_source_from. induction endpoints as [|e endpoints IH]; intros H;
    [reflexivity|].
  cbn [fold_left]. rewrite H by now left. apply IH.
  intros e' He'. apply H. now right.
Qed.

(** X4: a service gets no mapping when none of its POST operations has a
    response keyed 200 or 201; a name that is no service key has none
    either. *)
Theorem no_source_no_mapping api M service :
  _predict_id_usage list_of_set api = Ok M ->
  (forall endpoints e,
      dict_get (_get_endpoint_groups api) service = Some endpoints ->
      In e endpoints -> method e = "POST" ->
      dict_mem (responses e) "200" = false /\
      dict_mem (responses e) "201" = false) ->
  dict_get M service = None.
Proof.
  intros HM Hno. destruct (predict_spec list_of_set api) as (M' & HM' & Hspec).
  rewrite HM in HM'. injection HM' as <-.
  rewrite Hspec. unfold predicted.
  destruct (dict_get (_get_endpoint_groups api) service) as [endpoints|];
    [|reflexivity].
  rewrite last_source_from_none; [reflexivity|].
  intros e He. unfold source_field, has_success_code.
  destruct (String.eqb (method e) "POST") eqn:Em; [|reflexivity].
  apply String.eqb_eq in Em.
  destruct (Hno endpoints e eq_refl He Em) as [-> ->]. reflexivity.
Qed.

(** X5: outside the answers that are a bare string, the identifier field
    that [_find_resource_id_field] returns is the name of a property of the
    success schema, whichever of its three searches found it. *)
Theorem id_field_is_property api service responses success schema field :
  _find_resource_id_field list_of_set api service responses = Ok (Some field) ->
  success_response responses = Some success ->
  r_schema success = Some schema ->
  opt_str_eqb (s_type schema) "string" = false ->
  dict_mem (properties_or_empty schema) field = true.
Proof.
  unfold _find_resource_id_field. intros H Hs Hr Hty.
  destruct (_get_path_parameters list_of_set api service) as [path_params|];
    [|discriminate].
  cbn [bind] in H. rewrite Hs, Hr, Hty in H.
  rewrite andb_false_r in H. cbn [andb] in H.
  destruct (negb (schema_truthy schema)); [discriminate|].
  destruct (opt_str_eqb (s_type schema) "object" && properties_truthy schema);
    [|discriminate].
  cbv zeta in H.
  destruct (List.find (dict_mem (properties_or_empty schema)) path_params)
    as [param|] eqn:E1.
  { injection H as <-. now apply find_some in E1. }
  destruct (List.find (dict_mem (properties_or_empty schema))
              (map snake_case_of path_params)) as [snake|] eqn:E2.
  { injection H as <-. now apply find_some in E2. }
  injection H as H. apply find_some in H as [Hin _].
  now apply dict_mem_keys.
Qed.

End WithSetOrder.

End PredictExtras.

(** ** How the test classes use the mapping *)

Module WiringFacts.
Import PyStr Vocabulary PyStrFacts DictFacts GroupFacts TestsContainer IdSpec
  PredictFacts TestSpec SortFacts TestContentFacts WiringSpec.

Lemma add_url_of_method M service title e :
  existsb is_add_url_line (test_method_lines M service title e) =
  has_success e && is_some (dependency_of M service e) /\
  existsb is_add_url_argument (test_method_lines M service title e) =
  has_success e && is_some (dependency_of M service e).
Proof.
  unfold test_method_lines, has_success, is_add_url_line, is_add_url_argument.
  destruct (success_response (responses e)) as [r|]; [|split; reflexivity].
  cbv zeta. fold (dependency_of M service e).
  rewrite !existsb_app. cbn [existsb is_some andb].
  decide_prefixes.
  destruct (dependency_of M service e) as [d|]; cbn [is_some];
    split_ifs; cbn [existsb orb]; decide_prefixes; split; reflexivity.
Qed.

Lemma decorator_of_method M service title e d :
  has_success e = true -> dependency_of M service e = Some d ->
  In (decorator_with_dependency service e d) (test_method_lines M service title e).
Proof.
  unfold test_method_lines, has_success, decorator_with_dependency, test_name_of.
  destruct (success_response (responses e)) as [r|]; [|discriminate].
  intros _ Hd. cbv zeta. fold (dependency_of M service e). rewrite Hd.
  left. reflexivity.
Qed.

Lemma assert_lines_of_method M service title e :
  List.filter is_assert_line (test_method_lines M service title e) =
  match success_response (responses e) with
  | Some r =>
      [ if status_is (status_code r) 204
        then "        assert response == ''"
        else "        assert response is not None" ]
  | None => []
  end.
Proof.
  unfold test_method_lines, is_assert_line.
  destruct (success_response (responses e)) as [r|]; [|reflexivity].
  cbv zeta. rewrite !List.filter_app. cbn [List.filter].
  decide_prefixes.
  destruct (status_code r) as [n| |]; cbn [status_is andb].
  - destruct (Z.eqb n 201) eqn:E1.
    + apply Z.eqb_eq in E1. subst n. cbn [Z.eqb Pos.eqb andb].
      split_ifs; cbn [List.filter app]; decide_prefixes; reflexivity.
    + cbn [andb]. split_ifs; cbn [List.filter app]; decide_prefixes; reflexivity.
  - split_ifs; cbn [List.filter app]; decide_prefixes; reflexivity.
  - split_ifs; cbn [List.filter app]; decide_prefixes; reflexivity.
Qed.

Lemma wiring_of_method M service title e :
  dict_mem M service = false ->
  List.filter wiring_line (test_method_lines M service title e) = [].
Proof.
  intros HM. unfold test_method_lines, wiring_line, writes_resource_id,
    is_add_url_line, is_add_url_argument.
  destruct (success_response (responses e)) as [r|]; [|reflexivity].
  cbv zeta. rewrite HM. unfold dict_mem in HM.
  destruct (dict_get M service); [discriminate|]. rewrite andb_false_r.
  cbn [is_some]. rewrite !List.filter_app. cbn [List.filter].
  decide_prefixes. cbn [orb].
  split_ifs; cbn [List.filter app]; decide_prefixes; reflexivity.
Qed.

Lemma wiring_of_header M service title :
  dict_mem M service = false ->
  List.filter wiring_line (class_header_lines M service title) = [].
Proof.
  intros HM. unfold class_header_lines, wiring_line, writes_resource_id,
    is_add_url_line, is_add_url_argument.
  rewrite HM. rewrite !List.filter_app. cbn [List.filter]. unfold DQ.
  decide_prefixes. reflexivity.
Qed.

Section WithSetOrder.
Variable list_of_set : list string -> list string.

Lemma predicted_source_test api M service m :
  _predict_id_usage list_of_set api = Ok M ->
  dict_get M service = Some m ->
  exists endpoints e,
    dict_get (_get_endpoint_groups api) service = Some endpoints /\
    In e endpoints /\
    qualifies list_of_set api service e (id_field m) /\
    source m = path e /\
    source_test_name m =
    "test_" +:+ lower (method e) +:+ "_" +:+ service +:+ "_"
    +:+ test_name_suffix_of service (endpoint_name e).
Proof.
  intros HM Hm. destruct (predict_spec list_of_set api) as (M' & HM' & Hspec).
  rewrite HM in HM'. injection HM' as <-.
  rewrite Hspec in Hm. unfold predicted in Hm.
  destruct (dict_get (_get_endpoint_groups api) service) as [endpoints|];
    [|discriminate].
  destruct (last_source_from list_of_set api service None endpoints) as [m0|] eqn:E;
    [|discriminate].
  cbn [extended] in Hm. injection Hm as <-.
  apply (PredictExtras.last_source_from_inv list_of_set) in E
    as [E|(e & f & Hin & Hq & ->)]; [discriminate|].
  exists endpoints, e. repeat split; try assumption; apply Hq.
Qed.

(** X7: with the mappings of [_predict_id_usage], the test of an endpoint
    takes the captured identifier into its URL, by the line that sets
    [add_url] and by the argument [add_url1], exactly when the mapping of the
    service lists the path of the endpoint in [used_in]; its decorator then
    names the source test of the mapping as its dependency. *)
Theorem url_injected_iff_used_in api M service title e :
  _predict_id_usage list_of_set api = Ok M ->
  has_success e = true ->
  let lines := test_method_lines M service title e in
  (existsb is_add_url_line lines = true <->
   exists m, dict_get M service = Some m /\ In (path e) (used_in m)) /\
  (existsb is_add_url_argument lines = true <->
   exists m, dict_get M service = Some m /\ In (path e) (used_in m)) /\
  (forall m,
      dict_get M service = Some m -> In (path e) (used_in m) ->
      In (decorator_with_dependency service e (source_test_name m)) lines).
Proof.
  intros HM He. cbv zeta.
  assert (Hdep : forall m,
             dict_get M service = Some m -> In (path e) (used_in m) ->
             dependency_of M service e = Some (source_test_name m)).
  { intros m Hm Hin. unfold dependency_of. rewrite Hm.
    rewrite (proj2 (EndpointFacts.mem_str_In _ _) Hin).
    destruct (predicted_source_test api M service m HM Hm)
      as (eps & e0 & _ & _ & _ & _ & ->).
    reflexivity. }
  assert (Hiff : has_success e && is_some (dependency_of M service e) = true <->
                 exists m, dict_get M service = Some m /\ In (path e) (used_in m)).
  { rewrite He. cbn [andb]. split.
    - unfold dependency_of.
      destruct (dict_get M service) as [m|]; [|discriminate].
      destruct (mem_str (path e) (used_in m)) eqn:Hin; [|discriminate].
      intros _. exists m. split; [reflexivity|]. now apply EndpointFacts.mem_str_In.
    - intros (m & Hm & Hin). now rewrite (Hdep m Hm Hin). }
  destruct (add_url_of_method M service title e) as [H1 H2].
  split; [now rewrite H1|]. split; [now rewrite H2|].
  intros m Hm Hin. apply decorator_of_method; [exact He|now apply Hdep].
Qed.

End WithSetOrder.

(** X8: every emitted test method has exactly one assertion on the response:
    that it is the empty string when the success status is the integer 204,
    and that it is not [None] for every other status. *)
Theorem one_assertion_per_method M service title e success :
  success_response (responses e) = Some success ->
  List.filter is_assert_line (test_method_lines M service title e) =
  [ if status_is (status_code success) 204
    then "        assert response == ''"
    else "        assert response is not None" ].
Proof. intros H. now rewrite assert_lines_of_method, H. Qed.

(** X9: the class of a service without a mapping has no trace of the shared
    identifier: no declaration of [resource_id], no assignment to it, no
    [add_url] line and no [add_url1] argument. *)
Theorem unmapped_class_has_no_wiring M service endpoints :
  dict_mem M service = false ->
  List.filter wiring_line (test_content_lines M service endpoints) = [].
Proof.
  intros HM. unfold test_content_lines.
  rewrite List.filter_app, filter_flat_map, wiring_of_header by exact HM.
  rewrite (flat_map_ext _ (fun _ => [])), flat_map_nil; [reflexivity|].
  intros e. now apply wiring_of_method.
Qed.

End WiringFacts.

(** ** The test files and the tests they hold *)

Module TestFileFacts.
Import PyStr Vocabulary PyStrFacts DictFacts GroupFacts TestsContainer IdSpec
  PredictFacts TestSpec SortFacts TestContentFacts SegmentFacts GroupSpec
  WiringSpec.

Lemma split_from_nonempty sep cur s : split_from sep cur s <> [].
Proof.
  revert cur. induction s as [|c s IH]; intros cur; cbn [split_from];
    [discriminate|].
  destruct (Ascii.eqb c sep); [discriminate|apply IH].
Qed.

Lemma last_cons_nonempty {A : Type} (x : A) l d :
  l <> [] -> List.last (x :: l) d = List.last l d.
Proof. destruct l; [contradiction|reflexivity]. Qed.

(** What follows the last slash is the last segment. *)
Lemma last_seg_after_slash cur x seg :
  all_chars (differs "/") seg = true ->
  last_seg (split_from "/" cur (x +:+ "/" +:+ seg)) = seg.
Proof.
  intros Hseg. unfold last_seg. revert cur.
  induction x as [|c x IH]; intros cur.
  - change (EmptyString +:+ "/" +:+ seg) with (String "/" seg).
    cbn [split_from]. rewrite Ascii.eqb_refl.
    rewrite last_cons_nonempty by apply split_from_nonempty.
    rewrite <- (append_empty_r seg) at 1.
    rewrite split_from_segment by exact Hseg. cbn [split_from List.last].
    apply rev_string_involutive.
  - change (String c x +:+ "/" +:+ seg) with (String c (x +:+ "/" +:+ seg)).
    cbn [split_from]. destruct (Ascii.eqb c "/").
    + rewrite last_cons_nonempty by apply split_from_nonempty. apply IH.
    + apply IH.
Qed.

Lemma test_file_name_service title1 service1 title2 service2 :
  all_chars (differs "/") service1 = true ->
  all_chars (differs "/") service2 = true ->
  test_file_name title1 service1 = test_file_name title2 service2 ->
  service1 = service2.
Proof.
  intros H1 H2 E. unfold test_file_name in E.
  assert (Hshape : forall title service,
             title +:+ "/" +:+ service +:+ "/test_" +:+ service +:+ "_default.py"
             = (title +:+ "/" +:+ service) +:+ "/"
               +:+ ("test_" +:+ service +:+ "_default.py")).
  { intros title service. rewrite !append_assoc_str. reflexivity. }
  rewrite !Hshape in E.
  apply (f_equal (fun s => last_seg (split_from "/" EmptyString s))) in E.
  rewrite !last_seg_after_slash in E
    by (rewrite !all_chars_append, ?H1, ?H2; reflexivity).
  apply append_cancel_l in E.
  now apply append_inj_same_length in E as [E _].
Qed.

Lemma NoDup_map_keyed {A B : Type} (key : A -> string) (h : A -> B) l :
  List.NoDup (map key l) ->
  (forall x y, In x l -> In y l -> h x = h y -> key x = key y) ->
  List.NoDup (map h l).
Proof.
  induction l as [|x l IH]; intros Hnd Hinj; cbn [map]; [constructor|].
  cbn [map] in Hnd. inversion Hnd as [|? ? Hx Hl]; subst.
  constructor.
  - intros Hin. apply in_map_iff in Hin as (y & Hy & Hyl).
    apply Hx. apply in_map_iff. exists y. split; [|exact Hyl].
    symmetry. apply Hinj; [now left|now right|now symmetry].
  - apply IH; [exact Hl|]. intros a b Ha Hb. apply Hinj; now right.
Qed.

Lemma find_by_name (files : list TestFile) f :
  List.NoDup (map name files) -> In f files ->
  get_file_by_name files (name f) = Some f.
Proof.
  unfold get_file_by_name.
  induction files as [|g files IH]; intros Hnd Hin; [contradiction|].
  cbn [map] in Hnd. inversion Hnd as [|? ? Hg Hfiles]; subst.
  cbn [List.find]. destruct Hin as [->|Hin].
  - now rewrite String.eqb_refl.
  - destruct (String.eqb (name g) (name f)) eqn:E.
    + apply String.eqb_eq in E. exfalso. apply Hg. rewrite E.
      now apply in_map.
    + now apply IH.
Qed.

Lemma group_key_no_slash api service :
  In service (dict_keys (_get_endpoint_groups api)) ->
  all_chars (differs "/") service = true.
Proof.
  intros Hin.
  pose proof (GroupExtras.group_keys_from_catalog api api [] (List.Forall_nil _)) as Hk.
  rewrite List.Forall_forall in Hk. specialize (Hk service Hin).
  unfold key_char in Hk. rewrite !CleanName.all_chars_and, !andb_true_iff in Hk.
  apply Hk.
Qed.

Section WithSetOrder.
Variable list_of_set : list string -> list string.

(** X10: when [TestsContainer] is built without an exception, it holds one
    file for every service group, named [title/service/
    test_service_default.py]; no two files have the same name, so that
    [get_file_by_name] finds every file again by its name. *)
Theorem test_files_by_service api files :
  init_files list_of_set (Loaded api) = Ok files ->
  map name files =
    map (fun group => test_file_name (group_title (snd group)) (fst group))
        (_get_endpoint_groups api) /\
  List.NoDup (map name files) /\
  forall file, In file files -> get_file_by_name files (name file) = Some file.
Proof.
  unfold init_files. cbn [_load_api_reference bind].
  destruct (_predict_id_usage list_of_set api) as [M|e]; [|discriminate].
  cbn [bind]. intros [= <-].
  assert (Hnames :
            map name (_generate_test_files (_get_endpoint_groups api) M) =
            map (fun group => test_file_name (group_title (snd group)) (fst group))
                (_get_endpoint_groups api)).
  { unfold _generate_test_files. rewrite map_map. apply map_ext.
    now intros [service endpoints]. }
  assert (Hnd : List.NoDup
            (map name (_generate_test_files (_get_endpoint_groups api) M))).
  { rewrite Hnames. apply (NoDup_map_keyed fst); [apply groups_keys_nodup|].
    intros g1 g2 H1 H2. apply test_file_name_service;
      apply (group_key_no_slash api); now apply in_map. }
  split; [exact Hnames|split; [exact Hnd|]].
  intros file Hin. now apply find_by_name.
Qed.

Lemma find_field_has_success api service resp f :
  _find_resource_id_field list_of_set api service resp = Ok (Some f) ->
  is_some (success_response resp) = true.
Proof.
  unfold _find_resource_id_field.
  destruct (_get_path_parameters list_of_set api service); [|discriminate].
  cbn [bind]. now destruct (success_response resp).
Qed.

(** X11: the test that the dependants of a service are made to depend on is
    a test of the class of the service, under the recorded name, when the
    source POST has no path parameter or is the root endpoint of the
    service: the class then has the method named [source_test_name]. *)
Theorem source_test_is_emitted api M service m :
  _predict_id_usage list_of_set api = Ok M ->
  dict_get M service = Some m ->
  exists endpoints e,
    dict_get (_get_endpoint_groups api) service = Some endpoints /\
    In e endpoints /\ source m = path e /\ method e = "POST" /\
    (path_parameters e = [] \/ endpoint_name e = service ->
     In ("    async def " +:+ source_test_name m
         +:+ "(self, domain, api_client, models):")
        (test_content_lines M service endpoints)).
Proof.
  intros HM Hm.
  destruct (WiringFacts.predicted_source_test list_of_set api M service m HM Hm)
    as (endpoints & e & Hg & Hin & Hq & Hsrc & Hname).
  exists endpoints, e. split; [exact Hg|]. split; [exact Hin|].
  split; [exact Hsrc|]. split; [apply Hq|].
  intros Hroot. unfold test_content_lines. apply in_or_app. right.
  apply in_flat_map. exists e. split.
  { apply (Permutation_in _ (Permutation_sym (sorted_perm endpoints))), Hin. }
  destruct Hq as (_ & _ & Hfind & _). apply find_field_has_success in Hfind.
  unfold test_method_lines.
  destruct (success_response (responses e)) as [r|]; [|discriminate].
  cbv zeta. right. left. rewrite Hname. do 6 f_equal.
  destruct Hroot as [-> | ->]; [reflexivity|].
  now rewrite String.eqb_refl, andb_false_r.
Qed.

End WithSetOrder.

End TestFileFacts.

(** ** The path declarations *)

Module TemplateFacts.
Import PyStr Vocabulary PyStrFacts DictFacts SegmentFacts TestContentFacts
  PathSpec EndpointsContainer EndpointFacts TemplateSpec.

Lemma sanitize_name_char s : all_chars name_char (sanitize s) = true.
Proof.
  unfold name_char, sanitize. rewrite !CleanName.all_chars_and, !andb_true_iff.
  repeat split;
    repeat first
      [ apply replace_char_removes; reflexivity
      | apply all_chars_replace_char; [reflexivity|] ].
Qed.

Lemma or_root_name s :
  all_chars name_char s = true ->
  or_root s <> EmptyString /\ all_chars name_char (or_root s) = true.
Proof.
  intros H. unfold or_root. destruct s as [|c s]; cbn [str_truthy].
  - split; [discriminate|reflexivity].
  - split; [discriminate|exact H].
Qed.

(** What [classify_path] gives, with the three components apart. *)
Lemma classify_path_some path :
  startswith path "/" = true ->
  exists service_name endpoint_source,
    classify_path path =
    Some (service_name, or_root (sanitize endpoint_source),
          if Nat.ltb (List.length (split "/" (join "/" (static_parts path))))
                     (List.length (path_parts path))
          then "/" +:+ join "/" (static_parts path) +:+ "/"
          else "/" +:+ join "/" (static_parts path)).
Proof.
  intros Hs. unfold classify_path, static_parts, path_parts. rewrite Hs.
  cbn [negb].
  pose proof (TestFileFacts.split_from_nonempty "/" EmptyString (strip "/" path)) as Hne.
  fold (split "/" (strip "/" path)) in Hne.
  destruct (split "/" (strip "/" path)) as [|p0 rest] eqn:E; [contradiction|].
  cbn [List.length Nat.ltb Nat.leb].
  destruct rest as [|p1 rest0].
  - exists (capitalize p0), "root". reflexivity.
  - destruct (String.eqb p0 "users" && String.eqb p1 "profile").
    + exists "UsersProfile",
        (match rest0 with [] => "root" | _ => join "_" rest0 end).
      reflexivity.
    + exists (capitalize p0), (join "_" (p1 :: rest0)). reflexivity.
Qed.

Lemma classify_path_starts path classified :
  classify_path path = Some classified -> startswith path "/" = true.
Proof.
  unfold classify_path. destruct (startswith path "/"); [reflexivity|].
  discriminate.
Qed.

(** X12: [classify_path] skips a path exactly when it does not start with a
    slash. For every other path the endpoint name is not empty and holds no
    brace, dash or dot, and the URL template starts with a slash. *)
Theorem classify_path_total path :
  match classify_path path with
  | None => startswith path "/" = false
  | Some (service_name, endpoint_name, clean_path) =>
      startswith path "/" = true /\
      endpoint_name <> EmptyString /\
      all_chars name_char endpoint_name = true /\
      startswith clean_path "/" = true
  end.
Proof.
  destruct (startswith path "/") eqn:Hs.
  - destruct (classify_path_some path Hs) as (sn & src & ->).
    split; [reflexivity|].
    destruct (or_root_name _ (sanitize_name_char src)) as [Hne Hch].
    split; [exact Hne|]. split; [exact Hch|].
    unfold startswith. destruct (Nat.ltb _ _); apply prefix_append.
  - unfold classify_path. now rewrite Hs.
Qed.

Lemma filter_shorter {A : Type} (g : A -> bool) l :
  (List.length (List.filter (fun x => negb (g x)) l) <= List.length l)%nat /\
  Nat.ltb (List.length (List.filter (fun x => negb (g x)) l)) (List.length l)
  = existsb g l.
Proof.
  induction l as [|x l [IHle IH]]; [split; [cbn; lia|reflexivity]|].
  cbn [List.filter existsb List.length]. destruct (g x); cbn [negb orb List.length].
  - split; [lia|]. apply Nat.ltb_lt. lia.
  - split; [lia|]. rewrite <- IH.
    destruct (Nat.ltb_spec (List.length (List.filter (fun x => negb (g x)) l))
                (List.length l));
      [apply Nat.ltb_lt|apply Nat.ltb_ge]; lia.
Qed.

(** X13: the URL template of a path is its static segments joined by
    slashes behind a leading slash; it ends with one more slash exactly when
    the path has a dynamic segment. A path with dynamic segments only gives
    [/] when it has one segment and [//] when it has more. *)
Theorem trailing_slash_rule path service_name endpoint_name clean_path :
  classify_path path = Some (service_name, endpoint_name, clean_path) ->
  (static_parts path <> [] ->
   clean_path =
   "/" +:+ join "/" (static_parts path)
   +:+ (if existsb is_dynamic (path_parts path) then "/" else EmptyString)) /\
  (static_parts path = [] ->
   clean_path =
   if Nat.leb 2 (List.length (path_parts path)) then "//" else "/").
Proof.
  intros H. pose proof (classify_path_starts path _ H) as Hs.
  destruct (classify_path_some path Hs) as (sn & src & H').
  rewrite H in H'. injection H' as _ _ ->. split.
  - intros Hne. rewrite split_join.
    + unfold static_parts at 1. rewrite (proj2 (filter_shorter is_dynamic _)).
      destruct (existsb is_dynamic (path_parts path)); [reflexivity|].
      now rewrite append_empty_r.
    + exact Hne.
    + unfold static_parts. apply List.Forall_forall. intros seg Hin.
      apply filter_In in Hin as [Hin _].
      pose proof (GroupExtras.split_free "/" (strip "/" path)) as Hf.
      rewrite List.Forall_forall in Hf. now apply Hf.
  - intros ->. cbn [join String.concat split split_from rev_string List.length].
    pose proof (TestFileFacts.split_from_nonempty "/" EmptyString (strip "/" path)) as Hne.
    unfold path_parts, split.
    destruct (split_from "/" EmptyString (strip "/" path)) as [|p0 [|p1 rest]];
      [contradiction|reflexivity|reflexivity].
Qed.

Lemma services_step_inv services p sn en :
  declares (services_step services p) sn en ->
  declares services sn en \/ exists cp, classify_path p = Some (sn, en, cp).
Proof.
  unfold services_step, declares.
  destruct (classify_path p) as [[[sn' en'] cp]|]; [|now left].
  intros (eps & Hget & Hmem). rewrite dict_get_set in Hget.
  destruct (String.eqb sn' sn) eqn:E.
  - apply String.eqb_eq in E. subst sn'. injection Hget as <-.
    rewrite dict_mem_set in Hmem. apply orb_prop in Hmem as [Hmem|Hmem].
    + apply String.eqb_eq in Hmem. subst en'. right. now exists cp.
    + left. destruct (dict_mem services sn) eqn:Es.
      * destruct (dict_get services sn) as [eps|] eqn:Eg.
        -- now exists eps.
        -- unfold dict_mem in Es. now rewrite Eg in Es.
      * rewrite dict_get_set_same in Hmem. discriminate Hmem.
  - left. exists eps. split; [|exact Hmem].
    destruct (dict_mem services sn'); [exact Hget|].
    now rewrite dict_get_set, E in Hget.
Qed.

Lemma fold_services_inv paths services sn en :
  declares (fold_left services_step paths services) sn en ->
  declares services sn en \/
  exists p cp, In p paths /\ classify_path p = Some (sn, en, cp).
Proof.
  revert services. induction paths as [|q paths IH]; intros services H;
    [now left|].
  cbn [fold_left] in H. apply IH in H as [H|(p & cp & Hin & Hc)].
  - apply services_step_inv in H as [H|[cp Hc]]; [now left|].
    right. exists q, cp. split; [now left|exact Hc].
  - right. exists p, cp. split; [now right|exact Hc].
Qed.

Lemma collect_paths_inv api p :
  In p (collect_paths api) ->
  exists key d, In (key, d) api /\ d_path d = Some p.
Proof.
  unfold collect_paths.
  set (step := fun (unique_paths : list string) (item : string * endpoint_data) =>
                 let path := match d_path (snd item) with
                             | Some p => p
                             | None => EmptyString
                             end in
                 if str_truthy path && negb (mem_str path unique_paths)
                 then unique_paths ++ [path] else unique_paths).
  assert (H : forall l acc,
             In p (fold_left step l acc) ->
             In p acc \/ exists key d, In (key, d) l /\ d_path d = Some p).
  { induction l as [|[key d] l IH]; intros acc Hin; [now left|].
    cbn [fold_left] in Hin. apply IH in Hin as [Hin|(key' & d' & Hin & Hd)].
    - unfold step in Hin. cbn [snd] in Hin.
      destruct (d_path d) as [q|] eqn:Ed.
      + destruct (str_truthy q && negb (mem_str q acc)); [|now left].
        apply in_app_or in Hin as [Hin|[<-|[]]]; [now left|].
        right. exists key, d. split; [now left|exact Ed].
      + cbn [str_truthy andb] in Hin. now left.
    - right. exists key', d'. split; [now right|exact Hd]. }
  intros Hin. apply H in Hin as [[]|Hin]. exact Hin.
Qed.

Lemma collect_paths_nodup api : List.NoDup (collect_paths api).
Proof.
  unfold collect_paths.
  set (step := fun (unique_paths : list string) (item : string * endpoint_data) =>
                 let path := match d_path (snd item) with
                             | Some p => p
                             | None => EmptyString
                             end in
                 if str_truthy path && negb (mem_str path unique_paths)
                 then unique_paths ++ [path] else unique_paths).
  assert (H : forall l acc, List.NoDup acc -> List.NoDup (fold_left step l acc)).
  { induction l as [|item l IH]; intros acc Hacc; [exact Hacc|].
    cbn [fold_left]. apply IH. unfold step.
    destruct (str_truthy _ && negb (mem_str _ acc)) eqn:E; [|exact Hacc].
    apply andb_prop in E as [_ E]. apply negb_true_iff in E.
    apply List.NoDup_app; [exact Hacc|repeat constructor; simpl; tauto|].
    intros x Hx [<-|[]]. apply mem_str_In in Hx. congruence. }
  apply H. constructor.
Qed.

Lemma services_step_nodup services p :
  List.NoDup (dict_keys services) ->
  List.NoDup (dict_keys (services_step services p)).
Proof.
  intros H. unfold services_step.
  destruct (classify_path p) as [[[sn en] cp]|]; [|exact H].
  apply NoDup_keys_set. destruct (dict_mem services sn); [exact H|].
  now apply NoDup_keys_set.
Qed.

Lemma service_class_lines group :
  List.filter is_service_class_line (service_lines group) =
  [service_class_line (fst group)].
Proof.
  destruct group as [service_name endpoints].
  unfold service_lines, is_service_class_line, service_class_line. cbn [fst].
  rewrite !List.filter_app. cbn [List.filter]. unfold DQ.
  decide_prefixes. cbn [app]. f_equal.
  rewrite app_nil_r.
  induction endpoints as [|[endpoint_name path] endpoints IH]; [reflexivity|].
  cbn [flat_map]. rewrite List.filter_app, IH, app_nil_r.
  unfold endpoint_lines.
  split_ifs; cbn [List.filter]; decide_prefixes; reflexivity.
Qed.

Section WithSetSemantics.
Variable list_of_set : list string -> list string.
Hypothesis list_of_set_In : forall l x, In x (list_of_set l) <-> In x l.

(** X14: [paths.py] declares an endpoint name under a class exactly when
    some catalog entry has a path that [classify_path] files under that
    class with that name: no path that starts with a slash is left out, and
    no declaration comes from anything else. *)
Theorem declared_iff_classified api service_name endpoint_name :
  declares (paths_services list_of_set api) service_name endpoint_name <->
  exists key d path clean_path,
    In (key, d) api /\ d_path d = Some path /\
    classify_path path = Some (service_name, endpoint_name, clean_path).
Proof.
  unfold paths_services. split.
  - intros H. apply fold_services_inv in H as [(eps & H & _)|(p & cp & Hin & Hc)];
      [discriminate|].
    apply list_of_set_In, collect_paths_inv in Hin as (key & d & Hin & Hd).
    now exists key, d, p, cp.
  - intros (key & d & p & cp & Hin & Hd & Hc).
    apply (fold_services_declares _ p service_name endpoint_name cp); [|exact Hc].
    apply list_of_set_In. apply (collect_paths_In api key d p Hin Hd).
    pose proof (classify_path_starts p _ Hc) as Hs.
    destruct p; [discriminate Hs|reflexivity].
Qed.

End WithSetSemantics.

Section WithSetOrder.
Variable list_of_set : list string -> list string.

(** X15: [paths.py] opens one class for every service name it found, in
    the order the names were first met, and no class twice. *)
Theorem one_class_per_service api :
  List.filter is_service_class_line (paths_content_lines list_of_set api) =
  map service_class_line (dict_keys (paths_services list_of_set api)) /\
  List.NoDup (dict_keys (paths_services list_of_set api)).
Proof.
  split.
  - unfold paths_content_lines. rewrite !List.filter_app.
    unfold is_service_class_line at 1 3. cbn [List.filter]. unfold DQ.
    decide_prefixes. cbn [app]. rewrite app_nil_r.
    generalize (paths_services list_of_set api). intros services.
    induction services as [|group services IH]; [reflexivity|].
    cbn [flat_map]. rewrite List.filter_app, IH, service_class_lines.
    reflexivity.
  - unfold paths_services.
    generalize (list_of_set (collect_paths api)). intros paths.
    assert (H : forall services,
               List.NoDup (dict_keys services) ->
               List.NoDup (dict_keys (fold_left services_step paths services))).
    { induction paths as [|p paths IH]; intros services Hs; [exact Hs|].
      cbn [fold_left]. apply IH. now apply services_step_nodup. }
    apply H. constructor.
Qed.

End WithSetOrder.

End TemplateFacts.

(** ** The validation models and files *)

Module ValidationFacts.
Import PyStr Vocabulary PyStrFacts DictFacts ValidationsContainer ModelSpec
  ModelFacts FileSpec.

(** X16: when the generator writes the model of an object schema, every
    property that is itself an object (by its type or by having properties)
    has its model [ResponseSuccessBody<Name>] in the set of generated models
    afterwards; and the text returned declares that model, once, unless it
    had been generated before the call. *)
Theorem object_properties_get_models k t f props items required nul other
    model_name field_name (gm : gset string) prop_name prop_schema :
  let s := Schema t f (Some props) items required nul other in
  let result := _generate_pydantic_model s model_name field_name (S k) gm in
  let nested_name := _generate_model_name (Some prop_name) true in
  model_name ∉ gm ->
  opt_str_eqb t "string" = false ->
  opt_str_eqb t "array" = false ->
  In (prop_name, prop_schema) props ->
  is_object_like prop_schema = true ->
  nested_name ∈ snd result /\
  (nested_name ∉ gm -> count_decl nested_name (fst result) = 1).
Proof.
  cbv zeta. intros Hname Hstr Harr Hin Hobj.
  assert (Hset : _generate_model_name (Some prop_name) true
                 ∈ snd (_generate_pydantic_model
                          (Schema t f (Some props) items required nul other)
                          model_name field_name (S k) gm)).
  { rewrite generate_unfold. case_decide; [contradiction|]. cbv zeta.
    rewrite Hstr, Harr.
    assert (Ht : schema_truthy (Schema t f (Some props) items required nul other)
                 = true).
    { unfold schema_truthy. cbn. now rewrite !orb_true_r. }
    assert (Hp : properties_truthy
                   (Schema t f (Some props) items required nul other) = true).
    { unfold properties_truthy. cbn. destruct props; [contradiction|reflexivity]. }
    rewrite Ht, Hp. cbn [negb orb andb].
    destruct (properties_loop _ _ _ props _ _ _) as [[lines' nested'] g2] eqn:El.
    cbn [snd]. eapply properties_loop_names; eassumption. }
  split; [exact Hset|]. intros Hnew.
  destruct (proj1 (generate_once k (Schema t f (Some props) items required nul other))
              model_name field_name gm) as [_ Hcount].
  rewrite Hcount. case_decide as Hd; [reflexivity|]. exfalso. apply Hd.
  now split.
Qed.

Lemma success_step_complete state item :
  file_complete state -> file_complete (success_step state item).
Proof.
  destruct state as [[content has] gm], item as [response_code response].
  intros [Herr Hflag]. unfold success_step.
  destruct (negb (startswith response_code "2")); [now split|].
  set (s := without_parameters
              (match r_schema response with
               | Some s => s
               | None => empty_schema
               end)).
  pose proof (proj1 (generate_once 3 s) (_generate_model_name None true) None gm)
    as [Hsub _].
  pose proof (generated_has_name 3 s (_generate_model_name None true) None gm)
    as Hname.
  destruct (_generate_pydantic_model s _ None 4 gm) as [c g2].
  cbn [fst snd] in Hsub, Hname.
  destruct (code_truthy c).
  - split; [set_solver|]. intros _. exact Hname.
  - split; [set_solver|]. intros Hhas. specialize (Hflag Hhas). set_solver.
Qed.

Lemma fold_success_complete responses state :
  file_complete state -> file_complete (fold_left success_step responses state).
Proof.
  revert state. induction responses as [|item responses IH]; intros state H;
    simpl; [exact H|].
  apply IH, success_step_complete, H.
Qed.

(** X17: a validation file declares the model [ResponseError] exactly once
    and the model [ResponseSuccessBody] exactly once, whatever the responses
    of the endpoint are: the models its two validators call are always
    there, the success model as an empty placeholder when no response with a
    2xx key produced it. *)
Theorem validators_have_their_models responses :
  count_decl "ResponseError" (validation_file_lines responses) = 1 /\
  count_decl "ResponseSuccessBody" (validation_file_lines responses) = 1.
Proof.
  unfold validation_file_lines.
  pose proof (proj1 (generate_once 3 error_schema) "ResponseError" None ∅)
    as Herr.
  pose proof (generated_has_name 3 error_schema "ResponseError" None ∅) as Hre.
  destruct (_generate_pydantic_model error_schema "ResponseError" None 4 ∅)
    as [error_code g1] eqn:Eerr.
  assert (Hcode : error_code = fst (_generate_pydantic_model error_schema
                                      "ResponseError" None 4 ∅))
    by now rewrite Eerr.
  vm_compute in Hcode.
  destruct Herr as [_ Herr]. cbn [fst snd] in Herr, Hre.
  match goal with
  | |- context [fold_left success_step responses ?st] =>
      assert (Hinit : file_ok st /\ file_complete st)
  end.
  { split; [split|split].
    - intros m. rewrite !count_decl_app, Herr.
      repeat (rewrite count_decl_cons;
              match goal with
              | |- context [declares_model m ?l] =>
                  replace (declares_model m l) with false
                    by (symmetry; not_a_declaration)
              end).
      rewrite count_decl_nil. repeat case_decide; try lia; set_solver.
    - intros _ Hin. specialize (Herr "ResponseSuccessBody").
      assert (H0 : count_decl "ResponseSuccessBody" error_code = 0)
        by (rewrite Hcode; vm_compute; reflexivity).
      rewrite H0 in Herr.
      case_decide; [discriminate|]. set_solver.
    - exact Hre.
    - discriminate. }
  destruct Hinit as [Hok Hcomplete].
  apply (fold_success_ok responses) in Hok.
  apply (fold_success_complete responses) in Hcomplete.
  destruct (fold_left success_step responses _) as [[content has] gm].
  destruct Hok as [Hcount Hflag]. destruct Hcomplete as [Hin_err Hin_succ].
  destruct has.
  - specialize (Hin_succ eq_refl).
    rewrite !count_decl_app, !count_decl_validators, !Hcount.
    split; case_decide; try lia; contradiction.
  - specialize (Hflag eq_refl).
    rewrite !count_decl_app, !count_decl_validators, !Hcount.
    change "class ResponseSuccessBody(BaseModelWithConfig):"
      with ("class " +:+ "ResponseSuccessBody" +:+ "(BaseModelWithConfig):").
    rewrite !count_decl_cons, !declares_base, !count_decl_nil.
    change "    pass" with (spaces 4 +:+ "pass").
    rewrite !declares_indented, !declares_blank.
    split; case_decide; try contradiction; reflexivity.
Qed.

Lemma upper_char_keeps c :
  differs "_" c = true -> differs "_" (upper_char c) = true.
Proof.
  destruct c as [[] [] [] [] [] [] [] []]; intros H; try reflexivity; discriminate H.
Qed.

Lemma lower_char_keeps c :
  differs "_" c = true -> differs "_" (lower_char c) = true.
Proof.
  destruct c as [[] [] [] [] [] [] [] []]; intros H; try reflexivity; discriminate H.
Qed.

Lemma capitalize_keeps s :
  all_chars (differs "_") s = true ->
  all_chars (differs "_") (capitalize s) = true.
Proof.
  destruct s as [|c s]; [reflexivity|]. cbn [capitalize all_chars].
  intros H. apply andb_prop in H as [Hc Hs].
  rewrite (upper_char_keeps c Hc). cbn [andb].
  induction s as [|d s IH]; [reflexivity|].
  cbn [all_chars] in Hs. apply andb_prop in Hs as [Hd Hs].
  cbn [lower map_chars all_chars]. rewrite (lower_char_keeps d Hd).
  now apply IH.
Qed.

(** X18: [_snake_to_camel] leaves no underscore in a name, so that the
    model name derived from a field name has none after the prefix. *)
Theorem snake_to_camel_no_underscore name :
  all_chars (differs "_") (_snake_to_camel name) = true.
Proof.
  unfold _snake_to_camel, join.
  pose proof (GroupExtras.split_free "_" name) as Hfree.
  induction Hfree as [|seg segs Hseg _ IH]; [reflexivity|].
  cbn [map]. destruct (map capitalize segs) as [|seg' segs'] eqn:E.
  - cbn [String.concat]. now apply capitalize_keeps.
  - cbn [String.concat]. cbn [String.concat] in IH.
    rewrite all_chars_append, capitalize_keeps by exact Hseg.
    cbn [andb]. change (EmptyString +:+ ?x) with x. exact IH.
Qed.

Lemma get_files_from api :
  forall files,
    match TestsContainer.foldM
            (fun files (item : string * endpoint_data) =>
               match d_method (snd item), d_responses (snd item) with
               | Some _, Some responses =>
                   Ok (files ++ [validation_file_lines responses])
               | None, _ => Raised (KeyError "method")
               | Some _, None => Raised (KeyError "responses")
               end)
            api files with
    | Ok files' =>
        List.length files' = List.length files + List.length api /\
        Forall has_method_and_responses api
    | Raised e =>
        (e = KeyError "method" \/ e = KeyError "responses") /\
        Exists (fun item => ~ has_method_and_responses item) api
    end.
Proof.
  induction api as [|item api IH]; intros files; cbn [TestsContainer.foldM].
  - split; [cbn; lia|constructor].
  - destruct (d_method (snd item)) as [m|] eqn:Em.
    + destruct (d_responses (snd item)) as [r|] eqn:Er.
      * cbn [bind]. specialize (IH (files ++ [validation_file_lines r])).
        destruct (TestsContainer.foldM _ api _) as [files'|e].
        -- destruct IH as [Hlen Hall]. split.
           ++ rewrite Hlen, length_app. cbn. lia.
           ++ constructor; [|exact Hall].
              split; [rewrite Em|rewrite Er]; discriminate.
        -- destruct IH as [He Hex]. split; [exact He|]. now right.
      * cbn [bind]. split; [now right|]. left. intros [_ H]. now apply H.
    + cbn [bind]. split; [now left|]. left. intros [H _]. now apply H.
Qed.

(** X19: [get_files] gives one validation file for every catalog entry when
    every entry has a method and responses; as soon as an entry lacks one of
    them it raises [KeyError] for that key and returns no file at all. *)
Theorem get_files_all_or_nothing api :
  match get_files api with
  | Ok files =>
      List.length files = List.length api /\
      Forall has_method_and_responses api
  | Raised e =>
      (e = KeyError "method" \/ e = KeyError "responses") /\
      Exists (fun item => ~ has_method_and_responses item) api
  end.
Proof. exact (get_files_from api []). Qed.

End ValidationFacts.

(** ** The path parameters of a service *)

Module ParameterFacts.
Import PyStr Vocabulary DictFacts TestsContainer PredictFacts.

Section WithSetSemantics.
Variable list_of_set : list string -> list string.
Hypothesis list_of_set_In : forall l x, In x (list_of_set l) <-> In x l.

(** X20: for a service of the groups, [_get_path_parameters] returns the
    names of the path parameters of the operations of the service that are
    not a POST, and nothing else: the path parameters of a POST never count
    when the identifier field is looked for. *)
Theorem path_parameters_of_dependants api service endpoints :
  dict_get (_get_endpoint_groups api) service = Some endpoints ->
  exists path_params,
    _get_path_parameters list_of_set api service = Ok path_params /\
    forall p,
      In p path_params <->
      exists e, In e endpoints /\ method e <> "POST" /\ In p (path_parameters e).
Proof.
  intros Hg. unfold _get_path_parameters. rewrite Hg.
  eexists. split; [reflexivity|]. intros p.
  rewrite list_of_set_In, unique_params_In. cbn [In]. tauto.
Qed.

End WithSetSemantics.

End ParameterFacts.

(** ** The further properties on sample catalogs *)

Module ExtraSamples.
Import PyStr Vocabulary DictFacts TestsContainer IdSpec TestSpec WiringSpec
  TemplateSpec PathSpec ModelSpec Samples MoreSamples PredictSamples.

Lemma mapping_within_service_witness :
  exists endpoints e,
    dict_get (_get_endpoint_groups api_orgs) "orgs" = Some endpoints /\
    In e endpoints /\
    source orgs_mapping = path e /\
    qualifies insertion_order api_orgs "orgs" e (id_field orgs_mapping) /\
    forall p,
      In p (used_in orgs_mapping) ->
      exists g prm,
        In g endpoints /\ p = path g /\
        mem_str (method g) ["GET"; "PUT"; "DELETE"; "PATCH"] = true /\
        In prm (parameters g) /\ p_type prm = "path".
Proof.
  apply (PredictExtras.mapping_within_service insertion_order api_orgs
           [("orgs", orgs_mapping)] "orgs" orgs_mapping).
  - vm_compute. reflexivity.
  - reflexivity.
Defined.

Lemma no_source_no_mapping_witness :
  dict_get (@nil (string * mapping)) "address" = None.
Proof.
  apply (PredictExtras.no_source_no_mapping insertion_order api_accepted []
           "address").
  - vm_compute. reflexivity.
  - intros endpoints e Hg Hin Hm. vm_compute in Hg. injection Hg as <-.
    destruct Hin as [<-|[<-|[]]].
    + split; reflexivity.
    + vm_compute in Hm. discriminate Hm.
Defined.

Lemma id_field_is_property_witness :
  dict_mem (properties_or_empty (object_of [("addressId", uuid_string)]))
    "addressId" = true.
Proof.
  apply (PredictExtras.id_field_is_property insertion_order api_address "address"
           (responses address_post) address_created
           (object_of [("addressId", uuid_string)]) "addressId").
  - vm_compute. reflexivity.
  - reflexivity.
  - reflexivity.
  - reflexivity.
Defined.

Lemma url_injected_iff_used_in_witness :
  let lines :=
    test_method_lines [("items", items_mapping)] "items" "common" items_get in
  (existsb is_add_url_line lines = true <->
   exists m, dict_get [("items", items_mapping)] "items" = Some m /\
             In (path items_get) (used_in m)) /\
  (existsb is_add_url_argument lines = true <->
   exists m, dict_get [("items", items_mapping)] "items" = Some m /\
             In (path items_get) (used_in m)) /\
  (forall m,
      dict_get [("items", items_mapping)] "items" = Some m ->
      In (path items_get) (used_in m) ->
      In (decorator_with_dependency "items" items_get (source_test_name m)) lines).
Proof.
  apply (WiringFacts.url_injected_iff_used_in insertion_order api_items
           [("items", items_mapping)] "items" "common" items_get).
  - vm_compute. reflexivity.
  - reflexivity.
Defined.

Lemma one_assertion_per_method_witness :
  List.filter is_assert_line
    (test_method_lines [("items", items_mapping)] "items" "common" items_delete)
  = [ "        assert response == ''" ].
Proof.
  apply (WiringFacts.one_assertion_per_method [("items", items_mapping)] "items"
           "common" items_delete (json_response 204 bare_object)).
  reflexivity.
Defined.

Lemma unmapped_class_has_no_wiring_witness :
  List.filter wiring_line (test_content_lines [] "ping" ping_group) = [].
Proof.
  apply (WiringFacts.unmapped_class_has_no_wiring [] "ping" ping_group).
  reflexivity.
Defined.

Lemma test_files_by_service_witness :
  let files :=
    _generate_test_files (_get_endpoint_groups api_items)
      [("items", items_mapping)] in
  map name files =
    map (fun group => test_file_name (group_title (snd group)) (fst group))
        (_get_endpoint_groups api_items) /\
  List.NoDup (map name files) /\
  forall file, In file files -> get_file_by_name files (name file) = Some file.
Proof.
  apply (TestFileFacts.test_files_by_service insertion_order api_items
           (_generate_test_files (_get_endpoint_groups api_items)
              [("items", items_mapping)])).
  vm_compute. reflexivity.
Defined.

Lemma source_test_is_emitted_witness :
  exists endpoints e,
    dict_get (_get_endpoint_groups api_items) "items" = Some endpoints /\
    In e endpoints /\ source items_mapping = path e /\ method e = "POST" /\
    (path_parameters e = [] \/ endpoint_name e = "items" ->
     In ("    async def " +:+ source_test_name items_mapping
         +:+ "(self, domain, api_client, models):")
        (test_content_lines [("items", items_mapping)] "items" endpoints)).
Proof.
  apply (TestFileFacts.source_test_is_emitted insertion_order api_items
           [("items", items_mapping)] "items" items_mapping).
  - vm_compute. reflexivity.
  - reflexivity.
Defined.

(** The source test is missing from the class when the source POST has a
    path parameter and is not the root endpoint: the class names its test
    with [_id_default], the mapping without. *)
Example source_test_renamed :
  let api :=
    [ ("POST /items/{itemId}/copy",
       entry "POST" [Param "itemId" "path"]
         [("201", json_response 201 (object_of [("itemId", uuid_string)]))]);
      ("GET /items/{itemId}",
       entry "GET" [Param "itemId" "path"]
         [("200", json_response 200 bare_object)]) ] in
  exists M m,
    _predict_id_usage insertion_order api = Ok M /\
    dict_get M "items" = Some m /\
    source_test_name m = "test_post_items_copy_default" /\
    List.filter is_def_line (test_content_lines M "items" (group_of api "items"))
    = [ "    async def test_post_items_copy_id_default(self, domain, api_client, models):";
        "    async def test_get_items_itemId_id_default(self, domain, api_client, models):" ].
Proof.
  cbv zeta. eexists. eexists.
  split; [vm_compute; reflexivity|].
  split; [reflexivity|]. split; vm_compute; reflexivity.
Qed.

Lemma trailing_slash_rule_witness :
  (static_parts "/users/{id}/orders" <> [] ->
   "/users/orders/" =
   "/" +:+ join "/" (static_parts "/users/{id}/orders")
   +:+ (if existsb EndpointsContainer.is_dynamic (path_parts "/users/{id}/orders")
        then "/" else EmptyString)) /\
  (static_parts "/users/{id}/orders" = [] ->
   "/users/orders/" =
   if Nat.leb 2 (List.length (path_parts "/users/{id}/orders")) then "//" else "/").
Proof.
  apply (TemplateFacts.trailing_slash_rule "/users/{id}/orders" "Users"
           "id_orders" "/users/orders/").
  vm_compute. reflexivity.
Defined.

(** A path of dynamic segments only. *)
Example all_dynamic_paths :
  EndpointsContainer.classify_path "/{tenant}" = Some ("{tenant}", "root", "/") /\
  EndpointsContainer.classify_path "/{tenant}/{id}" = Some ("{tenant}", "id", "//").
Proof. split; vm_compute; reflexivity. Qed.

Lemma declared_iff_classified_witness :
  declares (EndpointsContainer.paths_services insertion_order api_profile)
    "UsersProfile" "settings_section" <->
  exists key d path clean_path,
    In (key, d) api_profile /\ d_path d = Some path /\
    EndpointsContainer.classify_path path
    = Some ("UsersProfile", "settings_section", clean_path).
Proof.
  apply (TemplateFacts.declared_iff_classified insertion_order insertion_order_In
           api_profile "UsersProfile" "settings_section").
Defined.

Lemma object_properties_get_models_witness :
  let result :=
    ValidationsContainer._generate_pydantic_model two_addresses
      "ResponseSuccessBody" None 4 ∅ in
  "ResponseSuccessBodyHome" ∈ snd result /\
  ("ResponseSuccessBodyHome" ∉ (∅ : gset string) ->
   count_decl "ResponseSuccessBodyHome" (fst result) = 1).
Proof.
  apply (ValidationFacts.object_properties_get_models 3 (Some "object") None
           [("home", street_address); ("work", street_address)] None None None []
           "ResponseSuccessBody" None ∅ "home" street_address).
  - apply not_elem_of_empty.
  - reflexivity.
  - reflexivity.
  - left. reflexivity.
  - reflexivity.
Defined.

Lemma path_parameters_of_dependants_witness :
  exists path_params,
    _get_path_parameters insertion_order api_address "address" = Ok path_params /\
    forall p,
      In p path_params <->
      exists e,
        In e address_group /\ method e <> "POST" /\ In p (path_parameters e).
Proof.
  apply (ParameterFacts.path_parameters_of_dependants insertion_order
           insertion_order_In api_address "address" address_group).
  vm_compute. reflexivity.
Defined.

End ExtraSamples.
